(** * Contract-ownership verification: the Contracts route and the Contract Store

    A shallow embedding of
    - [apps/dapp-console-api/src/models/contracts.ts] (the Contract Store), and
    - the [ContractsRoute] class (the createContract, startVerification,
      completeVerification and deleteContract controllers, and the read
      controllers listContractsForApp and getContract),
    together with the properties the design document states about them.

    The relational store is a record of tables, each a list of rows in storage
    order; a query is a filter over the list, an update a map over it.  The
    controllers run in a state-and-error monad over the store.  Database
    statements can fail (the fault schedule of the collaborators record), and
    [transaction] rolls the store back when its body fails.  Metric counters
    and log lines are observational only and are left out. *)

From Stdlib Require Import String Ascii List ZArith Bool Lia DecimalString.
From Stdlib Require Import Sorted Permutation.
Import ListNotations.
Local Open Scope string_scope.
Local Open Scope Z_scope.

(** ** Scalars *)

Definition Id := string.          (* uuid columns *)
Definition Address := string.     (* viem [Address] *)
Definition Hash := string.        (* viem [Hash] *)
Definition Signature := string.
Definition ChainId := Z.          (* integer('chain_id') *)
Definition Timestamp := Z.        (* timestamp columns, as an instant *)

(** [export enum ContractState] *)
Inductive ContractState := NOT_VERIFIED | VERIFIED | DELETED.

(** Modelled from the spec: [ChallengeState] of './challenges', which is not
    among the sources embedded here: "state in {PENDING, COMPLETED, EXPIRED}".
    The route itself names PENDING and EXPIRED. *)
Inductive ChallengeState := PENDING | COMPLETED | EXPIRED.

Definition ContractState_eqb (a b : ContractState) : bool :=
  match a, b with
  | NOT_VERIFIED, NOT_VERIFIED | VERIFIED, VERIFIED | DELETED, DELETED => true
  | _, _ => false
  end.

Definition ChallengeState_eqb (a b : ChallengeState) : bool :=
  match a, b with
  | PENDING, PENDING | COMPLETED, COMPLETED | EXPIRED, EXPIRED => true
  | _, _ => false
  end.

(** JavaScript truthiness of a nullable string: [null], [undefined] and the
    empty string are falsy. *)
Definition truthy (o : option string) : bool :=
  match o with
  | Some s => negb (s =? "")%string
  | None => false
  end.

(** ** Rows *)

(** [export type Contract = InferSelectModel<typeof contracts>] *)
Module Contract.
Record t := mk {
    createdAt : Timestamp;
    updatedAt : Timestamp;
    id : Id;
    entityId : Id;
    chainId : ChainId;
    appId : Id;
    name : option string;
    contractAddress : Address;
    deployerAddress : Address;
    deploymentTxHash : Hash;
    state : ContractState
  }.
End Contract.

(** [export type InsertContract = InferInsertModel<typeof contracts>]: the
    columns with a default are optional. *)
Module InsertContract.
Record t := mk {
    createdAt : option Timestamp;
    updatedAt : option Timestamp;
    id : option Id;
    entityId : Id;
    chainId : ChainId;
    appId : Id;
    name : option string;
    contractAddress : Address;
    deployerAddress : Address;
    deploymentTxHash : Hash;
    state : option ContractState
  }.
End InsertContract.

(** Modelled from the spec: the Challenge row of './challenges', which is not
    among the sources embedded here.  "identity (id/challengeId), entityId,
    contractId, address, chainId, state, creation/expiry timestamp". *)
Module Challenge.
Record t := mk {
    createdAt : Timestamp;
    id : Id;
    entityId : Id;
    contractId : Id;
    address : Address;
    chainId : ChainId;
    state : ChallengeState
  }.
End Challenge.

(** The object handed to [insertChallenge] by startVerification. *)
Module InsertChallenge.
Record t := mk {
    entityId : Id;
    contractId : Id;
    address : Address;
    chainId : ChainId;
    state : ChallengeState
  }.
End InsertChallenge.

(** Modelled from the spec: the Transaction row of './transactions', which is
    not among the sources embedded here.  "linked 1:1 to a contract; records
    deployer, hash, chain id, contract id, deployment timestamp". *)
Module Transaction.
Record t := mk {
    entityId : Id;
    chainId : ChainId;
    contractId : Id;
    transactionHash : Hash;
    fromAddress : Address;
    blockTimestamp : Z
  }.
End Transaction.

(** The relational store. *)
Record Db := mkDb {
  contracts : list Contract.t;
  challenges : list Challenge.t;
  transactions : list Transaction.t
}.

(** ** Chain data, as the RPC client returns it *)

Module ViemTransaction.
Record t := mk { hash : Hash; blockHash : Hash }.
End ViemTransaction.

Module Receipt.
Record t := mk { contractAddress : option Address; from : Address }.
End Receipt.

Module Block.
Record t := mk { timestamp : Z }.
End Block.

Module TraceCall.
Record t := mk { type : string; to : Address }.
End TraceCall.

(** [tracedTransaction.calls?.length]: the [calls] array is optional. *)
Module Trace.
Record t := mk { calls : option (list TraceCall.t) }.
End Trace.

(** The input object of createContract, after the zod schema. *)
Module CreateContractInput.
Record t := mk {
  contractAddress : Address;
  deploymentTxHash : Hash;
  deployerAddress : Address;
  chainId : ChainId;
  appId : Id
}.
End CreateContractInput.

(** A promise of the RPC client: resolved with a value, or rejected. *)
Inductive Rpc (A : Type) := Resolved (a : A) | Rejected.
Arguments Resolved {A} a.
Arguments Rejected {A}.

(** An entry of [supportedChainsPublicClientsMap]. *)
Record PublicClient := mkClient {
  getTransaction : Hash -> Rpc ViemTransaction.t;
  getTransactionReceipt : Hash -> Rpc Receipt.t;
  getBlock : Hash -> Rpc Block.t;
  traceTransaction : Hash -> Rpc (option Trace.t);
  verifyMessage : Address -> string -> Signature -> Rpc bool
}.

(** ** Collaborators

    Everything the route takes from outside the two embedded sources: viem's
    [getAddress], the chain-client registry, [generateChallenge] of '@/utils',
    the validity window of a challenge, and the behaviour of the environment
    at each statement sent to the database server: whether the statement
    fails, the uuid [defaultRandom()] draws, and the wall-clock time that
    [new Date()] and [defaultNow()] read.

    viem's [getAddress] throws on a string that is not an address; the zod
    schema of the route lets none through, and [getAddress] is taken total. *)
Record Collaborators := mkCollaborators {
  getAddress : Address -> Address;
  supportedChainsPublicClientsMap : ChainId -> option PublicClient;
  generateChallenge : Address -> string;
  challengeValidity : Z;
  faults : nat -> bool;
  uuid : nat -> Id;
  clock : nat -> Timestamp
}.

(** ** Errors and the request monad *)

Inductive Error :=
| TrpcError (status : Z) (message : string)   (* Trpc.handleStatus *)
| NotAuthenticated                            (* assertUserAuthenticated *)
| DbError                                     (* a rejected database promise *)
| RpcError                                    (* a rejected RPC promise *)
| JsTypeError.                                (* a property read on undefined *)

Definition handleStatus (status : Z) (message : string) : Error :=
  TrpcError status message.

Inductive Result (A : Type) := Ok (a : A) | Err (e : Error).
Arguments Ok {A} a.
Arguments Err {A} e.

(** The store and the number of statements sent to the server so far. *)
Record World := mkWorld { db : Db; tick : nat }.

Definition M (A : Type) : Type := World -> Result A * World.

Definition ret {A} (a : A) : M A := fun w => (Ok a, w).

Definition throw {A} (e : Error) : M A := fun w => (Err e, w).

Definition bind {A B} (m : M A) (f : A -> M B) : M B :=
  fun w =>
    match m w with
    | (Ok a, w') => f a w'
    | (Err e, w') => (Err e, w')
    end.

(** [promise.catch((err) => { ...; throw e })] *)
Definition catchThrow {A} (m : M A) (e : Error) : M A :=
  fun w =>
    match m w with
    | (Ok a, w') => (Ok a, w')
    | (Err _, w') => (Err e, w')
    end.

Declare Scope req_scope.
Delimit Scope req_scope with req.
Notation "x <- m ;; k" := (bind m (fun x => k))
  (at level 100, m at next level, right associativity) : req_scope.
Notation "m ;;; k" := (bind m (fun _ => k))
  (at level 100, right associativity) : req_scope.
Local Open Scope req_scope.

(** An awaited RPC promise. *)
Definition await {A} (p : Rpc A) : M A :=
  match p with
  | Resolved a => ret a
  | Rejected => throw RpcError
  end.

(** ** The database connection *)

Section Route.

Variable C : Collaborators.

(** One statement sent to the server.  It either fails (the connection drops,
    the server rejects it), leaving the store as it was, or runs [run] on the
    store; [run] sees the statement number, from which the environment's uuid
    and clock are read. *)
Definition statement {A} (run : nat -> Db -> Result (A * Db)) : M A :=
  fun w =>
    if faults C (tick w) then (Err DbError, mkWorld (db w) (S (tick w)))
    else
      match run (tick w) (db w) with
      | Ok (a, d) => (Ok a, mkWorld d (S (tick w)))
      | Err e => (Err e, mkWorld (db w) (S (tick w)))
      end.

(** [db.select()] / [db.query.*.findMany]: reads only. *)
Definition query {A} (f : nat -> Db -> A) : M A :=
  statement (fun n d => Ok (f n d, d)).

(** [db.transaction(async (tx) => body)]: BEGIN, the body, COMMIT.  When the
    body throws, or BEGIN or COMMIT fails, the store is rolled back to what it
    was and the error is rethrown. *)
Definition transaction {A} (body : M A) : M A :=
  fun w =>
    if faults C (tick w) then (Err DbError, mkWorld (db w) (S (tick w)))
    else
      match body (mkWorld (db w) (S (tick w))) with
      | (Ok a, w') =>
          if faults C (tick w') then (Err DbError, mkWorld (db w) (S (tick w')))
          else (Ok a, mkWorld (db w') (S (tick w')))
      | (Err e, w') => (Err e, mkWorld (db w) (tick w'))
      end.

(** [update(t).set(f).where(p)] and its [.returning()] rows. *)
Definition update {R} (p : R -> bool) (f : R -> R) (rows : list R) : list R :=
  map (fun r => if p r then f r else r) rows.

Definition returning {R} (p : R -> bool) (f : R -> R) (rows : list R) : list R :=
  map f (filter p rows).

Definition set_contracts (d : Db) (cs : list Contract.t) : Db :=
  mkDb cs (challenges d) (transactions d).

Definition set_challenges (d : Db) (chs : list Challenge.t) : Db :=
  mkDb (contracts d) chs (transactions d).

(** ** Contract Store (models/contracts.ts) *)

(** The joined row of [getActiveContract]; the entity and rebate tables are
    outside the embedded sources and are not carried. *)
Record ContractWithTxRebateAndEntity := mkJoined {
  joinedContract : Contract.t;
  joinedTransaction : option Transaction.t
}.

(** [and(eq(contracts.id, contractId), eq(contracts.entityId, entityId),
    ne(contracts.state, ContractState.DELETED))] *)
Definition activeContract (contractId entityId : Id) (c : Contract.t) : bool :=
  (Contract.id c =? contractId)%string
  && (Contract.entityId c =? entityId)%string
  && negb (ContractState_eqb (Contract.state c) DELETED).

Definition getActiveContract (contractId entityId : Id)
  : M (option ContractWithTxRebateAndEntity) :=
  query (fun _ d =>
    let results := filter (activeContract contractId entityId) (contracts d) in
    option_map
      (fun c => mkJoined c
         (find (fun t => (Transaction.contractId t =? Contract.id c)%string)
               (transactions d)))
      (hd_error results)).

(** [and(eq(contracts.entityId, entityId), eq(contracts.contractAddress, address),
    eq(contracts.chainId, chainId))] *)
Definition slotOf (entityId : Id) (address : Address) (chainId : ChainId)
  (c : Contract.t) : bool :=
  (Contract.entityId c =? entityId)%string
  && (Contract.contractAddress c =? address)%string
  && (Contract.chainId c =? chainId)%Z.

Definition getContractByAddressAndChainId
  (contractAddress : Address) (chainId : ChainId) (entityId : Id)
  : M (option Contract.t) :=
  query (fun _ d =>
    hd_error
      (filter (slotOf entityId (getAddress C contractAddress) chainId) (contracts d))).

(** [state: ContractState.VERIFIED | ContractState.NOT_VERIFIED] *)
Inductive RestoredState := RestoreVerified | RestoreNotVerified.

Definition restoredState (s : RestoredState) : ContractState :=
  match s with
  | RestoreVerified => VERIFIED
  | RestoreNotVerified => NOT_VERIFIED
  end.

(** [.set({ state, appId, updatedAt: new Date() })] *)
Definition setContractStateAndApp
  (state : ContractState) (appId : Id) (now : Timestamp) (c : Contract.t) : Contract.t :=
  Contract.mk (Contract.createdAt c) now (Contract.id c)
    (Contract.entityId c) (Contract.chainId c) appId (Contract.name c)
    (Contract.contractAddress c) (Contract.deployerAddress c)
    (Contract.deploymentTxHash c) state.

Definition restoreDeletedContract
  (contractId appId : Id) (state : RestoredState) : M (option Contract.t) :=
  statement (fun n d =>
    let p := fun c => (Contract.id c =? contractId)%string in
    let f := setContractStateAndApp (restoredState state) appId (clock C n) in
    Ok (hd_error (returning p f (contracts d)),
        set_contracts d (update p f (contracts d)))).

Definition hasAlreadyVerifiedDeployer (entityId : Id) (deployerAddress : Address)
  : M bool :=
  query (fun _ d =>
    let results :=
      firstn 1
        (filter (fun c =>
                   (Contract.entityId c =? entityId)%string
                   && ContractState_eqb (Contract.state c) VERIFIED
                   && (Contract.deployerAddress c =? getAddress C deployerAddress)%string)
                (contracts d)) in
    (0 <? length results)%nat).

(** The row [insert(contracts).values(v)] builds: defaults fill the optional
    columns ([defaultNow()], [defaultRandom()], [default(NOT_VERIFIED)]). *)
Definition contractRow (n : nat) (v : InsertContract.t) : Contract.t :=
  Contract.mk
    (match InsertContract.createdAt v with Some t => t | None => clock C n end)
    (match InsertContract.updatedAt v with Some t => t | None => clock C n end)
    (match InsertContract.id v with Some i => i | None => uuid C n end)
    (InsertContract.entityId v) (InsertContract.chainId v)
    (InsertContract.appId v) (InsertContract.name v)
    (InsertContract.contractAddress v) (InsertContract.deployerAddress v)
    (InsertContract.deploymentTxHash v)
    (match InsertContract.state v with Some s => s | None => NOT_VERIFIED end).

(** The constraints of the [contracts] table: [primaryKey()] on id and
    [uniqueIndex().on(entityId, chainId, contractAddress)]. *)
Definition violatesContractConstraints (r : Contract.t) (rows : list Contract.t) : bool :=
  existsb (fun c =>
             (Contract.id c =? Contract.id r)%string
             || ((Contract.entityId c =? Contract.entityId r)%string
                 && (Contract.chainId c =? Contract.chainId r)%Z
                 && (Contract.contractAddress c =? Contract.contractAddress r)%string))
          rows.

Definition insertContract (contract : InsertContract.t) : M (option Contract.t) :=
  let normalizedContract :=
    InsertContract.mk
      (InsertContract.createdAt contract) (InsertContract.updatedAt contract)
      (InsertContract.id contract) (InsertContract.entityId contract)
      (InsertContract.chainId contract) (InsertContract.appId contract)
      (InsertContract.name contract)
      (getAddress C (InsertContract.contractAddress contract))
      (getAddress C (InsertContract.deployerAddress contract))
      (InsertContract.deploymentTxHash contract) (InsertContract.state contract) in
  statement (fun n d =>
    let r := contractRow n normalizedContract in
    if violatesContractConstraints r (contracts d) then Err DbError
    else Ok (hd_error [r], set_contracts d (contracts d ++ [r]))).

(** [and(eq(contracts.entityId, entityId), eq(contracts.id, contractId))] *)
Definition ownedContract (entityId contractId : Id) (c : Contract.t) : bool :=
  (Contract.entityId c =? entityId)%string && (Contract.id c =? contractId)%string.

(** [.set({ state, updatedAt: new Date() })] *)
Definition setContractState (state : ContractState) (now : Timestamp) (c : Contract.t)
  : Contract.t :=
  Contract.mk (Contract.createdAt c) now (Contract.id c)
    (Contract.entityId c) (Contract.chainId c) (Contract.appId c)
    (Contract.name c) (Contract.contractAddress c)
    (Contract.deployerAddress c) (Contract.deploymentTxHash c) state.

Definition verifyContract (entityId contractId : Id) : M (option Contract.t) :=
  statement (fun n d =>
    let p := ownedContract entityId contractId in
    let f := setContractState VERIFIED (clock C n) in
    Ok (hd_error (returning p f (contracts d)),
        set_contracts d (update p f (contracts d)))).

Definition deleteContract (entityId contractId : Id) : M (option Contract.t) :=
  statement (fun n d =>
    let p := ownedContract entityId contractId in
    let f := setContractState DELETED (clock C n) in
    Ok (hd_error (returning p f (contracts d)),
        set_contracts d (update p f (contracts d)))).

(** ** Challenge Store *)

(** Modelled from the spec: the expiry test of './challenges', which is not
    among the sources embedded here.  "Challenge expiry is time-based and
    evaluated at read time (unexpired = created within a fixed validity window
    and not already completed/expired)". *)
Definition unexpired (now : Timestamp) (ch : Challenge.t) : bool :=
  ChallengeState_eqb (Challenge.state ch) PENDING
  && (now <? Challenge.createdAt ch + challengeValidity C)%Z.

(** Modelled from the spec: the where-clause of [getUnexpiredChallenge], for
    "at most one unexpired challenge ... per contract", scoped to the entity. *)
Definition unexpiredFor (entityId contractId : Id) (now : Timestamp) (ch : Challenge.t)
  : bool :=
  (Challenge.contractId ch =? contractId)%string
  && (Challenge.entityId ch =? entityId)%string
  && unexpired now ch.

(** Modelled from the spec: [getUnexpiredChallenge(entityId, contractId)] of
    './challenges', which is not among the sources embedded here: the unexpired
    challenge of this contract and entity, if any. *)
Definition getUnexpiredChallenge (entityId contractId : Id) : M (option Challenge.t) :=
  query (fun n d =>
    hd_error (filter (unexpiredFor entityId contractId (clock C n)) (challenges d))).

(** The where-clause "this id, this entity" of the Challenge Store. *)
Definition ownedChallenge (entityId challengeId : Id) (ch : Challenge.t) : bool :=
  (Challenge.id ch =? challengeId)%string && (Challenge.entityId ch =? entityId)%string.

(** Modelled from the spec: [getChallengeByChallengeId(entityId, challengeId)]
    of './challenges', which is not among the sources embedded here: "look up
    challenge by id, entity-scoped". *)
Definition getChallengeByChallengeId (entityId challengeId : Id) : M (option Challenge.t) :=
  query (fun _ d =>
    hd_error (filter (ownedChallenge entityId challengeId) (challenges d))).

(** Modelled from the spec: [insertChallenge(challenge)] of './challenges',
    which is not among the sources embedded here: inserts the row, with a
    fresh id and the current time as creation time, and returns it. *)
Definition insertChallenge (challenge : InsertChallenge.t) : M Challenge.t :=
  statement (fun n d =>
    let r :=
      Challenge.mk (clock C n) (uuid C n)
        (InsertChallenge.entityId challenge) (InsertChallenge.contractId challenge)
        (InsertChallenge.address challenge) (InsertChallenge.chainId challenge)
        (InsertChallenge.state challenge) in
    if existsb (fun ch => (Challenge.id ch =? Challenge.id r)%string) (challenges d)
    then Err DbError
    else Ok (r, set_challenges d (challenges d ++ [r]))).

Definition setChallengeState (state : ChallengeState) (ch : Challenge.t) : Challenge.t :=
  Challenge.mk (Challenge.createdAt ch) (Challenge.id ch)
    (Challenge.entityId ch) (Challenge.contractId ch) (Challenge.address ch)
    (Challenge.chainId ch) state.

(** Modelled from the spec: [completeChallenge(entityId, challengeId)] of
    './challenges', which is not among the sources embedded here: "sets
    COMPLETED", on the challenge of that id and entity. *)
Definition completeChallenge (entityId challengeId : Id) : M unit :=
  statement (fun _ d =>
    Ok (tt, set_challenges d
              (update (ownedChallenge entityId challengeId)
                      (setChallengeState COMPLETED) (challenges d)))).

(** ** Transaction Store and utilities *)

(** Modelled from the spec: [viemContractDeploymentTransactionToDbTransaction]
    of './transactions', which is not among the sources embedded here: the
    transaction row "records deployer, hash, chain id, contract id, deployment
    timestamp". *)
Definition viemContractDeploymentTransactionToDbTransaction
  (transactionReceipt : Receipt.t) (transaction : ViemTransaction.t)
  (entityId : Id) (chainId : ChainId) (contractId : Id) (deploymentTimestamp : Z)
  : Transaction.t :=
  Transaction.mk entityId chainId contractId (ViemTransaction.hash transaction)
    (Receipt.from transactionReceipt) deploymentTimestamp.

(** Modelled from the spec: [insertTransaction] of './transactions', which is
    not among the sources embedded here: the row is "created once, at contract
    insertion time". *)
Definition insertTransaction (t : Transaction.t) : M unit :=
  statement (fun _ d =>
    Ok (tt, mkDb (contracts d) (challenges d) (transactions d ++ [t]))).

(** Modelled from the spec: [addressEqualityCheck] of '@/utils', which is not
    among the sources embedded here: "case-insensitive/checksum-normalized
    equality". *)
Definition addressEqualityCheck (a b : Address) : bool :=
  (getAddress C a =? getAddress C b)%string.

(** The session user the authentication middleware supplies. *)
Record User := mkUser { userEntityId : Id; privyDid : string }.

(** Modelled from the spec: [assertUserAuthenticated] of '../utils', which is
    not among the sources embedded here: "the core rejects (not-authenticated
    error) if absent". *)
Definition assertUserAuthenticated (user : option User) : M User :=
  match user with
  | Some u => ret u
  | None => throw NotAuthenticated
  end.

(** ** The Contracts route *)

(** The created address a trace yields: the target of its only call, when
    that call is a CREATE2. *)
Definition tracedContractAddress (tracedTransaction : option Trace.t) : option Address :=
  match tracedTransaction with
  | Some t =>
      match Trace.calls t with
      | Some calls =>
          if (length calls =? 1)%nat then
            match nth_error calls 0 with
            | Some call0 =>
                if (TraceCall.type call0 =? "CREATE2")%string
                then Some (TraceCall.to call0) else None
            | None => None
            end
          else None
      | None => None
      end
  | None => None
  end.

(** The atomic unit of createContract: the callback of [database.transaction]. *)
Definition createContractUnit
  (user : User) (deploymentTx : ViemTransaction.t) (deploymentTxReceipt : Receipt.t)
  (deploymentBlock : Block.t) (inputContractAddress inputDeployerAddress : Address)
  (deploymentTxHash : Hash) (chainId : ChainId) (appId : Id)
  : M (option Contract.t) :=
  isDeployerVerified <- hasAlreadyVerifiedDeployer (userEntityId user) inputDeployerAddress ;;
  existingContract <-
    getContractByAddressAndChainId inputContractAddress chainId (userEntityId user) ;;
  match existingContract with
  | Some existing =>
      if negb (ContractState_eqb (Contract.state existing) DELETED)
      then throw (handleStatus 400 "contract already exists")
      else
        restoredContract <-
          catchThrow
            (restoreDeletedContract (Contract.id existing) appId
               (if isDeployerVerified then RestoreVerified else RestoreNotVerified))
            (handleStatus 500 "error restoring deleted contract") ;;
        ret restoredContract
  | None =>
      contract <-
        insertContract
          (InsertContract.mk None None None (userEntityId user) chainId appId None
             inputContractAddress inputDeployerAddress deploymentTxHash
             (Some (if isDeployerVerified then VERIFIED else NOT_VERIFIED))) ;;
      match contract with
      | Some c =>
          insertTransaction
            (viemContractDeploymentTransactionToDbTransaction
               deploymentTxReceipt deploymentTx (userEntityId user) chainId
               (Contract.id c) (Block.timestamp deploymentBlock)) ;;;
          ret contract
      | None => throw JsTypeError
      end
  end.

(** The created-contract address: the receipt's own field, else the trace. *)
Definition resolveTxContractAddress
  (publicClient : PublicClient) (deploymentTxReceipt : Receipt.t)
  (deploymentTxHash : Hash) : M (option Address) :=
  if truthy (Receipt.contractAddress deploymentTxReceipt)
  then ret (Receipt.contractAddress deploymentTxReceipt)
  else
    tracedTransaction <-
      catchThrow (await (traceTransaction publicClient deploymentTxHash))
        (handleStatus 500 "error fetching deployment transaction") ;;
    ret (tracedContractAddress tracedTransaction).

(** createContract once the created address is known to be [txContractAddress]:
    the two address checks, then the atomic unit. *)
Definition registerResolvedContract
  (user : User) (deploymentTx : ViemTransaction.t) (deploymentTxReceipt : Receipt.t)
  (deploymentBlock : Block.t) (txContractAddress : Address)
  (inputContractAddress inputDeployerAddress : Address)
  (deploymentTxHash : Hash) (chainId : ChainId) (appId : Id)
  : M (option Contract.t) :=
  if negb (addressEqualityCheck (Receipt.from deploymentTxReceipt) inputDeployerAddress)
  then throw (handleStatus 400 "deployer address does not match deployment transaction")
  else if negb (addressEqualityCheck txContractAddress inputContractAddress)
  then throw (handleStatus 400 "contract was not created by deployment transaction")
  else
    catchThrow
      (transaction
         (createContractUnit user deploymentTx deploymentTxReceipt deploymentBlock
            inputContractAddress inputDeployerAddress deploymentTxHash chainId appId))
      (handleStatus 500 "error creating contract").

Definition createContractController
  (sessionUser : option User) (input : CreateContractInput.t)
  : M (option Contract.t) :=
  let deploymentTxHash := CreateContractInput.deploymentTxHash input in
  let chainId := CreateContractInput.chainId input in
  let appId := CreateContractInput.appId input in
  let inputContractAddress := getAddress C (CreateContractInput.contractAddress input) in
  let inputDeployerAddress := getAddress C (CreateContractInput.deployerAddress input) in
  user <- assertUserAuthenticated sessionUser ;;
  match supportedChainsPublicClientsMap C chainId with
  | None => throw (handleStatus 400 "chain not supported")
  | Some publicClient =>
      deploymentTx <-
        catchThrow (await (getTransaction publicClient deploymentTxHash))
          (handleStatus 400 "error fetching deployment transaction") ;;
      deploymentTxReceipt <-
        catchThrow (await (getTransactionReceipt publicClient deploymentTxHash))
          (handleStatus 400 "error fetching deployment transaction") ;;
      deploymentBlock <-
        catchThrow (await (getBlock publicClient (ViemTransaction.blockHash deploymentTx)))
          (handleStatus 400 "error fetching deployment transaction") ;;
      txContractAddress <-
        resolveTxContractAddress publicClient deploymentTxReceipt deploymentTxHash ;;
      if negb (truthy txContractAddress) then
        throw (handleStatus 400
                 "the provided deployment transaction did not create a contract")
      else
        match txContractAddress with
        | Some txAddress =>
            registerResolvedContract user deploymentTx deploymentTxReceipt
              deploymentBlock txAddress inputContractAddress inputDeployerAddress
              deploymentTxHash chainId appId
        | None => throw JsTypeError   (* not reached: None is falsy *)
        end
  end.

(** What startVerification returns: the challenge row, with the message to
    sign under the key [challenge]. *)
Record IssuedChallenge := mkIssued {
  issuedRow : Challenge.t;
  challenge : string
}.

Definition startVerificationController
  (sessionUser : option User) (contractId : Id) : M IssuedChallenge :=
  user <- assertUserAuthenticated sessionUser ;;
  found <-
    catchThrow (getActiveContract contractId (userEntityId user))
      (handleStatus 500 "error fetching contract") ;;
  match found with
  | None => throw (handleStatus 400 "contract does not exist")
  | Some joined =>
      let contract := joinedContract joined in
      if ContractState_eqb (Contract.state contract) VERIFIED
      then throw (handleStatus 400 "contract is already verified")
      else
        challenge <-
          catchThrow (getUnexpiredChallenge (userEntityId user) contractId)
            (handleStatus 500 "error fetching challenge") ;;
        let challengeToComplete := generateChallenge C (Contract.deployerAddress contract) in
        match challenge with
        | Some existing => ret (mkIssued existing challengeToComplete)
        | None =>
            result <-
              catchThrow
                (insertChallenge
                   (InsertChallenge.mk (userEntityId user) contractId
                      (Contract.deployerAddress contract) (Contract.chainId contract)
                      PENDING))
                (handleStatus 500 "error creating challenge") ;;
            ret (mkIssued result challengeToComplete)
        end
  end.

(** [{ success: true }] *)
Record Success := mkSuccess { success : bool }.

(** The atomic unit of completeVerification. *)
Definition completeVerificationUnit (user : User) (challengeId contractId : Id) : M unit :=
  completeChallenge (userEntityId user) challengeId ;;;
  verifyContract (userEntityId user) contractId ;;;
  ret tt.

Definition completeVerificationController
  (sessionUser : option User) (challengeId : Id) (signature : Signature)
  : M Success :=
  user <- assertUserAuthenticated sessionUser ;;
  challenge <-
    catchThrow (getChallengeByChallengeId (userEntityId user) challengeId)
      (handleStatus 500 "error fetching challenge") ;;
  match challenge with
  | None => throw (handleStatus 400 "challenge does not exist or is expired")
  | Some challenge =>
      if ChallengeState_eqb (Challenge.state challenge) EXPIRED
      then throw (handleStatus 400 "challenge does not exist or is expired")
      else
        match supportedChainsPublicClientsMap C (Challenge.chainId challenge) with
        | None =>
            throw (handleStatus 500
                     ("challenge is on invalid chain id: "
                      ++ NilZero.string_of_int (Z.to_int (Challenge.chainId challenge))))
        | Some publicClient =>
            result <-
              await (verifyMessage publicClient (Challenge.address challenge)
                       (generateChallenge C (Challenge.address challenge)) signature) ;;
            if negb result
            then throw (handleStatus 400 "challenge was not completed successfully")
            else
              catchThrow
                (transaction
                   (completeVerificationUnit user challengeId
                      (Challenge.contractId challenge)))
                (handleStatus 500 "server failed to mark challenge as complete") ;;;
              ret (mkSuccess true)
        end
  end.

Definition deleteContractController
  (sessionUser : option User) (contractId : Id) : M Success :=
  user <- assertUserAuthenticated sessionUser ;;
  catchThrow (deleteContract (userEntityId user) contractId)
    (handleStatus 500 "error deleting contract") ;;;
  ret (mkSuccess true).

End Route.

(** ** Contract Store: listing, and the read controllers *)

Section Reads.

Variable C : Collaborators.

(** [addRebateEligibilityToContract] of '@/utils' is not among the sources
    embedded here; the read controllers map their rows through it, and it is
    taken as a parameter, with its result type. *)
Variable Listed : Type.
Variable addRebateEligibilityToContract : ContractWithTxRebateAndEntity -> Listed.

(** [and(eq(contracts.appId, appId), eq(contracts.entityId, entityId),
    ne(contracts.state, ContractState.DELETED))] *)
Definition appContract (appId entityId : Id) (c : Contract.t) : bool :=
  (Contract.appId c =? appId)%string
  && (Contract.entityId c =? entityId)%string
  && negb (ContractState_eqb (Contract.state c) DELETED).

(** [orderBy: asc(contracts.createdAt)], as a stable insertion sort. *)
Fixpoint insertByCreatedAt (c : Contract.t) (rows : list Contract.t) : list Contract.t :=
  match rows with
  | [] => [c]
  | r :: rest =>
      if (Contract.createdAt c <=? Contract.createdAt r)%Z
      then c :: r :: rest
      else r :: insertByCreatedAt c rest
  end.

Definition orderByCreatedAt (rows : list Contract.t) : list Contract.t :=
  fold_right insertByCreatedAt [] rows.

(** [with: { entity: true, transaction: true, deploymentRebate: true }], for
    the one relation carried. *)
Definition withRelations (d : Db) (c : Contract.t) : ContractWithTxRebateAndEntity :=
  mkJoined c
    (find (fun t => (Transaction.contractId t =? Contract.id c)%string)
          (transactions d)).

Definition getActiveContractsForApp (entityId appId : Id)
  : M (list ContractWithTxRebateAndEntity) :=
  query C (fun _ d =>
    map (withRelations d)
      (orderByCreatedAt (filter (appContract appId entityId) (contracts d)))).

(** The whole body of the query sits in one try block, the assertion on the
    session user included. *)
Definition listContractsForAppController
  (sessionUser : option User) (appId : Id) : M (list Listed) :=
  catchThrow
    (user <- assertUserAuthenticated sessionUser ;;
     contracts <- getActiveContractsForApp (userEntityId user) appId ;;
     ret (map addRebateEligibilityToContract contracts))
    (handleStatus 500 "error fetching contracts").

Definition getContractController
  (sessionUser : option User) (contractId : Id) : M Listed :=
  user <- assertUserAuthenticated sessionUser ;;
  found <-
    catchThrow (getActiveContract C contractId (userEntityId user))
      (handleStatus 500 "error fetching contract") ;;
  match found with
  | None => throw (handleStatus 400 "contract does not exist")
  | Some contract => ret (addRebateEligibilityToContract contract)
  end.

End Reads.

(** ** Observations on the store *)

(** The state of the challenge that entity [entityId] sees under [challengeId]. *)
Definition challengeStateOf (d : Db) (entityId challengeId : Id) : option ChallengeState :=
  option_map Challenge.state
    (hd_error (filter (ownedChallenge entityId challengeId) (challenges d))).

(** The state of the contract row of id [contractId] owned by [entityId]. *)
Definition contractStateOf (d : Db) (entityId contractId : Id) : option ContractState :=
  option_map Contract.state
    (hd_error (filter (ownedContract entityId contractId) (contracts d))).

(** Whether the environment fails one of the four statements of a two-update
    transaction that starts at statement [n]: BEGIN, the updates, COMMIT. *)
Definition unitFaulty (C : Collaborators) (n : nat) : bool :=
  faults C n || faults C (S n) || faults C (S (S n)) || faults C (S (S (S n))).

(** A request is rejected when it ends in an error. *)
Definition rejected {A} (outcome : Result A * World) : Prop :=
  exists e, fst outcome = Err e.

(** The contract rows that belong to entities other than [entityId]. *)
Definition rowsOfOthers (entityId : Id) (d : Db) : list Contract.t :=
  filter (fun c => negb (Contract.entityId c =? entityId)%string) (contracts d).

(** The primary key of the [contracts] table holds in [d]. *)
Definition primaryKeyed (d : Db) : Prop :=
  NoDup (map Contract.id (contracts d)).

(** Referential integrity of the [challenges] table: every challenge points
    at a contract row of its own entity. *)
Definition challengesOwned (d : Db) : Prop :=
  forall ch, In ch (challenges d) ->
    exists c, In c (contracts d)
              /\ ownedContract (Challenge.entityId ch) (Challenge.contractId ch) c = true.

Definition storeConsistent (d : Db) : Prop :=
  primaryKeyed d /\ challengesOwned d.

(** A computation keeps an invariant of the store, however it ends. *)
Definition keeps {A} (I : Db -> Prop) (m : M A) : Prop :=
  forall w, I (db w) -> I (db (snd (m w))).

(** The requests of the route, by an authenticated user. *)
Inductive Request :=
| CreateContract (user : User) (input : CreateContractInput.t)
| StartVerification (user : User) (contractId : Id)
| CompleteVerification (user : User) (challengeId : Id) (signature : Signature)
| DeleteContract (user : User) (contractId : Id).

(** The world a request leaves behind. *)
Definition serve (C : Collaborators) (request : Request) (w : World) : World :=
  match request with
  | CreateContract user input =>
      snd (createContractController C (Some user) input w)
  | StartVerification user contractId =>
      snd (startVerificationController C (Some user) contractId w)
  | CompleteVerification user challengeId signature =>
      snd (completeVerificationController C (Some user) challengeId signature w)
  | DeleteContract user contractId =>
      snd (deleteContractController C (Some user) contractId w)
  end.

(** The request is answered with an error. *)
Definition refused (C : Collaborators) (request : Request) (w : World) : Prop :=
  match request with
  | CreateContract user input =>
      rejected (createContractController C (Some user) input w)
  | StartVerification user contractId =>
      rejected (startVerificationController C (Some user) contractId w)
  | CompleteVerification user challengeId signature =>
      rejected (completeVerificationController C (Some user) challengeId signature w)
  | DeleteContract user contractId =>
      rejected (deleteContractController C (Some user) contractId w)
  end.

(** The worlds the route can bring an empty store to. *)
Inductive reachable (C : Collaborators) : World -> Prop :=
| reachable_empty : forall n, reachable C (mkWorld (mkDb [] [] []) n)
| reachable_serve : forall w request,
    reachable C w -> reachable C (serve C request w).

(** Challenge ids are unique in [d]. *)
Definition challengeKeyed (d : Db) : Prop :=
  NoDup (map Challenge.id (challenges d)).

(** Every challenge is bound to a contract row of its own entity, and carries
    that contract's deployer address and chain id. *)
Definition challengesBound (d : Db) : Prop :=
  forall ch, In ch (challenges d) ->
    exists c, In c (contracts d)
              /\ ownedContract (Challenge.entityId ch) (Challenge.contractId ch) c = true
              /\ Contract.deployerAddress c = Challenge.address ch
              /\ Contract.chainId c = Challenge.chainId ch.

Definition protocolInvariant (d : Db) : Prop :=
  primaryKeyed d /\ challengeKeyed d /\ challengesBound d.

(** An environment in which no database statement fails. *)
Definition faultless (C : Collaborators) : Prop :=
  forall n, faults C n = false.

(** The columns of [uniqueIndex().on(entityId, chainId, contractAddress)]. *)
Definition slotKey (c : Contract.t) : Id * ChainId * Address :=
  (Contract.entityId c, Contract.chainId c, Contract.contractAddress c).

(** The unique index of the [contracts] table holds in [d]. *)
Definition slotUnique (d : Db) : Prop :=
  NoDup (map slotKey (contracts d)).

(** The order [asc(contracts.createdAt)] asks for. *)
Definition createdNoLater (a b : Contract.t) : Prop :=
  (Contract.createdAt a <= Contract.createdAt b)%Z.

(** The shape of trace the CREATE2 fallback accepts: exactly one internal
    call, of type CREATE2. *)
Definition singleCreate2 (tracedTransaction : option Trace.t) (call : TraceCall.t) : Prop :=
  exists t, tracedTransaction = Some t
            /\ Trace.calls t = Some [call]
            /\ TraceCall.type call = "CREATE2".

(** ** Letter case of addresses *)

Definition lowerAscii (c : ascii) : ascii :=
  let n := nat_of_ascii c in
  if ((65 <=? n) && (n <=? 90))%nat then ascii_of_nat (n + 32) else c.

Fixpoint toLowerCase (s : string) : string :=
  match s with
  | EmptyString => EmptyString
  | String c r => String (lowerAscii c) (toLowerCase r)
  end.

(** Two spellings of one address: equal up to the case of their letters. *)
Definition sameModuloCase (a b : Address) : Prop :=
  toLowerCase a = toLowerCase b.

(** What viem's [getAddress] guarantees on validated input: the checksum form
    depends on the hex digits only, not on the casing they were given in. *)
Definition caseInsensitive (C : Collaborators) : Prop :=
  forall a b, sameModuloCase a b -> getAddress C a = getAddress C b.

(** ... and the checksum form of a checksum form is itself. *)
Definition idempotentChecksum (C : Collaborators) : Prop :=
  forall a, getAddress C (getAddress C a) = getAddress C a.

(** ** Sample collaborators and stores, for the concrete runs *)

Definition sampleClient (receiptAddress : option Address) (trace : Rpc (option Trace.t))
  : PublicClient :=
  mkClient
    (fun h => Resolved (ViemTransaction.mk h "0xb10c"))
    (fun _ => Resolved (Receipt.mk receiptAddress "0xdef0"))
    (fun _ => Resolved (Block.mk 1700000000))
    (fun _ => trace)
    (fun _ _ signature => Resolved (signature =? "0x600d")%string).

(** A stand-in normal form (lower case) in place of the keccak checksum. *)
Definition sampleCollaborators (client : PublicClient) (faulty : nat -> bool)
  : Collaborators :=
  mkCollaborators
    toLowerCase
    (fun chainId => if (chainId =? 10)%Z then Some client else None)
    (fun address => "I verify that I control " ++ address)
    3600
    faulty
    (fun n => "uuid-" ++ NilZero.string_of_uint (Nat.to_uint n))
    (fun n => 1000 + Z.of_nat n).

Definition noFaults : nat -> bool := fun _ => false.

(** The environment fails statement [k] and no other. *)
Definition failAt (k : nat) : nat -> bool := fun n => Nat.eqb n k.

Definition plainClient : PublicClient := sampleClient (Some "0xABC1") Rejected.

Definition alice : User := mkUser "entity-A" "did:privy:alice".

Definition sampleContract (id entityId : Id) (state : ContractState) : Contract.t :=
  Contract.mk 100 100 id entityId 10 "app-1" None "0xabc1" "0xdef0" "0x1111" state.

Definition sampleChallenge (state : ChallengeState) : Challenge.t :=
  Challenge.mk 500 "challenge-1" "entity-A" "contract-1" "0xdef0" 10 state.

Definition sampleWorld (contractState : ContractState) (challengeState : ChallengeState)
  : World :=
  mkWorld
    (mkDb [sampleContract "contract-1" "entity-A" contractState]
          [sampleChallenge challengeState] [])
    0.

(** A store with three contracts of entity-A in app-1, created out of order,
    one of them deleted, and one contract of entity-B. *)
Definition listingWorld : World :=
  mkWorld
    (mkDb
       [Contract.mk 300 300 "contract-3" "entity-A" 10 "app-1" None "0xabc3" "0xdef0"
          "0x3333" NOT_VERIFIED;
        Contract.mk 100 100 "contract-1" "entity-A" 10 "app-1" None "0xabc1" "0xdef0"
          "0x1111" VERIFIED;
        Contract.mk 200 250 "contract-2" "entity-A" 10 "app-1" None "0xabc2" "0xdef0"
          "0x2222" DELETED;
        Contract.mk 150 150 "contract-4" "entity-B" 10 "app-1" None "0xabc4" "0xdef0"
          "0x4444" NOT_VERIFIED]
       [] [])
    0.

(** A client whose verifier endpoint fails. *)
Definition deafClient : PublicClient :=
  mkClient
    (fun h => Resolved (ViemTransaction.mk h "0xb10c"))
    (fun _ => Resolved (Receipt.mk (Some "0xABC1") "0xdef0"))
    (fun _ => Resolved (Block.mk 1700000000))
    (fun _ => Rejected)
    (fun _ _ _ => Rejected).

(** A store whose only challenge was issued on chain 999. *)
Definition strayChainWorld : World :=
  mkWorld
    (mkDb [sampleContract "contract-1" "entity-A" NOT_VERIFIED]
          [Challenge.mk 500 "challenge-1" "entity-A" "contract-1" "0xdef0" 999 PENDING]
          [])
    0.

(** A store where the contract was deleted after its challenge was issued. *)
Definition deletedWithChallengeWorld : World := sampleWorld DELETED PENDING.

(** A second deployment by the same deployer, at another address. *)
Definition secondClient : PublicClient := sampleClient (Some "0xABC2") Rejected.

Definition secondInput : CreateContractInput.t :=
  CreateContractInput.mk "0xABC2" "0x2222" "0xDEF0" 10 "app-1".

Definition sampleInput : CreateContractInput.t :=
  CreateContractInput.mk "0xABC1" "0x1111" "0xDEF0" 10 "app-2".

Definition emptyWorld : World := mkWorld (mkDb [] [] []) 0.

(** A factory deployment: no address on the receipt, one CREATE2 in the trace. *)
Definition create2Trace : option Trace.t :=
  Some (Trace.mk (Some [TraceCall.mk "CREATE2" "0xABC1"])).

Definition factoryClient : PublicClient := sampleClient None (Resolved create2Trace).

(** A client whose trace endpoint fails. *)
Definition untraceableClient : PublicClient := sampleClient None Rejected.

(** * Properties *)

(** Unfolds the request monad down to the store. *)
Ltac run :=
  unfold bind, ret, throw, catchThrow, await, query, statement,
    assertUserAuthenticated, handleStatus in *; simpl in *.

(** ** Lists of rows under [update] *)

Lemma update_untouched {R} (p : R -> bool) (f : R -> R) (rows : list R) :
  (forall r, In r rows -> p r = false) -> update p f rows = rows.
Proof.
  induction rows as [|r rows IH]; intros H; simpl; [reflexivity|].
  rewrite (H r (or_introl eq_refl)). f_equal. apply IH.
  intros r' Hin. apply H. now right.
Qed.

Lemma filter_update_key {R} (p : R -> bool) (f : R -> R) (rows : list R) :
  (forall r, p (f r) = p r) ->
  filter p (update p f rows) = map f (filter p rows).
Proof.
  intros Hkey. induction rows as [|r rows IH]; simpl; [reflexivity|].
  destruct (p r) eqn:E.
  - rewrite Hkey, E. simpl. now f_equal.
  - rewrite E. exact IH.
Qed.

Lemma set_contracts_same (d : Db) : set_contracts d (contracts d) = d.
Proof. now destruct d. Qed.

Lemma set_challenges_same (d : Db) : set_challenges d (challenges d) = d.
Proof. now destruct d. Qed.

Lemma hd_error_map {A B} (f : A -> B) (l : list A) :
  hd_error (map f l) = option_map f (hd_error l).
Proof. now destruct l. Qed.

(** ** deleteContract on a contract the entity does not own *)

(** C10. deleteContract answers [{ success: true }] also when the given
    contractId matches no contract row of the calling entity: provided the
    statement itself does not fail, the update touches no row, no not-found
    error is raised, and the store is left exactly as it was. *)
Theorem deleteContract_unmatched_succeeds :
  forall (C : Collaborators) (user : User) (contractId : Id) (w : World),
    faults C (tick w) = false ->
    (forall c, In c (contracts (db w)) ->
               Contract.entityId c = userEntityId user ->
               Contract.id c <> contractId) ->
    exists w',
      deleteContractController C (Some user) contractId w = (Ok (mkSuccess true), w')
      /\ db w' = db w
      /\ deleteContract C (userEntityId user) contractId w = (Ok None, w').
Proof.
  intros C user contractId w Hfault Hnone.
  assert (Hp : forall c, In c (contracts (db w)) ->
             ownedContract (userEntityId user) contractId c = false).
  { intros c Hin. unfold ownedContract. destruct (String.eqb_spec (Contract.entityId c) (userEntityId user)) as [He|He];
      [|reflexivity].
    destruct (String.eqb_spec (Contract.id c) contractId) as [Hi|Hi]; [|reflexivity].
    exfalso. exact (Hnone c Hin He Hi). }
  unfold deleteContractController, deleteContract. run. rewrite Hfault.
  rewrite update_untouched by exact Hp.
  unfold returning.
  assert (Hf : filter (ownedContract (userEntityId user) contractId)
                      (contracts (db w)) = []).
  { clear - Hp. induction (contracts (db w)) as [|c l IH]; simpl; [reflexivity|].
    rewrite (Hp c (or_introl eq_refl)). apply IH. intros c' Hin. apply Hp. now right. }
  rewrite Hf. simpl. rewrite set_contracts_same.
  eexists. repeat split.
Qed.

(** A run of C10: entity-A deletes an id it does not own. *)
Lemma deleteContract_unmatched_succeeds_witness :
  exists w',
    deleteContractController (sampleCollaborators plainClient noFaults)
      (Some alice) "contract-9" (sampleWorld NOT_VERIFIED PENDING)
    = (Ok (mkSuccess true), w')
    /\ db w' = db (sampleWorld NOT_VERIFIED PENDING)
    /\ deleteContract (sampleCollaborators plainClient noFaults)
         (userEntityId alice) "contract-9" (sampleWorld NOT_VERIFIED PENDING)
       = (Ok None, w').
Proof.
  apply (deleteContract_unmatched_succeeds
           (sampleCollaborators plainClient noFaults) alice "contract-9"
           (sampleWorld NOT_VERIFIED PENDING)).
  - reflexivity.
  - simpl. intros c [<-|[]] _. discriminate.
Defined.

(** ** createContract: the chain reads *)

Lemma tracedContractAddress_spec (traced : option Trace.t) (a : Address) :
  tracedContractAddress traced = Some a
  <-> exists call, singleCreate2 traced call /\ a = TraceCall.to call.
Proof.
  unfold tracedContractAddress, singleCreate2. split.
  - destruct traced as [t|]; [|discriminate].
    destruct (Trace.calls t) as [calls|] eqn:Ecalls; [|discriminate].
    destruct calls as [|call0 [|call1 rest]]; simpl; try discriminate.
    destruct (String.eqb_spec (TraceCall.type call0) "CREATE2") as [Ety|Ety];
      [|discriminate].
    intros [= <-]. exists call0. split; [|reflexivity].
    exists t. now rewrite Ecalls.
  - intros (call & (t & -> & Hcalls & Hty) & ->).
    rewrite Hcalls. simpl. now rewrite Hty.
Qed.

Lemma tracedContractAddress_none (traced : option Trace.t) :
  (forall call, ~ singleCreate2 traced call) -> tracedContractAddress traced = None.
Proof.
  intros Hno. destruct (tracedContractAddress traced) as [a|] eqn:E; [|reflexivity].
  apply tracedContractAddress_spec in E. destruct E as (call & Hs & _).
  now destruct (Hno call).
Qed.

(** C3. When the receipt carries no contractAddress, the created address is
    resolved from the trace if and only if the trace shows exactly one
    internal call and that call has type CREATE2, and it is then that call's
    target, with which the registration goes on; for every other trace shape
    nothing is resolved and the request is rejected with 400 'the provided
    deployment transaction did not create a contract'. *)
Theorem createContract_trace_resolution :
  forall (C : Collaborators) (user : User) (input : CreateContractInput.t)
         (w : World) (publicClient : PublicClient)
         (deploymentTx : ViemTransaction.t) (receipt : Receipt.t) (block : Block.t)
         (traced : option Trace.t),
    let hash := CreateContractInput.deploymentTxHash input in
    supportedChainsPublicClientsMap C (CreateContractInput.chainId input)
      = Some publicClient ->
    getTransaction publicClient hash = Resolved deploymentTx ->
    getTransactionReceipt publicClient hash = Resolved receipt ->
    getBlock publicClient (ViemTransaction.blockHash deploymentTx) = Resolved block ->
    truthy (Receipt.contractAddress receipt) = false ->
    traceTransaction publicClient hash = Resolved traced ->
    (forall a,
        resolveTxContractAddress publicClient receipt hash w = (Ok (Some a), w)
        <-> exists call, singleCreate2 traced call /\ a = TraceCall.to call)
    /\ (forall call,
           singleCreate2 traced call -> TraceCall.to call <> "" ->
           createContractController C (Some user) input w
           = registerResolvedContract C user deploymentTx receipt block
               (TraceCall.to call)
               (getAddress C (CreateContractInput.contractAddress input))
               (getAddress C (CreateContractInput.deployerAddress input))
               hash (CreateContractInput.chainId input)
               (CreateContractInput.appId input) w)
    /\ ((forall call, ~ singleCreate2 traced call) ->
        resolveTxContractAddress publicClient receipt hash w = (Ok None, w)
        /\ createContractController C (Some user) input w
           = (Err (handleStatus 400
                     "the provided deployment transaction did not create a contract"),
              w)).
Proof.
  intros C user input w pc tx receipt block traced hash Hpc Htx Hrc Hbl Hfalsy Htr.
  assert (Hres : resolveTxContractAddress pc receipt hash w
                 = (Ok (tracedContractAddress traced), w)).
  { unfold resolveTxContractAddress. rewrite Hfalsy. run. now rewrite Htr. }
  split; [|split].
  - intros a. rewrite Hres. rewrite <- tracedContractAddress_spec.
    split; [now intros [= ->] | now intros ->].
  - intros call Hs Hto.
    assert (Hsome : tracedContractAddress traced = Some (TraceCall.to call)).
    { apply tracedContractAddress_spec. now exists call. }
    unfold createContractController. fold hash. rewrite Hpc.
    unfold bind at 1. simpl. unfold bind at 1. rewrite Htx. simpl.
    unfold bind at 1. rewrite Hrc. simpl.
    unfold bind at 1. rewrite Hbl. simpl.
    unfold bind at 1. rewrite Hres, Hsome. simpl.
    destruct (String.eqb_spec (TraceCall.to call) "") as [E|E]; [contradiction|].
    reflexivity.
  - intros Hno. rewrite Hres, (tracedContractAddress_none traced Hno).
    split; [reflexivity|].
    unfold createContractController. fold hash. rewrite Hpc.
    unfold bind at 1. simpl. unfold bind at 1. rewrite Htx. simpl.
    unfold bind at 1. rewrite Hrc. simpl.
    unfold bind at 1. rewrite Hbl. simpl.
    unfold bind at 1. rewrite Hres, (tracedContractAddress_none traced Hno).
    reflexivity.
Qed.

(** A run of C3: a factory deployment whose trace holds a single CREATE2. *)
Lemma createContract_trace_resolution_witness :
  resolveTxContractAddress factoryClient (Receipt.mk None "0xdef0") "0x1111" emptyWorld
  = (Ok (Some "0xABC1"), emptyWorld).
Proof.
  apply (proj1 (createContract_trace_resolution
                  (sampleCollaborators factoryClient noFaults) alice sampleInput
                  emptyWorld factoryClient (ViemTransaction.mk "0x1111" "0xb10c")
                  (Receipt.mk None "0xdef0") (Block.mk 1700000000) create2Trace
                  eq_refl eq_refl eq_refl eq_refl eq_refl eq_refl)).
  exists (TraceCall.mk "CREATE2" "0xABC1"). split; [|reflexivity].
  exists (Trace.mk (Some [TraceCall.mk "CREATE2" "0xABC1"])). repeat split.
Defined.

(** C9. In createContract a failure of getTransaction, of
    getTransactionReceipt or of getBlock is reported as 400 'error fetching
    deployment transaction' (the request does not go on as if there were no
    contract), whereas a failure of traceTransaction, which is called when the
    receipt carries no contractAddress, is reported as a 500. *)
Theorem createContract_rpc_failures :
  forall (C : Collaborators) (user : User) (input : CreateContractInput.t)
         (w : World) (publicClient : PublicClient),
    let hash := CreateContractInput.deploymentTxHash input in
    let fetchError :=
      (@Err (option Contract.t)
         (handleStatus 400 "error fetching deployment transaction"), w) in
    supportedChainsPublicClientsMap C (CreateContractInput.chainId input)
      = Some publicClient ->
    (getTransaction publicClient hash = Rejected ->
     createContractController C (Some user) input w = fetchError)
    /\ (forall deploymentTx,
           getTransaction publicClient hash = Resolved deploymentTx ->
           getTransactionReceipt publicClient hash = Rejected ->
           createContractController C (Some user) input w = fetchError)
    /\ (forall deploymentTx receipt,
           getTransaction publicClient hash = Resolved deploymentTx ->
           getTransactionReceipt publicClient hash = Resolved receipt ->
           getBlock publicClient (ViemTransaction.blockHash deploymentTx) = Rejected ->
           createContractController C (Some user) input w = fetchError)
    /\ (forall deploymentTx receipt block,
           getTransaction publicClient hash = Resolved deploymentTx ->
           getTransactionReceipt publicClient hash = Resolved receipt ->
           getBlock publicClient (ViemTransaction.blockHash deploymentTx)
             = Resolved block ->
           truthy (Receipt.contractAddress receipt) = false ->
           traceTransaction publicClient hash = Rejected ->
           createContractController C (Some user) input w
           = (Err (handleStatus 500 "error fetching deployment transaction"), w)).
Proof.
  intros C user input w pc hash fetchError Hpc.
  unfold createContractController. fold hash. rewrite Hpc.
  repeat split.
  - intros Htx. unfold bind at 1. simpl. unfold bind at 1. now rewrite Htx.
  - intros tx Htx Hrc. unfold bind at 1. simpl. unfold bind at 1. rewrite Htx. simpl.
    unfold bind at 1. now rewrite Hrc.
  - intros tx receipt Htx Hrc Hbl. unfold bind at 1. simpl.
    unfold bind at 1. rewrite Htx. simpl.
    unfold bind at 1. rewrite Hrc. simpl.
    unfold bind at 1. now rewrite Hbl.
  - intros tx receipt block Htx Hrc Hbl Hfalsy Htr. unfold bind at 1. simpl.
    unfold bind at 1. rewrite Htx. simpl.
    unfold bind at 1. rewrite Hrc. simpl.
    unfold bind at 1. rewrite Hbl. simpl.
    unfold bind at 1. unfold resolveTxContractAddress. rewrite Hfalsy.
    unfold bind at 1. now rewrite Htr.
Qed.

(** A run of C9: the three fetches succeed, the trace endpoint fails. *)
Lemma createContract_rpc_failures_witness :
  createContractController (sampleCollaborators untraceableClient noFaults)
    (Some alice) sampleInput emptyWorld
  = (Err (handleStatus 500 "error fetching deployment transaction"), emptyWorld).
Proof.
  exact (proj2 (proj2 (proj2
           (createContract_rpc_failures
              (sampleCollaborators untraceableClient noFaults) alice sampleInput
              emptyWorld untraceableClient eq_refl)))
           (ViemTransaction.mk "0x1111" "0xb10c") (Receipt.mk None "0xdef0")
           (Block.mk 1700000000) eq_refl eq_refl eq_refl eq_refl eq_refl).
Defined.

(** ** completeVerification *)

Lemma getChallengeByChallengeId_found
  (C : Collaborators) (entityId challengeId : Id) (w w1 : World)
  (found : option Challenge.t) :
  getChallengeByChallengeId C entityId challengeId w = (Ok found, w1) ->
  faults C (tick w) = false
  /\ w1 = mkWorld (db w) (S (tick w))
  /\ hd_error (filter (ownedChallenge entityId challengeId) (challenges (db w)))
     = found.
Proof.
  unfold getChallengeByChallengeId. run.
  destruct (faults C (tick w)); [discriminate|].
  intros [= <- <-]. repeat split.
Qed.

(** The controller up to the signature check: the challenge is found and not
    EXPIRED, its chain has a client, and the verifier has answered [valid]. *)
Lemma completeVerification_after_check
  (C : Collaborators) (user : User) (challengeId : Id) (signature : Signature)
  (w w1 : World) (ch : Challenge.t) (publicClient : PublicClient) (valid : bool) :
  getChallengeByChallengeId C (userEntityId user) challengeId w = (Ok (Some ch), w1) ->
  Challenge.state ch <> EXPIRED ->
  supportedChainsPublicClientsMap C (Challenge.chainId ch) = Some publicClient ->
  verifyMessage publicClient (Challenge.address ch)
    (generateChallenge C (Challenge.address ch)) signature = Resolved valid ->
  completeVerificationController C (Some user) challengeId signature w
  = (if negb valid
     then throw (handleStatus 400 "challenge was not completed successfully")
     else
       (catchThrow
          (transaction C
             (completeVerificationUnit C user challengeId (Challenge.contractId ch)))
          (handleStatus 500 "server failed to mark challenge as complete") ;;;
        ret (mkSuccess true))) w1.
Proof.
  intros Hlookup Hstate Hpc Hverify.
  unfold completeVerificationController.
  unfold bind at 1. simpl. unfold bind at 1. unfold catchThrow at 1.
  rewrite Hlookup.
  destruct (Challenge.state ch) eqn:Est; try contradiction; simpl;
    rewrite Hpc; unfold bind at 1; rewrite Hverify; reflexivity.
Qed.

(** C5. When the signature check answers false, completeVerification rejects
    with the client error 400 'challenge was not completed successfully', not
    a server error, and modifies nothing: the store is the one the request
    found, so the challenge keeps its state (PENDING) and every contract keeps
    its own. *)
Theorem completeVerification_bad_signature_rejected :
  forall (C : Collaborators) (user : User) (challengeId : Id) (signature : Signature)
         (w w1 : World) (ch : Challenge.t) (publicClient : PublicClient),
    getChallengeByChallengeId C (userEntityId user) challengeId w = (Ok (Some ch), w1) ->
    Challenge.state ch <> EXPIRED ->
    supportedChainsPublicClientsMap C (Challenge.chainId ch) = Some publicClient ->
    verifyMessage publicClient (Challenge.address ch)
      (generateChallenge C (Challenge.address ch)) signature = Resolved false ->
    exists w',
      completeVerificationController C (Some user) challengeId signature w
      = (Err (handleStatus 400 "challenge was not completed successfully"), w')
      /\ db w' = db w
      /\ challengeStateOf (db w') (userEntityId user) challengeId
         = Some (Challenge.state ch)
      /\ (forall entityId contractId,
             contractStateOf (db w') entityId contractId
             = contractStateOf (db w) entityId contractId).
Proof.
  intros C user challengeId signature w w1 ch pc Hlookup Hstate Hpc Hverify.
  rewrite (completeVerification_after_check C user challengeId signature w w1 ch pc
             false Hlookup Hstate Hpc Hverify).
  apply getChallengeByChallengeId_found in Hlookup.
  destruct Hlookup as (_ & -> & Hfound).
  eexists. split; [reflexivity|]. simpl. split; [reflexivity|]. split.
  - unfold challengeStateOf. now rewrite Hfound.
  - reflexivity.
Qed.

(** A run of C5: a PENDING challenge and a signature the verifier refuses. *)
Lemma completeVerification_bad_signature_rejected_witness :
  exists w',
    completeVerificationController (sampleCollaborators plainClient noFaults)
      (Some alice) "challenge-1" "0xbad" (sampleWorld NOT_VERIFIED PENDING)
    = (Err (handleStatus 400 "challenge was not completed successfully"), w')
    /\ db w' = db (sampleWorld NOT_VERIFIED PENDING)
    /\ challengeStateOf (db w') (userEntityId alice) "challenge-1" = Some PENDING
    /\ (forall entityId contractId,
           contractStateOf (db w') entityId contractId
           = contractStateOf (db (sampleWorld NOT_VERIFIED PENDING)) entityId contractId).
Proof.
  apply (completeVerification_bad_signature_rejected
           (sampleCollaborators plainClient noFaults) alice "challenge-1" "0xbad"
           (sampleWorld NOT_VERIFIED PENDING)
           (mkWorld (db (sampleWorld NOT_VERIFIED PENDING)) 1)
           (sampleChallenge PENDING) plainClient).
  - reflexivity.
  - discriminate.
  - reflexivity.
  - reflexivity.
Defined.

Lemma ownedChallenge_setState (entityId challengeId : Id) (s : ChallengeState)
  (ch : Challenge.t) :
  ownedChallenge entityId challengeId (setChallengeState s ch)
  = ownedChallenge entityId challengeId ch.
Proof. reflexivity. Qed.

Lemma ownedContract_setState (entityId contractId : Id) (s : ContractState)
  (now : Timestamp) (c : Contract.t) :
  ownedContract entityId contractId (setContractState s now c)
  = ownedContract entityId contractId c.
Proof. reflexivity. Qed.

(** The atomic unit of completeVerification, run under its catch handler:
    with no failing statement both updates are in the store, with a failing
    one the store is the one the unit started from. *)
Lemma completeVerification_unit_outcome
  (C : Collaborators) (user : User) (challengeId contractId : Id) (e : Error)
  (w1 : World) :
  exists r w',
    catchThrow (transaction C (completeVerificationUnit C user challengeId contractId))
      e w1 = (r, w')
    /\ ((unitFaulty C (tick w1) = false
         /\ r = Ok tt
         /\ challenges (db w')
            = update (ownedChallenge (userEntityId user) challengeId)
                (setChallengeState COMPLETED) (challenges (db w1))
         /\ contracts (db w')
            = update (ownedContract (userEntityId user) contractId)
                (setContractState VERIFIED (clock C (S (S (tick w1)))))
                (contracts (db w1)))
        \/ (unitFaulty C (tick w1) = true /\ r = Err e /\ db w' = db w1)).
Proof.
  unfold unitFaulty, catchThrow, transaction, completeVerificationUnit,
    completeChallenge, verifyContract.
  destruct (faults C (tick w1)) eqn:F0.
  { do 2 eexists. split; [reflexivity|]. right. repeat split. }
  run. destruct (faults C (S (tick w1))) eqn:F1; simpl.
  { do 2 eexists. split; [reflexivity|]. right. repeat split. }
  destruct (faults C (S (S (tick w1)))) eqn:F2; simpl.
  { do 2 eexists. split; [reflexivity|]. right. repeat split. }
  destruct (faults C (S (S (S (tick w1))))) eqn:F3; simpl.
  { do 2 eexists. split; [reflexivity|]. right. repeat split. }
  do 2 eexists. split; [reflexivity|]. left. repeat split.
Qed.

(** C4, as stated, fails: after a first completeVerification has completed
    the challenge, a second call with the same challengeId and signature is
    not rejected; it succeeds again. *)
Lemma completeVerification_twice_not_rejected :
  let C := sampleCollaborators plainClient noFaults in
  let first :=
    completeVerificationController C (Some alice) "challenge-1" "0x600d"
      (sampleWorld NOT_VERIFIED PENDING) in
  let second :=
    completeVerificationController C (Some alice) "challenge-1" "0x600d" (snd first) in
  fst first = Ok (mkSuccess true)
  /\ challengeStateOf (db (snd first)) "entity-A" "challenge-1" = Some COMPLETED
  /\ fst second = Ok (mkSuccess true)
  /\ ~ rejected second.
Proof.
  vm_compute. repeat split.
  intros [e He]. discriminate He.
Qed.

(** C4, amended. completeVerification rejects, with 400 'challenge does not
    exist or is expired', a challengeId under which the calling entity has no
    challenge or an EXPIRED one.  A COMPLETED challenge passes that guard: with
    a valid signature and no failing statement the call succeeds again and
    leaves the challenge COMPLETED. *)
Theorem completeVerification_state_guard :
  forall (C : Collaborators) (user : User) (challengeId : Id) (signature : Signature)
         (w w1 : World),
    (forall found,
        getChallengeByChallengeId C (userEntityId user) challengeId w = (Ok found, w1) ->
        found = None \/ (exists ch, found = Some ch /\ Challenge.state ch = EXPIRED) ->
        completeVerificationController C (Some user) challengeId signature w
        = (Err (handleStatus 400 "challenge does not exist or is expired"), w1)
        /\ db w1 = db w)
    /\ (forall ch publicClient,
           getChallengeByChallengeId C (userEntityId user) challengeId w
             = (Ok (Some ch), w1) ->
           Challenge.state ch = COMPLETED ->
           supportedChainsPublicClientsMap C (Challenge.chainId ch) = Some publicClient ->
           verifyMessage publicClient (Challenge.address ch)
             (generateChallenge C (Challenge.address ch)) signature = Resolved true ->
           unitFaulty C (tick w1) = false ->
           exists w',
             completeVerificationController C (Some user) challengeId signature w
             = (Ok (mkSuccess true), w')
             /\ challengeStateOf (db w') (userEntityId user) challengeId
                = Some COMPLETED).
Proof.
  intros C user challengeId signature w w1. split.
  - intros found Hlookup Hcase.
    pose proof (getChallengeByChallengeId_found _ _ _ _ _ _ Hlookup) as (_ & Hw1 & _).
    split; [|now subst w1].
    unfold completeVerificationController.
    unfold bind at 1. simpl. unfold bind at 1. unfold catchThrow at 1.
    rewrite Hlookup.
    destruct Hcase as [-> | (ch & -> & Hst)]; [reflexivity|].
    now rewrite Hst.
  - intros ch pc Hlookup Hst Hpc Hverify Hclean.
    assert (Hne : Challenge.state ch <> EXPIRED) by (rewrite Hst; discriminate).
    rewrite (completeVerification_after_check C user challengeId signature w w1 ch pc
               true Hlookup Hne Hpc Hverify).
    apply getChallengeByChallengeId_found in Hlookup.
    destruct Hlookup as (_ & Hw1 & Hfound).
    destruct (completeVerification_unit_outcome C user challengeId
                (Challenge.contractId ch)
                (handleStatus 500 "server failed to mark challenge as complete") w1)
      as (r & w' & Hrun & [(_ & -> & Hchs & _) | (Hbad & _)]);
      [|rewrite Hclean in Hbad; discriminate].
    simpl. unfold bind at 1. rewrite Hrun.
    exists w'. split; [reflexivity|].
    unfold challengeStateOf. rewrite Hchs, filter_update_key
      by (intros; apply ownedChallenge_setState).
    rewrite hd_error_map. subst w1. simpl. now rewrite Hfound.
Qed.

(** A run of amended C4: a COMPLETED challenge is completed once more. *)
Lemma completeVerification_state_guard_witness :
  exists w',
    completeVerificationController (sampleCollaborators plainClient noFaults)
      (Some alice) "challenge-1" "0x600d" (sampleWorld VERIFIED COMPLETED)
    = (Ok (mkSuccess true), w')
    /\ challengeStateOf (db w') (userEntityId alice) "challenge-1" = Some COMPLETED.
Proof.
  apply (proj2 (completeVerification_state_guard
                  (sampleCollaborators plainClient noFaults) alice "challenge-1"
                  "0x600d" (sampleWorld VERIFIED COMPLETED)
                  (mkWorld (db (sampleWorld VERIFIED COMPLETED)) 1))
           (sampleChallenge COMPLETED) plainClient);
    reflexivity.
Defined.

(** ** Ownership of contract rows *)

Lemma filter_update_others {R} (p q : R -> bool) (f : R -> R) (rows : list R) :
  (forall r, In r rows -> p r = true -> q r = false /\ q (f r) = false) ->
  filter q (update p f rows) = filter q rows.
Proof.
  induction rows as [|r rows IH]; intros H; simpl; [reflexivity|].
  assert (IH' : filter q (update p f rows) = filter q rows).
  { apply IH. intros r' Hin. apply H. now right. }
  destruct (p r) eqn:E.
  - destruct (H r (or_introl eq_refl) E) as [-> ->]. exact IH'.
  - destruct (q r); now rewrite IH'.
Qed.

Lemma hd_error_filter_In {R} (p : R -> bool) (rows : list R) (r : R) :
  hd_error (filter p rows) = Some r -> In r rows /\ p r = true.
Proof.
  intros H. apply filter_In. destruct (filter p rows) as [|x l]; [discriminate|].
  injection H as ->. now left.
Qed.

Lemma primary_key_unique (rows : list Contract.t) (a b : Contract.t) :
  NoDup (map Contract.id rows) -> In a rows -> In b rows ->
  Contract.id a = Contract.id b -> a = b.
Proof.
  induction rows as [|r rows IH]; simpl; intros Hnd Ha Hb Hid; [contradiction|].
  inversion Hnd as [|x l Hnotin Hnd']; subst.
  destruct Ha as [->|Ha], Hb as [->|Hb].
  - reflexivity.
  - exfalso. apply Hnotin. rewrite Hid. now apply in_map.
  - exfalso. apply Hnotin. rewrite <- Hid. now apply in_map.
  - now apply IH.
Qed.

Lemma rowsOfOthers_update_owned
  (entityId contractId : Id) (f : Contract.t -> Contract.t) (d : Db) :
  (forall c, Contract.entityId (f c) = Contract.entityId c) ->
  rowsOfOthers entityId (set_contracts d (update (ownedContract entityId contractId) f
                                            (contracts d)))
  = rowsOfOthers entityId d.
Proof.
  intros Hf. unfold rowsOfOthers. simpl. apply filter_update_others.
  intros c _ Hown. unfold ownedContract in Hown.
  apply andb_true_iff in Hown. destruct Hown as [He _].
  now rewrite Hf, He.
Qed.

(** The rows the atomic unit of createContract leaves to other entities. *)
Lemma createContractUnit_others
  (C : Collaborators) (user : User) (deploymentTx : ViemTransaction.t)
  (receipt : Receipt.t) (block : Block.t) (inputContractAddress inputDeployerAddress : Address)
  (hash : Hash) (chainId : ChainId) (appId : Id) (w0 : World) :
  primaryKeyed (db w0) ->
  rowsOfOthers (userEntityId user)
    (db (snd (createContractUnit C user deploymentTx receipt block
                inputContractAddress inputDeployerAddress hash chainId appId w0)))
  = rowsOfOthers (userEntityId user) (db w0).
Proof.
  intros Hpk.
  unfold createContractUnit, hasAlreadyVerifiedDeployer, getContractByAddressAndChainId.
  run. destruct (faults C (tick w0)); simpl; [reflexivity|].
  destruct (faults C (S (tick w0))); simpl; [reflexivity|].
  match goal with
  | |- context [hd_error (filter ?p (contracts (db w0)))] =>
      destruct (hd_error (filter p (contracts (db w0)))) as [existing|] eqn:Hex
  end.
  - apply hd_error_filter_In in Hex. destruct Hex as [Hin Hkey].
    destruct (ContractState_eqb (Contract.state existing) DELETED); simpl;
      [|reflexivity].
    unfold restoreDeletedContract. run.
    destruct (faults C (S (S (tick w0)))); simpl; [reflexivity|].
    unfold rowsOfOthers. simpl. apply filter_update_others.
    intros c Hc Hid. apply String.eqb_eq in Hid.
    rewrite (primary_key_unique _ c existing Hpk Hc Hin Hid). simpl.
    apply andb_true_iff in Hkey. destruct Hkey as [Hkey _].
    apply andb_true_iff in Hkey. destruct Hkey as [He _].
    now rewrite He.
  - unfold insertContract. run.
    destruct (faults C (S (S (tick w0)))); simpl; [reflexivity|].
    destruct (violatesContractConstraints _ _); simpl; [reflexivity|].
    unfold insertTransaction. run.
    destruct (faults C (S (S (S (tick w0))))); simpl;
      unfold rowsOfOthers; simpl; rewrite filter_app; simpl;
      rewrite String.eqb_refl; simpl; apply app_nil_r.
Qed.

Lemma transaction_db {A} (C : Collaborators) (body : M A) (w : World) :
  db (snd (transaction C body w)) = db w
  \/ db (snd (transaction C body w)) = db (snd (body (mkWorld (db w) (S (tick w))))).
Proof.
  unfold transaction. destruct (faults C (tick w)); [now left|].
  destruct (body _) as [[a|e] w']; simpl; [|now left].
  destruct (faults C (tick w')); [now left | now right].
Qed.

Lemma catchThrow_world {A} (m : M A) (e : Error) (w : World) :
  snd (catchThrow m e w) = snd (m w).
Proof. unfold catchThrow. now destruct (m w) as [[a|e0] w']. Qed.

Lemma registerResolvedContract_others
  (C : Collaborators) (user : User) (deploymentTx : ViemTransaction.t)
  (receipt : Receipt.t) (block : Block.t)
  (txAddress inputContractAddress inputDeployerAddress : Address)
  (hash : Hash) (chainId : ChainId) (appId : Id) (w : World) :
  primaryKeyed (db w) ->
  rowsOfOthers (userEntityId user)
    (db (snd (registerResolvedContract C user deploymentTx receipt block txAddress
                inputContractAddress inputDeployerAddress hash chainId appId w)))
  = rowsOfOthers (userEntityId user) (db w).
Proof.
  intros Hpk. unfold registerResolvedContract.
  destruct (negb (addressEqualityCheck C (Receipt.from receipt) inputDeployerAddress));
    [reflexivity|].
  destruct (negb (addressEqualityCheck C txAddress inputContractAddress));
    [reflexivity|].
  rewrite catchThrow_world.
  match goal with
  | |- context [transaction C ?body w] =>
      destruct (transaction_db C body w) as [H|H]; rewrite H; [reflexivity|]
  end.
  now rewrite createContractUnit_others.
Qed.

Lemma createContractController_others
  (C : Collaborators) (user : User) (input : CreateContractInput.t) (w : World) :
  primaryKeyed (db w) ->
  rowsOfOthers (userEntityId user)
    (db (snd (createContractController C (Some user) input w)))
  = rowsOfOthers (userEntityId user) (db w).
Proof.
  intros Hpk. unfold createContractController.
  unfold bind at 1. simpl.
  destruct (supportedChainsPublicClientsMap C (CreateContractInput.chainId input))
    as [pc|]; [|reflexivity].
  unfold bind at 1.
  destruct (getTransaction pc (CreateContractInput.deploymentTxHash input)) as [tx|];
    simpl; [|reflexivity].
  unfold bind at 1.
  destruct (getTransactionReceipt pc (CreateContractInput.deploymentTxHash input))
    as [receipt|]; simpl; [|reflexivity].
  unfold bind at 1.
  destruct (getBlock pc (ViemTransaction.blockHash tx)) as [block|];
    simpl; [|reflexivity].
  unfold bind at 1. unfold resolveTxContractAddress.
  destruct (truthy (Receipt.contractAddress receipt)) eqn:Etruthy; simpl.
  - rewrite Etruthy. simpl.
    destruct (Receipt.contractAddress receipt) as [a|]; [|reflexivity].
    now apply registerResolvedContract_others.
  - unfold bind at 1.
    destruct (traceTransaction pc (CreateContractInput.deploymentTxHash input))
      as [traced|]; simpl; [|reflexivity].
    destruct (truthy (tracedContractAddress traced)); simpl; [|reflexivity].
    destruct (tracedContractAddress traced) as [a|]; [|reflexivity].
    now apply registerResolvedContract_others.
Qed.

(** C6, as stated, fails for restoreDeletedContract: it has no entityId to
    be invoked with, and restores the row of the given id though entity-B
    owns it. *)
Lemma restoreDeletedContract_not_entity_scoped :
  let C := sampleCollaborators plainClient noFaults in
  let w := mkWorld (mkDb [sampleContract "contract-1" "entity-B" DELETED] [] []) 0 in
  let outcome := restoreDeletedContract C "contract-1" "app-of-A" RestoreVerified w in
  rowsOfOthers "entity-A" (db w) = [sampleContract "contract-1" "entity-B" DELETED]
  /\ rowsOfOthers "entity-A" (db (snd outcome)) <> rowsOfOthers "entity-A" (db w)
  /\ contractStateOf (db (snd outcome)) "entity-B" "contract-1" = Some VERIFIED.
Proof.
  vm_compute. repeat split. discriminate.
Qed.

(** C6, amended. verifyContract and deleteContract restrict their update to
    rows owned by the given entityId, so neither changes a row of another
    entity.  restoreDeletedContract is scoped by contractId alone: it leaves
    every row of a different id as it was, whoever owns the row it updates.
    createContract only hands it the id of a row found by the entity-scoped
    lookup, so with ids a primary key a createContract request of entity A
    changes no row owned by another entity. *)
Theorem contract_mutations_entity_scoped :
  forall (C : Collaborators) (user : User) (w : World),
    (forall contractId,
        rowsOfOthers (userEntityId user)
          (db (snd (verifyContract C (userEntityId user) contractId w)))
        = rowsOfOthers (userEntityId user) (db w))
    /\ (forall contractId,
           rowsOfOthers (userEntityId user)
             (db (snd (deleteContract C (userEntityId user) contractId w)))
           = rowsOfOthers (userEntityId user) (db w))
    /\ (forall contractId appId state,
           filter (fun c => negb (Contract.id c =? contractId)%string)
             (contracts (db (snd (restoreDeletedContract C contractId appId state w))))
           = filter (fun c => negb (Contract.id c =? contractId)%string)
               (contracts (db w)))
    /\ (forall input,
           primaryKeyed (db w) ->
           rowsOfOthers (userEntityId user)
             (db (snd (createContractController C (Some user) input w)))
           = rowsOfOthers (userEntityId user) (db w)).
Proof.
  intros C user w. repeat split.
  - intros contractId. unfold verifyContract. run.
    destruct (faults C (tick w)); simpl; [reflexivity|].
    now apply rowsOfOthers_update_owned.
  - intros contractId. unfold deleteContract. run.
    destruct (faults C (tick w)); simpl; [reflexivity|].
    now apply rowsOfOthers_update_owned.
  - intros contractId appId state. unfold restoreDeletedContract. run.
    destruct (faults C (tick w)); simpl; [reflexivity|].
    apply filter_update_others. intros c _ Hid. simpl. now rewrite Hid.
  - intros input Hpk. now apply createContractController_others.
Qed.

(** A run of amended C6: entity-A registers over a store where entity-B holds
    a deleted row for the same address; B's row is left as it was. *)
Lemma contract_mutations_entity_scoped_witness :
  let w := mkWorld (mkDb [sampleContract "contract-1" "entity-B" DELETED] [] []) 0 in
  rowsOfOthers (userEntityId alice)
    (db (snd (createContractController (sampleCollaborators plainClient noFaults)
                (Some alice) sampleInput w)))
  = rowsOfOthers (userEntityId alice) (db w).
Proof.
  apply (proj2 (proj2 (proj2
           (contract_mutations_entity_scoped
              (sampleCollaborators plainClient noFaults) alice
              (mkWorld (mkDb [sampleContract "contract-1" "entity-B" DELETED] [] []) 0))))
           sampleInput).
  unfold primaryKeyed. simpl. constructor; [intros [] | constructor].
Defined.

(** ** Address normalization *)

Lemma insertContract_inserted
  (C : Collaborators) (contract : InsertContract.t) (w w' : World) (r : Contract.t) :
  insertContract C contract w = (Ok (Some r), w') ->
  faults C (tick w) = false
  /\ violatesContractConstraints r (contracts (db w)) = false
  /\ w' = mkWorld (set_contracts (db w) (contracts (db w) ++ [r])) (S (tick w))
  /\ Contract.entityId r = InsertContract.entityId contract
  /\ Contract.chainId r = InsertContract.chainId contract
  /\ Contract.appId r = InsertContract.appId contract
  /\ Contract.contractAddress r = getAddress C (InsertContract.contractAddress contract)
  /\ Contract.deployerAddress r = getAddress C (InsertContract.deployerAddress contract)
  /\ Contract.state r
     = match InsertContract.state contract with Some s => s | None => NOT_VERIFIED end.
Proof.
  unfold insertContract. run.
  destruct (faults C (tick w)); [discriminate|].
  match goal with
  | |- context [violatesContractConstraints ?row ?rows] =>
      destruct (violatesContractConstraints row rows) eqn:Hv; [discriminate|]
  end.
  intros [= <- <-]. repeat split. exact Hv.
Qed.

Lemma filter_none {R} (p : R -> bool) (rows : list R) :
  (forall r, In r rows -> p r = false) -> filter p rows = [].
Proof.
  induction rows as [|r rows IH]; intros H; simpl; [reflexivity|].
  rewrite (H r (or_introl eq_refl)). apply IH. intros r' Hin. apply H. now right.
Qed.

Lemma slot_free_before_insert (r : Contract.t) (rows : list Contract.t) :
  violatesContractConstraints r rows = false ->
  filter (slotOf (Contract.entityId r) (Contract.contractAddress r) (Contract.chainId r))
    rows = [].
Proof.
  intros Hv. apply filter_none. intros c Hin.
  unfold violatesContractConstraints in Hv.
  destruct (slotOf _ _ _ c) eqn:Hslot; [|reflexivity].
  assert (Hex : existsb
                  (fun c =>
                     (Contract.id c =? Contract.id r)%string
                     || ((Contract.entityId c =? Contract.entityId r)%string
                         && (Contract.chainId c =? Contract.chainId r)%Z
                         && (Contract.contractAddress c =? Contract.contractAddress r)%string))
                  rows = true).
  { apply existsb_exists. exists c. split; [exact Hin|].
    unfold slotOf in Hslot.
    apply andb_true_iff in Hslot. destruct Hslot as [Hslot Hchain].
    apply andb_true_iff in Hslot. destruct Hslot as [Hent Haddr].
    rewrite Hent, Hchain, Haddr. apply orb_true_r. }
  congruence.
Qed.

Lemma getContractByAddressAndChainId_run
  (C : Collaborators) (address : Address) (chainId : ChainId) (entityId : Id)
  (w : World) :
  faults C (tick w) = false ->
  getContractByAddressAndChainId C address chainId entityId w
  = (Ok (hd_error (filter (slotOf entityId (getAddress C address) chainId)
                     (contracts (db w)))),
     mkWorld (db w) (S (tick w))).
Proof.
  intros Hf. unfold getContractByAddressAndChainId. run. now rewrite Hf.
Qed.

Lemma transaction_ok {A} (C : Collaborators) (body : M A) (w w' : World) (a : A) :
  transaction C body w = (Ok a, w') ->
  exists wb,
    body (mkWorld (db w) (S (tick w))) = (Ok a, wb)
    /\ w' = mkWorld (db wb) (S (tick wb)).
Proof.
  unfold transaction. destruct (faults C (tick w)); [discriminate|].
  destruct (body _) as [[a0|e] wb]; [|discriminate].
  destruct (faults C (tick wb)); [discriminate|].
  intros [= <- <-]. now exists wb.
Qed.

Lemma catchThrow_ok {A} (m : M A) (e : Error) (w w' : World) (a : A) :
  catchThrow m e w = (Ok a, w') -> m w = (Ok a, w').
Proof.
  unfold catchThrow. destruct (m w) as [[a0|e0] w0]; [|discriminate].
  now intros [= <- <-].
Qed.

(** A successful createContract went through its atomic unit. *)
Lemma createContractController_ok
  (C : Collaborators) (user : User) (input : CreateContractInput.t) (w w' : World)
  (result : option Contract.t) :
  createContractController C (Some user) input w = (Ok result, w') ->
  exists deploymentTx receipt block wb,
    createContractUnit C user deploymentTx receipt block
      (getAddress C (CreateContractInput.contractAddress input))
      (getAddress C (CreateContractInput.deployerAddress input))
      (CreateContractInput.deploymentTxHash input)
      (CreateContractInput.chainId input) (CreateContractInput.appId input)
      (mkWorld (db w) (S (tick w)))
    = (Ok result, wb)
    /\ w' = mkWorld (db wb) (S (tick wb)).
Proof.
  unfold createContractController.
  unfold bind at 1. simpl.
  destruct (supportedChainsPublicClientsMap C (CreateContractInput.chainId input))
    as [pc|]; [|discriminate].
  unfold bind at 1.
  destruct (getTransaction pc (CreateContractInput.deploymentTxHash input)) as [tx|];
    simpl; [|discriminate].
  unfold bind at 1.
  destruct (getTransactionReceipt pc (CreateContractInput.deploymentTxHash input))
    as [receipt|]; simpl; [|discriminate].
  unfold bind at 1.
  destruct (getBlock pc (ViemTransaction.blockHash tx)) as [block|];
    simpl; [|discriminate].
  assert (Hreg : forall a,
             registerResolvedContract C user tx receipt block a
               (getAddress C (CreateContractInput.contractAddress input))
               (getAddress C (CreateContractInput.deployerAddress input))
               (CreateContractInput.deploymentTxHash input)
               (CreateContractInput.chainId input) (CreateContractInput.appId input) w
             = (Ok result, w') ->
             exists deploymentTx receipt0 block0 wb,
               createContractUnit C user deploymentTx receipt0 block0
                 (getAddress C (CreateContractInput.contractAddress input))
                 (getAddress C (CreateContractInput.deployerAddress input))
                 (CreateContractInput.deploymentTxHash input)
                 (CreateContractInput.chainId input) (CreateContractInput.appId input)
                 (mkWorld (db w) (S (tick w)))
               = (Ok result, wb)
               /\ w' = mkWorld (db wb) (S (tick wb))).
  { intros a. unfold registerResolvedContract.
    destruct (negb (addressEqualityCheck C (Receipt.from receipt) _)); [discriminate|].
    destruct (negb (addressEqualityCheck C a _)); [discriminate|].
    intros H. apply catchThrow_ok, transaction_ok in H.
    destruct H as (wb & Hbody & Hw'). now exists tx, receipt, block, wb. }
  unfold bind at 1. unfold resolveTxContractAddress.
  destruct (truthy (Receipt.contractAddress receipt)) eqn:Etruthy; simpl.
  - rewrite Etruthy. simpl.
    destruct (Receipt.contractAddress receipt) as [a|]; [|discriminate].
    apply Hreg.
  - unfold bind at 1.
    destruct (traceTransaction pc (CreateContractInput.deploymentTxHash input))
      as [traced|]; simpl; [|discriminate].
    destruct (truthy (tracedContractAddress traced)); simpl; [|discriminate].
    destruct (tracedContractAddress traced) as [a|]; [|discriminate].
    apply Hreg.
Qed.

(** The atomic unit of createContract on a free slot: it succeeds only by
    inserting a row, which is the one it returns. *)
Lemma createContractUnit_fresh
  (C : Collaborators) (user : User) (deploymentTx : ViemTransaction.t)
  (receipt : Receipt.t) (block : Block.t) (inputContractAddress inputDeployerAddress : Address)
  (hash : Hash) (chainId : ChainId) (appId : Id) (w0 wb : World)
  (result : option Contract.t) :
  filter (slotOf (userEntityId user) (getAddress C inputContractAddress) chainId)
    (contracts (db w0)) = [] ->
  createContractUnit C user deploymentTx receipt block inputContractAddress
    inputDeployerAddress hash chainId appId w0 = (Ok result, wb) ->
  exists r verified w1,
    result = Some r
    /\ insertContract C
         (InsertContract.mk None None None (userEntityId user) chainId appId None
            inputContractAddress inputDeployerAddress hash
            (Some (if verified : bool then VERIFIED else NOT_VERIFIED)))
         (mkWorld (db w0) (S (S (tick w0)))) = (Ok (Some r), w1)
    /\ contracts (db wb) = contracts (db w1)
    /\ transactions (db wb)
       = (transactions (db w0)
            ++ [viemContractDeploymentTransactionToDbTransaction receipt deploymentTx
                  (userEntityId user) chainId (Contract.id r) (Block.timestamp block)])%list.
Proof.
  intros Hfree.
  unfold createContractUnit, hasAlreadyVerifiedDeployer.
  unfold bind at 1. unfold query at 1, statement at 1.
  destruct (faults C (tick w0)) eqn:F0; [discriminate|]. cbv beta iota.
  unfold bind at 1.
  destruct (faults C (S (tick w0))) eqn:F1.
  { unfold getContractByAddressAndChainId, query, statement. simpl. rewrite F1.
    discriminate. }
  rewrite getContractByAddressAndChainId_run by exact F1.
  cbn [db]. rewrite Hfree. cbn [hd_error].
  unfold bind at 1.
  match goal with
  | |- context [insertContract C ?v ?w] =>
      destruct (insertContract C v w) as [[[r|]|e] w1] eqn:Hins; try discriminate
  end.
  simpl in Hins.
  pose proof (insertContract_inserted _ _ _ _ _ Hins) as (_ & _ & Hw1 & _).
  unfold bind at 1. unfold insertTransaction, statement, ret.
  destruct (faults C (tick w1)); [discriminate|].
  intros [= <- <-].
  eexists r, _, w1. split; [reflexivity|]. split; [exact Hins|].
  split; [reflexivity|]. simpl. subst w1. reflexivity.
Qed.

Lemma lowerAscii_idempotent (c : ascii) : lowerAscii (lowerAscii c) = lowerAscii c.
Proof.
  destruct c as [b0 b1 b2 b3 b4 b5 b6 b7].
  destruct b0, b1, b2, b3, b4, b5, b6, b7; reflexivity.
Qed.

Lemma toLowerCase_idempotent (s : string) : toLowerCase (toLowerCase s) = toLowerCase s.
Proof.
  induction s as [|c s IH]; simpl; [reflexivity|].
  now rewrite lowerAscii_idempotent, IH.
Qed.

(** C8. insertContract stores the checksum form of the contract and deployer
    addresses it is given, so the stored addresses do not depend on the
    letter case of the input, and getContractByAddressAndChainId normalizes
    the queried address before comparing, so a lookup finds the row under any
    casing of its address; a createContract that registers a fresh contract
    stores the checksum forms of the request's two addresses. *)
Theorem registration_normalizes_addresses :
  forall (C : Collaborators),
    caseInsensitive C ->
    idempotentChecksum C ->
    (forall contract w w' r,
        insertContract C contract w = (Ok (Some r), w') ->
        In r (contracts (db w'))
        /\ Contract.contractAddress r
           = getAddress C (InsertContract.contractAddress contract)
        /\ Contract.deployerAddress r
           = getAddress C (InsertContract.deployerAddress contract)
        /\ (forall a, sameModuloCase a (InsertContract.contractAddress contract) ->
                      Contract.contractAddress r = getAddress C a)
        /\ (forall a, sameModuloCase a (InsertContract.deployerAddress contract) ->
                      Contract.deployerAddress r = getAddress C a)
        /\ (forall a, sameModuloCase a (InsertContract.contractAddress contract) ->
                      faults C (tick w') = false ->
                      fst (getContractByAddressAndChainId C a (Contract.chainId r)
                             (Contract.entityId r) w') = Ok (Some r)))
    /\ (forall a b chainId entityId w,
           sameModuloCase a b ->
           getContractByAddressAndChainId C a chainId entityId w
           = getContractByAddressAndChainId C b chainId entityId w)
    /\ (forall user input w w' r,
           createContractController C (Some user) input w = (Ok (Some r), w') ->
           filter (slotOf (userEntityId user)
                     (getAddress C (CreateContractInput.contractAddress input))
                     (CreateContractInput.chainId input))
             (contracts (db w)) = [] ->
           In r (contracts (db w'))
           /\ Contract.contractAddress r
              = getAddress C (CreateContractInput.contractAddress input)
           /\ Contract.deployerAddress r
              = getAddress C (CreateContractInput.deployerAddress input)).
Proof.
  intros C Hcase Hidem. split; [|split].
  - intros contract w w' r Hins.
    pose proof (insertContract_inserted _ _ _ _ _ Hins)
      as (_ & Hv & Hw' & _ & _ & _ & Hca & Hda & _).
    split. { subst w'. simpl. apply in_or_app. right. now left. }
    split; [exact Hca|]. split; [exact Hda|]. split; [|split].
    + intros a Ha. rewrite Hca. symmetry. now apply Hcase.
    + intros a Ha. rewrite Hda. symmetry. now apply Hcase.
    + intros a Ha Hf.
      rewrite getContractByAddressAndChainId_run by exact Hf.
      rewrite (Hcase a _ Ha), <- Hca. subst w'. simpl.
      rewrite filter_app, (slot_free_before_insert r _ Hv). simpl.
      unfold slotOf. now rewrite !String.eqb_refl, Z.eqb_refl.
  - intros a b chainId entityId w Hab.
    unfold getContractByAddressAndChainId. now rewrite (Hcase a b Hab).
  - intros user input w w' r Hrun Hfree.
    apply createContractController_ok in Hrun.
    destruct Hrun as (tx & receipt & block & wb & Hunit & Hw').
    apply createContractUnit_fresh in Hunit; [|rewrite Hidem; exact Hfree].
    destruct Hunit as (r0 & verified & w1 & Hr & Hins & Hcs & _).
    injection Hr as <-.
    pose proof (insertContract_inserted _ _ _ _ _ Hins)
      as (_ & _ & Hw1 & _ & _ & _ & Hca & Hda & _).
    simpl in Hca, Hda. rewrite Hidem in Hca, Hda.
    split; [|split; assumption].
    subst w'. simpl. rewrite Hcs. subst w1. simpl.
    apply in_or_app. right. now left.
Qed.

(** A run of C8: the request spells both addresses in upper case; the row it
    stores carries their normal forms. *)
Lemma registration_normalizes_addresses_witness :
  exists r w',
    createContractController (sampleCollaborators plainClient noFaults)
      (Some alice) sampleInput emptyWorld = (Ok (Some r), w')
    /\ In r (contracts (db w'))
    /\ Contract.contractAddress r = "0xabc1"
    /\ Contract.deployerAddress r = "0xdef0".
Proof.
  eexists. eexists. split.
  - vm_compute. reflexivity.
  - apply (proj2 (proj2 (registration_normalizes_addresses
                           (sampleCollaborators plainClient noFaults)
                           (fun a b H => H) toLowerCase_idempotent))
             alice sampleInput emptyWorld); reflexivity.
Defined.

(** ** startVerification *)

Lemma hd_error_filter_mono {R} (q q' : R -> bool) (rows : list R) (r : R) :
  (forall x, q' x = true -> q x = true) ->
  hd_error (filter q rows) = Some r ->
  q' r = true ->
  hd_error (filter q' rows) = Some r.
Proof.
  intros Hsub. induction rows as [|x rows IH]; simpl; [discriminate|].
  destruct (q x) eqn:Eq.
  - simpl. intros [= ->] Hr. now rewrite Hr.
  - intros Hhd Hr. destruct (q' x) eqn:Eq'.
    + rewrite (Hsub x Eq') in Eq. discriminate.
    + now apply IH.
Qed.

Lemma filter_none_mono {R} (q q' : R -> bool) (rows : list R) :
  (forall x, q' x = true -> q x = true) ->
  hd_error (filter q rows) = None ->
  filter q' rows = [].
Proof.
  intros Hsub. induction rows as [|x rows IH]; simpl; [reflexivity|].
  destruct (q x) eqn:Eq; [discriminate|]. intros Hhd.
  destruct (q' x) eqn:Eq'.
  - rewrite (Hsub x Eq') in Eq. discriminate.
  - now apply IH.
Qed.

(** A challenge unexpired at a later instant was unexpired before. *)
Lemma unexpiredFor_earlier
  (C : Collaborators) (entityId contractId : Id) (now later : Timestamp)
  (ch : Challenge.t) :
  now <= later ->
  unexpiredFor C entityId contractId later ch = true ->
  unexpiredFor C entityId contractId now ch = true.
Proof.
  intros Hle. unfold unexpiredFor, unexpired.
  rewrite !andb_true_iff, !Z.ltb_lt. intuition lia.
Qed.

(** startVerification past its two reads: the contract is active and not
    VERIFIED. *)
Lemma startVerification_run
  (C : Collaborators) (user : User) (contractId : Id) (w : World) (c : Contract.t) :
  faults C (tick w) = false ->
  faults C (S (tick w)) = false ->
  hd_error (filter (activeContract contractId (userEntityId user)) (contracts (db w)))
    = Some c ->
  ContractState_eqb (Contract.state c) VERIFIED = false ->
  startVerificationController C (Some user) contractId w
  = match
      hd_error (filter (unexpiredFor C (userEntityId user) contractId
                          (clock C (S (tick w))))
                  (challenges (db w)))
    with
    | Some existing =>
        (Ok (mkIssued existing (generateChallenge C (Contract.deployerAddress c))),
         mkWorld (db w) (S (S (tick w))))
    | None =>
        (result <-
           catchThrow
             (insertChallenge C
                (InsertChallenge.mk (userEntityId user) contractId
                   (Contract.deployerAddress c) (Contract.chainId c) PENDING))
             (handleStatus 500 "error creating challenge") ;;
         ret (mkIssued result (generateChallenge C (Contract.deployerAddress c))))
          (mkWorld (db w) (S (S (tick w))))
    end.
Proof.
  intros F0 F1 Hactive Hstate.
  unfold startVerificationController.
  unfold bind at 1. simpl. unfold bind at 1.
  unfold catchThrow at 1, getActiveContract, query, statement.
  rewrite F0, Hactive. simpl. rewrite Hstate.
  unfold bind at 1. unfold catchThrow at 1, getUnexpiredChallenge, query, statement.
  simpl. rewrite F1.
  destruct (hd_error (filter (unexpiredFor C (userEntityId user) contractId
                                (clock C (S (tick w))))
                        (challenges (db w)))); reflexivity.
Qed.

Lemma startVerification_ok
  (C : Collaborators) (user : User) (contractId : Id) (w w1 : World)
  (issued : IssuedChallenge) :
  startVerificationController C (Some user) contractId w = (Ok issued, w1) ->
  faults C (tick w) = false
  /\ faults C (S (tick w)) = false
  /\ exists c,
       hd_error (filter (activeContract contractId (userEntityId user))
                   (contracts (db w))) = Some c
       /\ ContractState_eqb (Contract.state c) VERIFIED = false.
Proof.
  unfold startVerificationController.
  unfold bind at 1. simpl. unfold bind at 1.
  unfold catchThrow at 1, getActiveContract, query, statement.
  destruct (faults C (tick w)); [discriminate|].
  destruct (hd_error (filter (activeContract contractId (userEntityId user))
                        (contracts (db w)))) as [c|]; simpl; [|discriminate].
  destruct (ContractState_eqb (Contract.state c) VERIFIED) eqn:Hstate; [discriminate|].
  unfold bind at 1. unfold catchThrow at 1, getUnexpiredChallenge, query, statement.
  simpl. destruct (faults C (S (tick w))); [discriminate|].
  intros _. repeat split. now exists c.
Qed.

(** C7. startVerification is idempotent while an unexpired challenge exists.
    A successful call either found an unexpired challenge of the contract,
    returned it and left the store untouched, or found none and appended one
    new PENDING challenge; and a second call made before the returned
    challenge expires returns that same challenge (same id, same message)
    and inserts nothing. *)
Theorem startVerification_idempotent :
  forall (C : Collaborators) (user : User) (contractId : Id) (w w1 : World)
         (issued : IssuedChallenge),
    (forall i j, (i <= j)%nat -> clock C i <= clock C j) ->
    startVerificationController C (Some user) contractId w = (Ok issued, w1) ->
    let pending :=
      hd_error (filter (unexpiredFor C (userEntityId user) contractId
                          (clock C (S (tick w))))
                  (challenges (db w))) in
    ((pending = Some (issuedRow issued) /\ db w1 = db w)
     \/ (pending = None
         /\ challenges (db w1) = (challenges (db w) ++ [issuedRow issued])%list
         /\ contracts (db w1) = contracts (db w)
         /\ Challenge.state (issuedRow issued) = PENDING
         /\ Challenge.contractId (issuedRow issued) = contractId
         /\ Challenge.entityId (issuedRow issued) = userEntityId user))
    /\ (faults C (tick w1) = false ->
        faults C (S (tick w1)) = false ->
        clock C (S (tick w1))
          < Challenge.createdAt (issuedRow issued) + challengeValidity C ->
        startVerificationController C (Some user) contractId w1
        = (Ok issued, mkWorld (db w1) (S (S (tick w1))))).
Proof.
  intros C user contractId w w1 issued Hclock Hrun pending.
  pose proof (startVerification_ok _ _ _ _ _ _ Hrun) as (F0 & F1 & c & Hact & Hst).
  rewrite (startVerification_run C user contractId w c F0 F1 Hact Hst) in Hrun.
  fold pending in Hrun.
  assert (Hlater : forall x,
             unexpiredFor C (userEntityId user) contractId (clock C (S (tick w1))) x = true ->
             (tick w <= tick w1)%nat ->
             unexpiredFor C (userEntityId user) contractId (clock C (S (tick w))) x = true).
  { intros x Hx Hle.
    apply (unexpiredFor_earlier C _ _ (clock C (S (tick w))) (clock C (S (tick w1))) x);
      [apply Hclock; lia | exact Hx]. }
  destruct pending as [existing|] eqn:Hpending.
  - injection Hrun as <- <-. split; [left; now split|].
    intros F0' F1' Hfresh. simpl in *.
    rewrite (startVerification_run C user contractId
               (mkWorld (db w) (S (S (tick w)))) c F0' F1' Hact Hst). simpl.
    pose proof (hd_error_filter_In _ _ _ Hpending) as [_ Hq].
    rewrite (hd_error_filter_mono _
               (unexpiredFor C (userEntityId user) contractId
                  (clock C (S (S (S (tick w)))))) _ existing
               (fun x Hx => Hlater x Hx ltac:(lia)) Hpending); [reflexivity|].
    unfold unexpiredFor, unexpired in *.
    apply andb_true_iff in Hq. destruct Hq as [Hkey Hq].
    apply andb_true_iff in Hq. destruct Hq as [Hpend _].
    rewrite Hkey, Hpend. simpl. now apply Z.ltb_lt.
  - unfold bind at 1 in Hrun. unfold catchThrow, insertChallenge, statement in Hrun.
    simpl in Hrun.
    destruct (faults C (S (S (tick w)))); [discriminate|].
    destruct (existsb _ (challenges (db w))); [discriminate|].
    unfold ret in Hrun. injection Hrun as <- <-. simpl.
    split; [right; repeat split|].
    intros F0' F1' Hfresh.
    match goal with
    | |- startVerificationController _ _ _ ?w2 = _ =>
        rewrite (startVerification_run C user contractId w2 c F0' F1' Hact Hst)
    end.
    simpl. rewrite filter_app.
    rewrite (filter_none_mono
               (unexpiredFor C (userEntityId user) contractId (clock C (S (tick w))))
               (unexpiredFor C (userEntityId user) contractId
                  (clock C (S (S (S (S (tick w)))))))
               (challenges (db w))
               (fun x Hx => Hlater x Hx ltac:(simpl; lia)) Hpending).
    simpl. unfold unexpiredFor at 1, unexpired. simpl.
    rewrite !String.eqb_refl. simpl.
    apply Z.ltb_lt in Hfresh. now rewrite Hfresh.
Qed.

Lemma sample_clock_monotone (client : PublicClient) (faulty : nat -> bool) (i j : nat) :
  (i <= j)%nat ->
  clock (sampleCollaborators client faulty) i <= clock (sampleCollaborators client faulty) j.
Proof. intros H. unfold sampleCollaborators, clock. lia. Qed.

(** A run of C7: no unexpired challenge is on file, so the first call
    inserts one; the second call, made right after, returns it again. *)
Lemma startVerification_idempotent_witness :
  let C := sampleCollaborators plainClient noFaults in
  exists issued w1,
    startVerificationController C (Some alice) "contract-1"
      (sampleWorld NOT_VERIFIED COMPLETED) = (Ok issued, w1)
    /\ startVerificationController C (Some alice) "contract-1" w1
       = (Ok issued, mkWorld (db w1) (S (S (tick w1)))).
Proof.
  intros C. eexists. eexists. split.
  - vm_compute. reflexivity.
  - apply (proj2 (startVerification_idempotent C alice "contract-1"
                    (sampleWorld NOT_VERIFIED COMPLETED) _ _
                    (sample_clock_monotone plainClient noFaults) eq_refl));
      reflexivity.
Defined.

(** ** createContract: the atomic unit *)

(** The branches of the unit when no statement fails: an active row in the
    slot makes the unit throw 400 'contract already exists'; a DELETED row is
    updated in place, into the requested app, VERIFIED when the entity already
    has a VERIFIED contract of this deployer and NOT_VERIFIED otherwise, and
    no row is added; a free slot gets a new contract row and its transaction
    row. *)
Lemma createContractUnit_branches
  (C : Collaborators) (user : User) (deploymentTx : ViemTransaction.t)
  (receipt : Receipt.t) (block : Block.t) (inputContractAddress inputDeployerAddress : Address)
  (hash : Hash) (chainId : ChainId) (appId : Id) (w0 : World) :
  faults C (tick w0) = false ->
  faults C (S (tick w0)) = false ->
  faults C (S (S (tick w0))) = false ->
  faults C (S (S (S (tick w0)))) = false ->
  let unit :=
    createContractUnit C user deploymentTx receipt block inputContractAddress
      inputDeployerAddress hash chainId appId w0 in
  let slot :=
    filter (slotOf (userEntityId user) (getAddress C inputContractAddress) chainId)
      (contracts (db w0)) in
  let trusted :=
    existsb (fun c => (Contract.entityId c =? userEntityId user)%string
                      && ContractState_eqb (Contract.state c) VERIFIED
                      && (Contract.deployerAddress c =? getAddress C inputDeployerAddress)%string)
      (contracts (db w0)) in
  (forall existing,
      hd_error slot = Some existing -> Contract.state existing <> DELETED ->
      unit = (Err (handleStatus 400 "contract already exists"),
              mkWorld (db w0) (S (S (tick w0)))))
  /\ (forall existing,
         hd_error slot = Some existing -> Contract.state existing = DELETED ->
         fst unit
         = Ok (hd_error
                 (returning (fun c => (Contract.id c =? Contract.id existing)%string)
                    (setContractStateAndApp
                       (if trusted then VERIFIED else NOT_VERIFIED) appId
                       (clock C (S (S (tick w0)))))
                    (contracts (db w0))))
         /\ contracts (db (snd unit))
            = update (fun c => (Contract.id c =? Contract.id existing)%string)
                (setContractStateAndApp
                   (if trusted then VERIFIED else NOT_VERIFIED) appId
                   (clock C (S (S (tick w0)))))
                (contracts (db w0))
         /\ length (contracts (db (snd unit))) = length (contracts (db w0))
         /\ transactions (db (snd unit)) = transactions (db w0))
  /\ (hd_error slot = None ->
      forall r,
        r = contractRow C (S (S (tick w0)))
              (InsertContract.mk None None None (userEntityId user) chainId appId None
                 (getAddress C inputContractAddress) (getAddress C inputDeployerAddress)
                 hash (Some (if trusted then VERIFIED else NOT_VERIFIED))) ->
        violatesContractConstraints r (contracts (db w0)) = false ->
        fst unit = Ok (Some r)
        /\ contracts (db (snd unit)) = (contracts (db w0) ++ [r])%list
        /\ transactions (db (snd unit))
           = (transactions (db w0)
                ++ [viemContractDeploymentTransactionToDbTransaction receipt
                      deploymentTx (userEntityId user) chainId (Contract.id r)
                      (Block.timestamp block)])%list).
Proof.
  intros F0 F1 F2 F3 unit slot trusted.
  assert (Htrusted :
            (0 <? length
                    (firstn 1
                       (filter
                          (fun c =>
                             (Contract.entityId c =? userEntityId user)%string
                             && ContractState_eqb (Contract.state c) VERIFIED
                             && (Contract.deployerAddress c
                                 =? getAddress C inputDeployerAddress)%string)
                          (contracts (db w0)))))%nat = trusted).
  { subst trusted. induction (contracts (db w0)) as [|c l IH]; simpl; [reflexivity|].
    destruct (_ && _ && _)%bool; simpl; [reflexivity | exact IH]. }
  assert (Hunit :
            unit
            = match hd_error slot with
              | Some existing =>
                  if negb (ContractState_eqb (Contract.state existing) DELETED)
                  then (Err (handleStatus 400 "contract already exists"),
                        mkWorld (db w0) (S (S (tick w0))))
                  else
                    (restoredContract <-
                       catchThrow
                         (restoreDeletedContract C (Contract.id existing) appId
                            (if trusted then RestoreVerified else RestoreNotVerified))
                         (handleStatus 500 "error restoring deleted contract") ;;
                     ret restoredContract) (mkWorld (db w0) (S (S (tick w0))))
              | None =>
                  (contract <-
                     insertContract C
                       (InsertContract.mk None None None (userEntityId user) chainId
                          appId None inputContractAddress inputDeployerAddress hash
                          (Some (if trusted then VERIFIED else NOT_VERIFIED))) ;;
                   match contract with
                   | Some c =>
                       insertTransaction C
                         (viemContractDeploymentTransactionToDbTransaction receipt
                            deploymentTx (userEntityId user) chainId (Contract.id c)
                            (Block.timestamp block)) ;;;
                       ret contract
                   | None => throw JsTypeError
                   end) (mkWorld (db w0) (S (S (tick w0))))
              end).
  { subst unit slot. unfold createContractUnit, hasAlreadyVerifiedDeployer.
    unfold bind at 1. unfold query at 1, statement at 1. rewrite F0. cbv beta iota.
    rewrite Htrusted. unfold bind at 1.
    rewrite getContractByAddressAndChainId_run by exact F1. cbn [db].
    destruct (hd_error _) as [existing|]; [|reflexivity].
    destruct (negb _); reflexivity. }
  split; [|split].
  - intros existing Hex Hst. rewrite Hunit, Hex.
    destruct (Contract.state existing); try contradiction; reflexivity.
  - intros existing Hex Hst. rewrite Hunit, Hex, Hst. simpl.
    unfold bind, catchThrow, restoreDeletedContract, statement, ret. simpl.
    rewrite F2. simpl.
    destruct trusted; simpl; repeat split; unfold update; now rewrite length_map.
  - intros Hnone r Hr Hv.
    assert (Hu : unit
                 = (Ok (Some r),
                    mkWorld
                      (mkDb (contracts (db w0) ++ [r]) (challenges (db w0))
                         (transactions (db w0)
                            ++ [viemContractDeploymentTransactionToDbTransaction
                                  receipt deploymentTx (userEntityId user) chainId
                                  (Contract.id r) (Block.timestamp block)]))
                      (S (S (S (S (tick w0))))))).
    { rewrite Hunit, Hnone.
      unfold bind, insertContract, insertTransaction, statement, ret.
      cbn [db tick]. rewrite F2.
      cbn [InsertContract.createdAt InsertContract.updatedAt InsertContract.id
           InsertContract.entityId InsertContract.chainId InsertContract.appId
           InsertContract.name InsertContract.contractAddress
           InsertContract.deployerAddress InsertContract.deploymentTxHash
           InsertContract.state].
      rewrite <- Hr, Hv. cbn [hd_error db tick]. rewrite F3. reflexivity. }
    rewrite Hu. repeat split.
Qed.

(** Whatever the atomic unit throws, the handler on the transaction answers
    500 'error creating contract', and the store is rolled back. *)
Lemma createContract_unit_error_rethrown
  (C : Collaborators) (user : User) (deploymentTx : ViemTransaction.t)
  (receipt : Receipt.t) (block : Block.t) (inputContractAddress inputDeployerAddress : Address)
  (hash : Hash) (chainId : ChainId) (appId : Id) (w wb : World) (e : Error) :
  faults C (tick w) = false ->
  createContractUnit C user deploymentTx receipt block inputContractAddress
    inputDeployerAddress hash chainId appId (mkWorld (db w) (S (tick w))) = (Err e, wb) ->
  catchThrow
    (transaction C
       (createContractUnit C user deploymentTx receipt block inputContractAddress
          inputDeployerAddress hash chainId appId))
    (handleStatus 500 "error creating contract") w
  = (Err (handleStatus 500 "error creating contract"), mkWorld (db w) (tick wb)).
Proof.
  intros F0 Hunit. unfold catchThrow, transaction. now rewrite F0, Hunit.
Qed.

(** C2, the duplicate case, on a concrete request.  Entity-A holds an active
    row for 0xabc1 on chain 10 and registers that address again.  The atomic
    unit throws 400 'contract already exists'; the request is answered 500
    'error creating contract'. *)
Theorem createContract_duplicate_answers_500 :
  let C := sampleCollaborators plainClient noFaults in
  let w := sampleWorld NOT_VERIFIED PENDING in
  contractStateOf (db w) "entity-A" "contract-1" = Some NOT_VERIFIED
  /\ fst (createContractUnit C alice (ViemTransaction.mk "0x1111" "0xb10c")
            (Receipt.mk (Some "0xABC1") "0xdef0") (Block.mk 1700000000)
            (getAddress C "0xABC1") (getAddress C "0xDEF0") "0x1111" 10 "app-2"
            (mkWorld (db w) 1))
     = Err (handleStatus 400 "contract already exists")
  /\ createContractController C (Some alice) sampleInput w
     = (Err (handleStatus 500 "error creating contract"), mkWorld (db w) 3).
Proof. vm_compute. repeat split. Qed.

(** ** Invariants of the store *)

Lemma keeps_ret {A} (I : Db -> Prop) (a : A) : keeps I (ret a).
Proof. intros w H. exact H. Qed.

Lemma keeps_throw {A} (I : Db -> Prop) (e : Error) : keeps I (@throw A e).
Proof. intros w H. exact H. Qed.

Lemma keeps_await {A} (I : Db -> Prop) (p : Rpc A) : keeps I (await p).
Proof. destruct p; [apply keeps_ret | apply keeps_throw]. Qed.

Lemma keeps_bind {A B} (I : Db -> Prop) (m : M A) (f : A -> M B) :
  keeps I m -> (forall a, keeps I (f a)) -> keeps I (bind m f).
Proof.
  intros Hm Hf w H. unfold bind. specialize (Hm w H).
  destruct (m w) as [[a|e] w']; simpl in *; [now apply Hf | exact Hm].
Qed.

Lemma keeps_catchThrow {A} (I : Db -> Prop) (m : M A) (e : Error) :
  keeps I m -> keeps I (catchThrow m e).
Proof. intros Hm w H. rewrite catchThrow_world. now apply Hm. Qed.

Lemma keeps_transaction {A} (C : Collaborators) (I : Db -> Prop) (body : M A) :
  keeps I body -> keeps I (transaction C body).
Proof.
  intros Hb w H. destruct (transaction_db C body w) as [E|E]; rewrite E;
    [exact H | now apply Hb].
Qed.

Lemma keeps_statement {A} (C : Collaborators) (I : Db -> Prop)
  (run : nat -> Db -> Result (A * Db)) :
  (forall n d a d', I d -> run n d = Ok (a, d') -> I d') ->
  keeps I (statement C run).
Proof.
  intros Hrun w H. unfold statement. destruct (faults C (tick w)); [exact H|].
  destruct (run (tick w) (db w)) as [[a d']|e] eqn:E; simpl; [|exact H].
  exact (Hrun _ _ _ _ H E).
Qed.

Lemma keeps_query {A} (C : Collaborators) (I : Db -> Prop) (f : nat -> Db -> A) :
  keeps I (query C f).
Proof. apply keeps_statement. intros n d a d' H [= _ <-]. exact H. Qed.

Lemma update_ids (p : Contract.t -> bool) (f : Contract.t -> Contract.t)
  (rows : list Contract.t) :
  (forall c, Contract.id (f c) = Contract.id c) ->
  map Contract.id (update p f rows) = map Contract.id rows.
Proof.
  intros Hf. unfold update. rewrite map_map. apply map_ext.
  intros c. now destruct (p c).
Qed.

Lemma consistent_update_contracts
  (p : Contract.t -> bool) (f : Contract.t -> Contract.t) (d : Db) :
  (forall c, Contract.id (f c) = Contract.id c) ->
  (forall c, Contract.entityId (f c) = Contract.entityId c) ->
  storeConsistent d ->
  storeConsistent (set_contracts d (update p f (contracts d))).
Proof.
  intros Hid Hent [Hpk Hown]. split.
  - unfold primaryKeyed. simpl. now rewrite update_ids.
  - intros ch Hch. destruct (Hown ch Hch) as (c & Hc & Hoc). simpl.
    exists (if p c then f c else c). split.
    + unfold update. apply (in_map (fun r => if p r then f r else r)) in Hc. exact Hc.
    + unfold ownedContract in *. destruct (p c); [|exact Hoc].
      now rewrite Hid, Hent.
Qed.

Lemma consistent_insert_contract (r : Contract.t) (d : Db) :
  violatesContractConstraints r (contracts d) = false ->
  storeConsistent d ->
  storeConsistent (set_contracts d (contracts d ++ [r])).
Proof.
  intros Hv [Hpk Hown]. split.
  - unfold primaryKeyed in *. simpl. rewrite map_app. simpl.
    apply NoDup_app; [exact Hpk | constructor; [intros [] | constructor] |].
    intros i Hi [<-|[]]. apply in_map_iff in Hi. destruct Hi as (c & Hci & Hc).
    unfold violatesContractConstraints in Hv.
    assert (Hex : existsb
                    (fun c =>
                       (Contract.id c =? Contract.id r)%string
                       || ((Contract.entityId c =? Contract.entityId r)%string
                           && (Contract.chainId c =? Contract.chainId r)%Z
                           && (Contract.contractAddress c =? Contract.contractAddress r)%string))
                    (contracts d) = true).
    { apply existsb_exists. exists c. split; [exact Hc|].
      rewrite Hci, String.eqb_refl. reflexivity. }
    congruence.
  - intros ch Hch. destruct (Hown ch Hch) as (c & Hc & Hoc). simpl.
    exists c. split; [apply in_or_app; now left | exact Hoc].
Qed.

Lemma consistent_update_challenges
  (p : Challenge.t -> bool) (f : Challenge.t -> Challenge.t) (d : Db) :
  (forall ch, Challenge.entityId (f ch) = Challenge.entityId ch) ->
  (forall ch, Challenge.contractId (f ch) = Challenge.contractId ch) ->
  storeConsistent d ->
  storeConsistent (set_challenges d (update p f (challenges d))).
Proof.
  intros Hent Hcid [Hpk Hown]. split; [exact Hpk|].
  intros ch Hch. simpl in Hch. unfold update in Hch.
  apply in_map_iff in Hch. destruct Hch as (ch0 & <- & Hch0).
  destruct (Hown ch0 Hch0) as (c & Hc & Hoc). exists c. split; [exact Hc|].
  destruct (p ch0); [now rewrite Hent, Hcid | exact Hoc].
Qed.

Lemma consistent_insert_challenge (r : Challenge.t) (d : Db) :
  (exists c, In c (contracts d)
             /\ ownedContract (Challenge.entityId r) (Challenge.contractId r) c = true) ->
  storeConsistent d ->
  storeConsistent (set_challenges d (challenges d ++ [r])).
Proof.
  intros Hr [Hpk Hown]. split; [exact Hpk|].
  intros ch Hch. simpl in Hch. apply in_app_or in Hch.
  destruct Hch as [Hch | [<- | []]]; [now apply Hown | exact Hr].
Qed.

Lemma keeps_verifyContract (C : Collaborators) (entityId contractId : Id) :
  keeps storeConsistent (verifyContract C entityId contractId).
Proof.
  apply keeps_statement. intros n d a d' H [= _ <-].
  now apply consistent_update_contracts.
Qed.

Lemma keeps_deleteContract (C : Collaborators) (entityId contractId : Id) :
  keeps storeConsistent (deleteContract C entityId contractId).
Proof.
  apply keeps_statement. intros n d a d' H [= _ <-].
  now apply consistent_update_contracts.
Qed.

Lemma keeps_restoreDeletedContract
  (C : Collaborators) (contractId appId : Id) (state : RestoredState) :
  keeps storeConsistent (restoreDeletedContract C contractId appId state).
Proof.
  apply keeps_statement. intros n d a d' H [= _ <-].
  now apply consistent_update_contracts.
Qed.

Lemma keeps_insertContract (C : Collaborators) (contract : InsertContract.t) :
  keeps storeConsistent (insertContract C contract).
Proof.
  apply keeps_statement. intros n d a d' H. cbv beta zeta.
  match goal with
  | |- context [violatesContractConstraints ?r ?rows] =>
      destruct (violatesContractConstraints r rows) eqn:Hv; [discriminate|]
  end.
  intros [= _ <-]. now apply consistent_insert_contract.
Qed.

Lemma keeps_insertTransaction (C : Collaborators) (t : Transaction.t) :
  keeps storeConsistent (insertTransaction C t).
Proof.
  apply keeps_statement. intros n d a d' H [= _ <-]. exact H.
Qed.

Lemma keeps_completeChallenge (C : Collaborators) (entityId challengeId : Id) :
  keeps storeConsistent (completeChallenge C entityId challengeId).
Proof.
  apply keeps_statement. intros n d a d' H [= _ <-].
  now apply consistent_update_challenges.
Qed.

Lemma keeps_deleteContractController
  (C : Collaborators) (user : User) (contractId : Id) :
  keeps storeConsistent (deleteContractController C (Some user) contractId).
Proof.
  unfold deleteContractController, assertUserAuthenticated.
  apply keeps_bind; [apply keeps_ret|]. intros u.
  apply keeps_bind; [|intros; apply keeps_ret].
  apply keeps_catchThrow, keeps_deleteContract.
Qed.

Lemma keeps_completeVerificationController
  (C : Collaborators) (user : User) (challengeId : Id) (signature : Signature) :
  keeps storeConsistent
    (completeVerificationController C (Some user) challengeId signature).
Proof.
  unfold completeVerificationController, assertUserAuthenticated.
  apply keeps_bind; [apply keeps_ret|]. intros u.
  apply keeps_bind; [apply keeps_catchThrow, keeps_query|].
  intros [ch|]; [|apply keeps_throw].
  destruct (ChallengeState_eqb (Challenge.state ch) EXPIRED); [apply keeps_throw|].
  destruct (supportedChainsPublicClientsMap C (Challenge.chainId ch)) as [pc|];
    [|apply keeps_throw].
  apply keeps_bind; [apply keeps_await|]. intros valid.
  destruct (negb valid); [apply keeps_throw|].
  apply keeps_bind; [|intros; apply keeps_ret].
  apply keeps_catchThrow, keeps_transaction. unfold completeVerificationUnit.
  apply keeps_bind; [apply keeps_completeChallenge|]. intros _.
  apply keeps_bind; [apply keeps_verifyContract|]. intros _. apply keeps_ret.
Qed.

Lemma keeps_createContractUnit
  (C : Collaborators) (user : User) (deploymentTx : ViemTransaction.t)
  (receipt : Receipt.t) (block : Block.t) (inputContractAddress inputDeployerAddress : Address)
  (hash : Hash) (chainId : ChainId) (appId : Id) :
  keeps storeConsistent
    (createContractUnit C user deploymentTx receipt block inputContractAddress
       inputDeployerAddress hash chainId appId).
Proof.
  unfold createContractUnit.
  apply keeps_bind; [apply keeps_query|]. intros trusted.
  apply keeps_bind; [apply keeps_query|]. intros [existing|].
  - destruct (negb _); [apply keeps_throw|].
    apply keeps_bind; [|intros; apply keeps_ret].
    apply keeps_catchThrow, keeps_restoreDeletedContract.
  - apply keeps_bind; [apply keeps_insertContract|]. intros [c|]; [|apply keeps_throw].
    apply keeps_bind; [apply keeps_insertTransaction|]. intros _. apply keeps_ret.
Qed.

Lemma keeps_createContractController
  (C : Collaborators) (user : User) (input : CreateContractInput.t) :
  keeps storeConsistent (createContractController C (Some user) input).
Proof.
  unfold createContractController, assertUserAuthenticated.
  apply keeps_bind; [apply keeps_ret|]. intros u.
  destruct (supportedChainsPublicClientsMap C (CreateContractInput.chainId input))
    as [pc|]; [|apply keeps_throw].
  apply keeps_bind; [apply keeps_catchThrow, keeps_await|]. intros tx.
  apply keeps_bind; [apply keeps_catchThrow, keeps_await|]. intros receipt.
  apply keeps_bind; [apply keeps_catchThrow, keeps_await|]. intros block.
  apply keeps_bind.
  { unfold resolveTxContractAddress. destruct (truthy _); [apply keeps_ret|].
    apply keeps_bind; [apply keeps_catchThrow, keeps_await|].
    intros; apply keeps_ret. }
  intros txContractAddress. destruct (negb _); [apply keeps_throw|].
  destruct txContractAddress as [a|]; [|apply keeps_throw].
  unfold registerResolvedContract.
  destruct (negb _); [apply keeps_throw|].
  destruct (negb _); [apply keeps_throw|].
  apply keeps_catchThrow, keeps_transaction, keeps_createContractUnit.
Qed.

Lemma keeps_startVerificationController
  (C : Collaborators) (user : User) (contractId : Id) :
  keeps storeConsistent (startVerificationController C (Some user) contractId).
Proof.
  intros w H. unfold startVerificationController.
  unfold bind at 1. simpl. unfold bind at 1.
  unfold catchThrow at 1, getActiveContract, query, statement.
  destruct (faults C (tick w)); [exact H|].
  destruct (hd_error (filter (activeContract contractId (userEntityId user))
                        (contracts (db w)))) as [c|] eqn:Hact; simpl; [|exact H].
  destruct (ContractState_eqb (Contract.state c) VERIFIED); [exact H|].
  unfold bind at 1. unfold catchThrow at 1, getUnexpiredChallenge, query, statement.
  simpl. destruct (faults C (S (tick w))); [exact H|].
  destruct (hd_error (filter _ (challenges (db w)))); [exact H|].
  unfold bind, catchThrow, insertChallenge, statement, ret. simpl.
  destruct (faults C (S (S (tick w)))); [exact H|].
  destruct (existsb _ (challenges (db w))); [exact H|]. simpl.
  apply consistent_insert_challenge; [|exact H]. simpl.
  apply hd_error_filter_In in Hact. destruct Hact as [Hin Hactive].
  exists c. split; [exact Hin|].
  unfold activeContract in Hactive. unfold ownedContract.
  apply andb_true_iff in Hactive. destruct Hactive as [Hactive _].
  apply andb_true_iff in Hactive. destruct Hactive as [Hid Hent].
  now rewrite Hid, Hent.
Qed.

(** Every world the route reaches from an empty store has unique contract
    ids and challenges that point at a contract of their own entity. *)
Lemma reachable_consistent (C : Collaborators) (w : World) :
  reachable C w -> storeConsistent (db w).
Proof.
  induction 1 as [n | w request Hreach IH].
  - split; [constructor | intros ch []].
  - destruct request; simpl.
    + now apply keeps_createContractController.
    + now apply keeps_startVerificationController.
    + now apply keeps_completeVerificationController.
    + now apply keeps_deleteContractController.
Qed.

(** A challenge the entity can look up has its contract row, in any
    consistent store. *)
Lemma owned_challenge_has_contract
  (d : Db) (entityId challengeId : Id) (ch : Challenge.t) :
  challengesOwned d ->
  hd_error (filter (ownedChallenge entityId challengeId) (challenges d)) = Some ch ->
  exists state, contractStateOf d entityId (Challenge.contractId ch) = Some state.
Proof.
  intros Hown Hfound. apply hd_error_filter_In in Hfound.
  destruct Hfound as [Hin Hkey]. unfold ownedChallenge in Hkey.
  apply andb_true_iff in Hkey. destruct Hkey as [_ Hent].
  apply String.eqb_eq in Hent.
  destruct (Hown ch Hin) as (c & Hc & Hoc). rewrite Hent in Hoc.
  unfold contractStateOf.
  destruct (filter (ownedContract entityId (Challenge.contractId ch)) (contracts d))
    as [|c0 l] eqn:E.
  - assert (Hcf : In c (filter (ownedContract entityId (Challenge.contractId ch))
                          (contracts d))) by (apply filter_In; now split).
    rewrite E in Hcf. destruct Hcf.
  - now exists (Contract.state c0).
Qed.

(** ** completeVerification: the atomic unit *)

(** C1. Once the signature check has succeeded, completeChallenge and
    verifyContract run as one database transaction: either the request
    succeeds and both changes are in the store (the challenge is COMPLETED and
    the contract VERIFIED), or a statement of the unit failed, the request is
    answered with the 500 'server failed to mark challenge as complete', and
    the store is exactly the one the request found.  No outcome applies one
    change without the other.  The store is taken to satisfy the referential
    integrity that every reachable store has. *)
Theorem completeVerification_atomic :
  forall (C : Collaborators) (user : User) (challengeId : Id) (signature : Signature)
         (w w1 : World) (ch : Challenge.t) (publicClient : PublicClient),
    getChallengeByChallengeId C (userEntityId user) challengeId w = (Ok (Some ch), w1) ->
    Challenge.state ch <> EXPIRED ->
    supportedChainsPublicClientsMap C (Challenge.chainId ch) = Some publicClient ->
    verifyMessage publicClient (Challenge.address ch)
      (generateChallenge C (Challenge.address ch)) signature = Resolved true ->
    challengesOwned (db w) ->
    exists r w',
      completeVerificationController C (Some user) challengeId signature w = (r, w')
      /\ ((unitFaulty C (tick w1) = false
           /\ r = Ok (mkSuccess true)
           /\ challengeStateOf (db w') (userEntityId user) challengeId = Some COMPLETED
           /\ contractStateOf (db w') (userEntityId user) (Challenge.contractId ch)
              = Some VERIFIED)
          \/ (unitFaulty C (tick w1) = true
              /\ r = Err (handleStatus 500 "server failed to mark challenge as complete")
              /\ db w' = db w)).
Proof.
  intros C user challengeId signature w w1 ch pc Hlookup Hstate Hpc Hverify Hown.
  rewrite (completeVerification_after_check C user challengeId signature w w1 ch pc
             true Hlookup Hstate Hpc Hverify).
  apply getChallengeByChallengeId_found in Hlookup.
  destruct Hlookup as (_ & Hw1 & Hfound).
  destruct (owned_challenge_has_contract _ _ _ _ Hown Hfound) as (before & Hrow).
  destruct (completeVerification_unit_outcome C user challengeId
              (Challenge.contractId ch)
              (handleStatus 500 "server failed to mark challenge as complete") w1)
    as (r & w' & Hrun & Hout).
  simpl. unfold bind at 1. rewrite Hrun.
  destruct Hout as [(Hok & -> & Hchs & Hcs) | (Hbad & -> & Hdb)].
  - exists (Ok (mkSuccess true)), w'. split; [reflexivity|]. left.
    split; [exact Hok|]. split; [reflexivity|]. split.
    + unfold challengeStateOf. rewrite Hchs, filter_update_key
        by (intros; apply ownedChallenge_setState).
      rewrite hd_error_map. subst w1. simpl. now rewrite Hfound.
    + unfold contractStateOf in *. rewrite Hcs, filter_update_key
        by (intros; apply ownedContract_setState).
      rewrite hd_error_map. subst w1. simpl in *.
      destruct (hd_error (filter (ownedContract (userEntityId user)
                                    (Challenge.contractId ch))
                            (contracts (db w))));
        [reflexivity|discriminate].
  - eexists _, w'. split; [reflexivity|]. right.
    split; [exact Hbad|]. split; [reflexivity|]. rewrite Hdb. now subst w1.
Qed.

(** A run of C1: the environment fails the third statement of the unit's
    connection, verifyContract, after completeChallenge has run; the request
    is answered 500 and the store is the one it found. *)
Lemma completeVerification_atomic_witness :
  exists w',
    completeVerificationController (sampleCollaborators plainClient (failAt 3))
      (Some alice) "challenge-1" "0x600d" (sampleWorld NOT_VERIFIED PENDING)
    = (Err (handleStatus 500 "server failed to mark challenge as complete"), w')
    /\ db w' = db (sampleWorld NOT_VERIFIED PENDING).
Proof.
  destruct (completeVerification_atomic
              (sampleCollaborators plainClient (failAt 3)) alice "challenge-1" "0x600d"
              (sampleWorld NOT_VERIFIED PENDING)
              (mkWorld (db (sampleWorld NOT_VERIFIED PENDING)) 1)
              (sampleChallenge PENDING) plainClient)
    as (r & w' & Hrun & [(Hfaulty & _) | (_ & Hr & Hdb)]).
  - reflexivity.
  - discriminate.
  - reflexivity.
  - reflexivity.
  - intros ch [<-|[]]. exists (sampleContract "contract-1" "entity-A" NOT_VERIFIED).
    split; [now left | reflexivity].
  - discriminate Hfaulty.
  - exists w'. rewrite Hrun, Hr. split; [reflexivity | exact Hdb].
Defined.

(** With no failing statement the same request applies both changes. *)
Example completeVerification_applies_both :
  let outcome :=
    completeVerificationController (sampleCollaborators plainClient noFaults)
      (Some alice) "challenge-1" "0x600d" (sampleWorld NOT_VERIFIED PENDING) in
  fst outcome = Ok (mkSuccess true)
  /\ challengeStateOf (db (snd outcome)) "entity-A" "challenge-1" = Some COMPLETED
  /\ contractStateOf (db (snd outcome)) "entity-A" "contract-1" = Some VERIFIED.
Proof. vm_compute. repeat split. Qed.

(** * Further properties of the store and the route *)

(** ** Listing the contracts of an app *)

Lemma insertByCreatedAt_perm (c : Contract.t) (rows : list Contract.t) :
  Permutation (insertByCreatedAt c rows) (c :: rows).
Proof.
  induction rows as [|r rows IH]; simpl; [apply Permutation_refl|].
  destruct (Contract.createdAt c <=? Contract.createdAt r)%Z.
  - apply Permutation_refl.
  - apply perm_trans with (r :: c :: rows); [now apply perm_skip | apply perm_swap].
Qed.

Lemma orderByCreatedAt_perm (rows : list Contract.t) :
  Permutation (orderByCreatedAt rows) rows.
Proof.
  induction rows as [|r rows IH]; simpl; [apply perm_nil|].
  apply perm_trans with (r :: orderByCreatedAt rows);
    [apply insertByCreatedAt_perm | now apply perm_skip].
Qed.

Lemma insertByCreatedAt_sorted (c : Contract.t) (rows : list Contract.t) :
  Sorted createdNoLater rows -> Sorted createdNoLater (insertByCreatedAt c rows).
Proof.
  induction rows as [|r rows IH]; simpl; intros Hs.
  - repeat constructor.
  - destruct (Z.leb_spec (Contract.createdAt c) (Contract.createdAt r)) as [Hle|Hgt].
    + constructor; [exact Hs | constructor; exact Hle].
    + inversion Hs as [|x l Hs' Hhd]; subst.
      constructor; [now apply IH|].
      destruct rows as [|r' rows']; simpl.
      * constructor. unfold createdNoLater. lia.
      * destruct (Contract.createdAt c <=? Contract.createdAt r')%Z.
        -- constructor. unfold createdNoLater. lia.
        -- inversion Hhd; subst. now constructor.
Qed.

Lemma orderByCreatedAt_sorted (rows : list Contract.t) :
  Sorted createdNoLater (orderByCreatedAt rows).
Proof.
  induction rows as [|r rows IH]; simpl; [constructor|].
  now apply insertByCreatedAt_sorted.
Qed.

Lemma joinedContract_withRelations (d : Db) (rows : list Contract.t) :
  map joinedContract (map (withRelations d) rows) = rows.
Proof.
  rewrite map_map. simpl. apply map_id.
Qed.

(** X1. getActiveContractsForApp returns each contract of the given app and
    entity that is not DELETED exactly once, in ascending order of creation,
    and nothing else: no deleted row, no row of another entity or app. *)
Theorem getActiveContractsForApp_active_in_order :
  forall (C : Collaborators) (entityId appId : Id) (w : World),
    faults C (tick w) = false ->
    exists rows,
      getActiveContractsForApp C entityId appId w
      = (Ok rows, mkWorld (db w) (S (tick w)))
      /\ Sorted createdNoLater (map joinedContract rows)
      /\ Permutation (map joinedContract rows)
           (filter (appContract appId entityId) (contracts (db w)))
      /\ (forall j, In j rows ->
            In (joinedContract j) (contracts (db w))
            /\ Contract.appId (joinedContract j) = appId
            /\ Contract.entityId (joinedContract j) = entityId
            /\ Contract.state (joinedContract j) <> DELETED).
Proof.
  intros C entityId appId w Hf.
  unfold getActiveContractsForApp, query, statement. rewrite Hf.
  eexists. split; [reflexivity|].
  rewrite joinedContract_withRelations.
  split; [apply orderByCreatedAt_sorted|].
  split; [apply orderByCreatedAt_perm|].
  intros j Hj. apply (in_map joinedContract) in Hj.
  rewrite joinedContract_withRelations in Hj.
  apply (Permutation_in _ (orderByCreatedAt_perm _)) in Hj.
  apply filter_In in Hj. destruct Hj as [Hin Hp]. split; [exact Hin|].
  unfold appContract in Hp.
  apply andb_true_iff in Hp. destruct Hp as [Hp Hst].
  apply andb_true_iff in Hp. destruct Hp as [Happ Hent].
  apply String.eqb_eq in Happ, Hent. repeat split; try assumption.
  intros Hdel. rewrite Hdel in Hst. discriminate.
Qed.

(** A run of X1: entity-A lists app-1; the deleted contract-2 and entity-B's
    contract-4 are left out, contract-1 comes before contract-3. *)
Lemma getActiveContractsForApp_active_in_order_witness :
  exists rows,
    getActiveContractsForApp (sampleCollaborators plainClient noFaults)
      "entity-A" "app-1" listingWorld
    = (Ok rows, mkWorld (db listingWorld) 1)
    /\ map Contract.id (map joinedContract rows) = ["contract-1"; "contract-3"].
Proof.
  destruct (getActiveContractsForApp_active_in_order
              (sampleCollaborators plainClient noFaults) "entity-A" "app-1"
              listingWorld eq_refl) as (rows & Hrun & _).
  exists rows. split; [exact Hrun|].
  vm_compute in Hrun. injection Hrun as <-. reflexivity.
Defined.


(** X2. listContractsForApp only reads: whatever happens the store is left as
    it was.  Its try block covers the whole body, so every failure, a missing
    session user as much as a failing query, is answered with the same 500
    'error fetching contracts'; otherwise the answer is the active contracts
    of the app in creation order, each mapped through
    addRebateEligibilityToContract. *)
Theorem listContractsForApp_reads_or_500 :
  forall (C : Collaborators) (Listed : Type)
         (addRebateEligibilityToContract : ContractWithTxRebateAndEntity -> Listed)
         (sessionUser : option User) (appId : Id) (w : World),
    let outcome :=
      listContractsForAppController C Listed addRebateEligibilityToContract
        sessionUser appId w in
    db (snd outcome) = db w
    /\ ((exists user,
            sessionUser = Some user
            /\ faults C (tick w) = false
            /\ fst outcome
               = Ok (map addRebateEligibilityToContract
                       (map (withRelations (db w))
                          (orderByCreatedAt
                             (filter (appContract appId (userEntityId user))
                                (contracts (db w)))))))
        \/ ((sessionUser = None \/ faults C (tick w) = true)
            /\ fst outcome = Err (handleStatus 500 "error fetching contracts"))).
Proof.
  intros C Listed addRebate sessionUser appId w.
  unfold listContractsForAppController, getActiveContractsForApp.
  destruct sessionUser as [user|]; run.
  - destruct (faults C (tick w)) eqn:Hf; simpl.
    + split; [reflexivity|]. right. split; [now right | reflexivity].
    + split; [reflexivity|]. left. exists user. repeat split.
  - split; [reflexivity|]. right. split; [now left | reflexivity].
Qed.

Lemma getActiveContract_run
  (C : Collaborators) (contractId entityId : Id) (w : World) :
  faults C (tick w) = false ->
  getActiveContract C contractId entityId w
  = (Ok (option_map (withRelations (db w))
           (hd_error (filter (activeContract contractId entityId) (contracts (db w))))),
     mkWorld (db w) (S (tick w))).
Proof.
  intros Hf. unfold getActiveContract, query, statement. now rewrite Hf.
Qed.

(** No active row under this id for this entity: every row of that id belongs
    to someone else or is DELETED. *)
Lemma no_active_contract
  (contractId entityId : Id) (rows : list Contract.t) :
  (forall c, In c rows -> Contract.id c = contractId ->
             Contract.entityId c = entityId -> Contract.state c = DELETED) ->
  hd_error (filter (activeContract contractId entityId) rows) = None.
Proof.
  intros H. rewrite filter_none; [reflexivity|].
  intros c Hin. unfold activeContract.
  destruct (String.eqb_spec (Contract.id c) contractId) as [Hi|]; [|reflexivity].
  destruct (String.eqb_spec (Contract.entityId c) entityId) as [He|]; [|reflexivity].
  now rewrite (H c Hin Hi He).
Qed.

Lemma getContractController_run
  (C : Collaborators) (Listed : Type)
  (addRebateEligibilityToContract : ContractWithTxRebateAndEntity -> Listed)
  (user : User) (contractId : Id) (w : World) :
  getContractController C Listed addRebateEligibilityToContract (Some user) contractId w
  = (if faults C (tick w)
     then Err (handleStatus 500 "error fetching contract")
     else
       match hd_error (filter (activeContract contractId (userEntityId user))
                         (contracts (db w))) with
       | Some c => Ok (addRebateEligibilityToContract (withRelations (db w) c))
       | None => Err (handleStatus 400 "contract does not exist")
       end,
     mkWorld (db w) (S (tick w))).
Proof.
  unfold getContractController.
  unfold bind at 1. simpl. unfold bind at 1. unfold catchThrow at 1.
  destruct (faults C (tick w)) eqn:Hf.
  - unfold getActiveContract, query, statement. now rewrite Hf.
  - rewrite getActiveContract_run by exact Hf.
    now destruct (hd_error (filter (activeContract contractId (userEntityId user))
                              (contracts (db w)))).
Qed.

(** X3. getContract is scoped to the entity and to active rows: when every
    contract row of the requested id belongs to another entity or is DELETED
    (or there is none), the answer is 400 'contract does not exist'; when the
    query itself fails it is 500; and a contract that is returned is a row of
    that id, owned by the caller and not DELETED.  The store is never changed. *)
Theorem getContract_entity_scoped :
  forall (C : Collaborators) (Listed : Type)
         (addRebateEligibilityToContract : ContractWithTxRebateAndEntity -> Listed)
         (user : User) (contractId : Id) (w : World),
    let outcome :=
      getContractController C Listed addRebateEligibilityToContract
        (Some user) contractId w in
    db (snd outcome) = db w
    /\ (faults C (tick w) = true ->
        fst outcome = Err (handleStatus 500 "error fetching contract"))
    /\ (faults C (tick w) = false ->
        (forall c, In c (contracts (db w)) -> Contract.id c = contractId ->
                   Contract.entityId c = userEntityId user ->
                   Contract.state c = DELETED) ->
        fst outcome = Err (handleStatus 400 "contract does not exist"))
    /\ (forall listed,
           fst outcome = Ok listed ->
           exists c,
             In c (contracts (db w))
             /\ Contract.id c = contractId
             /\ Contract.entityId c = userEntityId user
             /\ Contract.state c <> DELETED
             /\ listed = addRebateEligibilityToContract (withRelations (db w) c)).
Proof.
  intros C Listed addRebate user contractId w outcome. subst outcome.
  rewrite getContractController_run. simpl.
  split; [reflexivity|].
  destruct (faults C (tick w)) eqn:Hf.
  - repeat split; try discriminate.
  - split; [discriminate|].
    destruct (hd_error (filter (activeContract contractId (userEntityId user))
                          (contracts (db w)))) as [c|] eqn:Hact.
    + split.
      * intros _ Hnone. rewrite no_active_contract in Hact by exact Hnone.
        discriminate.
      * intros listed [= <-]. apply hd_error_filter_In in Hact.
        destruct Hact as [Hin Hp]. unfold activeContract in Hp.
        apply andb_true_iff in Hp. destruct Hp as [Hp Hst].
        apply andb_true_iff in Hp. destruct Hp as [Hid Hent].
        apply String.eqb_eq in Hid, Hent.
        exists c. repeat split; try assumption.
        intros Hdel. rewrite Hdel in Hst. discriminate.
    + split; [reflexivity|]. intros listed H. discriminate H.
Qed.

(** A run of X3: entity-A asks for contract-4, which entity-B owns. *)
Lemma getContract_entity_scoped_witness :
  fst (getContractController (sampleCollaborators plainClient noFaults)
         ContractWithTxRebateAndEntity (fun j => j) (Some alice) "contract-4"
         listingWorld)
  = Err (handleStatus 400 "contract does not exist").
Proof.
  apply (proj1 (proj2 (proj2
           (getContract_entity_scoped (sampleCollaborators plainClient noFaults)
              ContractWithTxRebateAndEntity (fun j => j) alice "contract-4"
              listingWorld)))).
  - reflexivity.
  - simpl. intros c [<-|[<-|[<-|[<-|[]]]]] Hid Hent; discriminate.
Defined.

(** ** Soft delete *)

Lemma deleteContractController_run
  (C : Collaborators) (user : User) (contractId : Id) (w : World) :
  faults C (tick w) = false ->
  deleteContractController C (Some user) contractId w
  = (Ok (mkSuccess true),
     mkWorld
       (set_contracts (db w)
          (update (ownedContract (userEntityId user) contractId)
             (setContractState DELETED (clock C (tick w))) (contracts (db w))))
       (S (tick w))).
Proof.
  intros Hf. unfold deleteContractController, deleteContract. run. now rewrite Hf.
Qed.

Lemma startVerification_absent
  (C : Collaborators) (user : User) (contractId : Id) (w : World) :
  faults C (tick w) = false ->
  hd_error (filter (activeContract contractId (userEntityId user)) (contracts (db w)))
    = None ->
  startVerificationController C (Some user) contractId w
  = (Err (handleStatus 400 "contract does not exist"), mkWorld (db w) (S (tick w))).
Proof.
  intros Hf Hnone. unfold startVerificationController.
  unfold bind at 1. simpl. unfold bind at 1. unfold catchThrow at 1.
  rewrite getActiveContract_run by exact Hf. now rewrite Hnone.
Qed.

Lemma update_In {R} (p : R -> bool) (f : R -> R) (rows : list R) (r : R) :
  In r (update p f rows) ->
  exists r0, In r0 rows /\ r = (if p r0 then f r0 else r0).
Proof.
  unfold update. intros H. apply in_map_iff in H.
  destruct H as (r0 & <- & Hin). now exists r0.
Qed.

Lemma deleted_rows_inactive
  (entityId contractId : Id) (now : Timestamp) (rows : list Contract.t) :
  hd_error
    (filter (activeContract contractId entityId)
       (update (ownedContract entityId contractId) (setContractState DELETED now) rows))
  = None.
Proof.
  apply no_active_contract. intros c Hin Hid Hent.
  apply update_In in Hin. destruct Hin as (c0 & _ & ->).
  destruct (ownedContract entityId contractId c0) eqn:Hown; [reflexivity|].
  unfold ownedContract in Hown. rewrite Hid, Hent, !String.eqb_refl in Hown.
  discriminate.
Qed.

(** X4. deleteContract is a soft delete.  After it the contract is gone for
    the reads that serve the user: getContract and startVerification both
    answer 400 'contract does not exist'.  Yet no row is removed: the table
    keeps the same rows by id, the contract's row stays on file in state
    DELETED, and challenges and transactions are not touched. *)
Theorem deleteContract_soft_deletes :
  forall (C : Collaborators) (Listed : Type)
         (addRebateEligibilityToContract : ContractWithTxRebateAndEntity -> Listed)
         (user : User) (contractId : Id) (w : World),
    faults C (tick w) = false ->
    faults C (S (tick w)) = false ->
    let w1 := snd (deleteContractController C (Some user) contractId w) in
    fst (getContractController C Listed addRebateEligibilityToContract
           (Some user) contractId w1)
    = Err (handleStatus 400 "contract does not exist")
    /\ fst (startVerificationController C (Some user) contractId w1)
       = Err (handleStatus 400 "contract does not exist")
    /\ map Contract.id (contracts (db w1)) = map Contract.id (contracts (db w))
    /\ (forall before,
           contractStateOf (db w) (userEntityId user) contractId = Some before ->
           contractStateOf (db w1) (userEntityId user) contractId = Some DELETED)
    /\ challenges (db w1) = challenges (db w)
    /\ transactions (db w1) = transactions (db w).
Proof.
  intros C Listed addRebate user contractId w F0 F1 w1. subst w1.
  rewrite (deleteContractController_run C user contractId w F0). cbn [snd].
  rewrite getContractController_run. cbn [fst db tick set_contracts contracts].
  rewrite F1, deleted_rows_inactive.
  rewrite startVerification_absent; [|exact F1|apply deleted_rows_inactive].
  repeat split.
  - now apply update_ids.
  - intros before Hbefore. unfold contractStateOf in *. simpl.
    rewrite filter_update_key by (intros; apply ownedContract_setState).
    rewrite hd_error_map.
    destruct (hd_error (filter (ownedContract (userEntityId user) contractId)
                          (contracts (db w)))); [reflexivity|discriminate].
Qed.

(** A run of X4: entity-A deletes its contract-1 and then asks for it. *)
Lemma deleteContract_soft_deletes_witness :
  let C := sampleCollaborators plainClient noFaults in
  let w1 := snd (deleteContractController C (Some alice) "contract-1" listingWorld) in
  fst (getContractController C ContractWithTxRebateAndEntity (fun j => j)
         (Some alice) "contract-1" w1)
  = Err (handleStatus 400 "contract does not exist")
  /\ contractStateOf (db w1) "entity-A" "contract-1" = Some DELETED.
Proof.
  intros C w1.
  destruct (deleteContract_soft_deletes C ContractWithTxRebateAndEntity (fun j => j)
              alice "contract-1" listingWorld eq_refl eq_refl)
    as (Hget & _ & _ & Hstate & _).
  split; [exact Hget | exact (Hstate VERIFIED eq_refl)].
Defined.

(** ** Requests that fail *)

Lemma transaction_rejected {A} (C : Collaborators) (body : M A) (w : World) :
  rejected (transaction C body w) -> db (snd (transaction C body w)) = db w.
Proof.
  unfold rejected, transaction. destruct (faults C (tick w)); [reflexivity|].
  destruct (body _) as [[a|e] wb]; [|reflexivity].
  destruct (faults C (tick wb)); [reflexivity|].
  intros [e He]. discriminate He.
Qed.

Lemma catchThrow_rejected {A} (m : M A) (e : Error) (w : World) :
  rejected (catchThrow m e w) -> rejected (m w).
Proof.
  unfold rejected, catchThrow. destruct (m w) as [[a|e0] w'].
  - intros [e1 H]. discriminate H.
  - intros _. now exists e0.
Qed.

Lemma rejected_ok {A} (a : A) (w : World) : ~ rejected (Ok a, w).
Proof. intros [e H]. discriminate H. Qed.

Lemma registerResolvedContract_rejected
  (C : Collaborators) (user : User) (deploymentTx : ViemTransaction.t)
  (receipt : Receipt.t) (block : Block.t)
  (txAddress inputContractAddress inputDeployerAddress : Address)
  (hash : Hash) (chainId : ChainId) (appId : Id) (w : World) :
  rejected (registerResolvedContract C user deploymentTx receipt block txAddress
              inputContractAddress inputDeployerAddress hash chainId appId w) ->
  db (snd (registerResolvedContract C user deploymentTx receipt block txAddress
             inputContractAddress inputDeployerAddress hash chainId appId w))
  = db w.
Proof.
  unfold registerResolvedContract.
  destruct (negb (addressEqualityCheck C (Receipt.from receipt) inputDeployerAddress));
    [reflexivity|].
  destruct (negb (addressEqualityCheck C txAddress inputContractAddress));
    [reflexivity|].
  intros H. rewrite catchThrow_world.
  now apply transaction_rejected, catchThrow_rejected with (e := handleStatus 500 "error creating contract").
Qed.

Lemma createContract_rejected_unchanged
  (C : Collaborators) (user : User) (input : CreateContractInput.t) (w : World) :
  rejected (createContractController C (Some user) input w) ->
  db (snd (createContractController C (Some user) input w)) = db w.
Proof.
  remember (createContractController C (Some user) input w) as outcome eqn:Hout.
  unfold createContractController in Hout.
  unfold bind at 1 in Hout. simpl in Hout.
  destruct (supportedChainsPublicClientsMap C (CreateContractInput.chainId input))
    as [pc|]; [|now subst outcome].
  unfold bind at 1 in Hout.
  destruct (getTransaction pc (CreateContractInput.deploymentTxHash input)) as [tx|];
    simpl in Hout; [|now subst outcome].
  unfold bind at 1 in Hout.
  destruct (getTransactionReceipt pc (CreateContractInput.deploymentTxHash input))
    as [receipt|]; simpl in Hout; [|now subst outcome].
  unfold bind at 1 in Hout.
  destruct (getBlock pc (ViemTransaction.blockHash tx)) as [block|];
    simpl in Hout; [|now subst outcome].
  unfold bind at 1 in Hout. unfold resolveTxContractAddress in Hout.
  destruct (truthy (Receipt.contractAddress receipt)) eqn:Etruthy; simpl in Hout.
  - rewrite Etruthy in Hout. simpl in Hout.
    destruct (Receipt.contractAddress receipt) as [a|]; [|now subst outcome].
    subst outcome. apply registerResolvedContract_rejected.
  - unfold bind at 1 in Hout.
    destruct (traceTransaction pc (CreateContractInput.deploymentTxHash input))
      as [traced|]; simpl in Hout; [|now subst outcome].
    destruct (truthy (tracedContractAddress traced)); simpl in Hout;
      [|now subst outcome].
    destruct (tracedContractAddress traced) as [a|]; [|now subst outcome].
    subst outcome. apply registerResolvedContract_rejected.
Qed.

Lemma startVerification_rejected_unchanged
  (C : Collaborators) (user : User) (contractId : Id) (w : World) :
  rejected (startVerificationController C (Some user) contractId w) ->
  db (snd (startVerificationController C (Some user) contractId w)) = db w.
Proof.
  remember (startVerificationController C (Some user) contractId w) as outcome eqn:Hout.
  unfold startVerificationController in Hout.
  unfold bind at 1 in Hout. simpl in Hout. unfold bind at 1 in Hout.
  unfold catchThrow at 1, getActiveContract, query, statement in Hout.
  destruct (faults C (tick w)); [now subst outcome|].
  destruct (hd_error (filter (activeContract contractId (userEntityId user))
                        (contracts (db w)))) as [c|]; simpl in Hout;
    [|now subst outcome].
  destruct (ContractState_eqb (Contract.state c) VERIFIED); [now subst outcome|].
  unfold bind at 1 in Hout.
  unfold catchThrow at 1, getUnexpiredChallenge, query, statement in Hout.
  simpl in Hout. destruct (faults C (S (tick w))); [now subst outcome|].
  destruct (hd_error (filter _ (challenges (db w)))) as [existing|].
  { subst outcome. intros H. now apply rejected_ok in H. }
  unfold bind, catchThrow, insertChallenge, statement, ret in Hout. simpl in Hout.
  destruct (faults C (S (S (tick w)))); [now subst outcome|].
  destruct (existsb _ (challenges (db w))); [now subst outcome|].
  subst outcome. intros H. now apply rejected_ok in H.
Qed.

Lemma completeVerification_rejected_unchanged
  (C : Collaborators) (user : User) (challengeId : Id) (signature : Signature)
  (w : World) :
  rejected (completeVerificationController C (Some user) challengeId signature w) ->
  db (snd (completeVerificationController C (Some user) challengeId signature w))
  = db w.
Proof.
  remember (completeVerificationController C (Some user) challengeId signature w)
    as outcome eqn:Hout.
  unfold completeVerificationController in Hout.
  unfold bind at 1 in Hout. simpl in Hout. unfold bind at 1 in Hout.
  unfold catchThrow at 1, getChallengeByChallengeId, query, statement in Hout.
  destruct (faults C (tick w)); [now subst outcome|].
  destruct (hd_error (filter _ (challenges (db w)))) as [ch|]; [|now subst outcome].
  destruct (ChallengeState_eqb (Challenge.state ch) EXPIRED); [now subst outcome|].
  destruct (supportedChainsPublicClientsMap C (Challenge.chainId ch)) as [pc|];
    [|now subst outcome].
  unfold bind at 1 in Hout.
  destruct (verifyMessage pc _ _ signature) as [valid|]; simpl in Hout;
    [|now subst outcome].
  destruct valid; simpl in Hout; [|now subst outcome].
  unfold bind at 1 in Hout.
  match type of Hout with
  | context [catchThrow ?m ?e ?w1] =>
      pose proof (catchThrow_world m e w1) as Hworld;
      pose proof (catchThrow_rejected m e w1) as Hrej;
      destruct (catchThrow m e w1) as [[a|e0] w'] eqn:Hrun
  end.
  - subst outcome. intros H. now apply rejected_ok in H.
  - subst outcome. intros _. simpl in *. rewrite Hworld.
    rewrite transaction_rejected; [reflexivity|].
    apply Hrej. now exists e0.
Qed.

Lemma deleteContract_rejected_unchanged
  (C : Collaborators) (user : User) (contractId : Id) (w : World) :
  rejected (deleteContractController C (Some user) contractId w) ->
  db (snd (deleteContractController C (Some user) contractId w)) = db w.
Proof.
  unfold deleteContractController, deleteContract. run.
  destruct (faults C (tick w)); simpl; [reflexivity|].
  intros H. now apply rejected_ok in H.
Qed.

(** X6. A request of the route that is answered with an error, whatever the
    error and wherever it arose (validation, a chain read, a failing
    statement, a failure inside a transaction), leaves the store exactly as it
    found it. *)
Theorem refused_request_changes_nothing :
  forall (C : Collaborators) (request : Request) (w : World),
    refused C request w -> db (serve C request w) = db w.
Proof.
  intros C [user input | user contractId | user challengeId signature | user contractId]
         w H; simpl in *.
  - now apply createContract_rejected_unchanged.
  - now apply startVerification_rejected_unchanged.
  - now apply completeVerification_rejected_unchanged.
  - now apply deleteContract_rejected_unchanged.
Qed.

(** A run of X6: a registration whose insert succeeds and whose transaction
    row fails to insert; the contract row is rolled back with it. *)
Lemma refused_request_changes_nothing_witness :
  db (serve (sampleCollaborators plainClient (failAt 4))
        (CreateContract alice sampleInput) emptyWorld)
  = db emptyWorld.
Proof.
  apply (refused_request_changes_nothing
           (sampleCollaborators plainClient (failAt 4))
           (CreateContract alice sampleInput) emptyWorld).
  exists (handleStatus 500 "error creating contract"). reflexivity.
Defined.

(** ** createContract: validation *)

(** createContract up to the resolved address, when the receipt names it. *)
Lemma createContractController_resolved
  (C : Collaborators) (user : User) (input : CreateContractInput.t) (w : World)
  (publicClient : PublicClient) (deploymentTx : ViemTransaction.t)
  (receipt : Receipt.t) (block : Block.t) (a : Address) :
  supportedChainsPublicClientsMap C (CreateContractInput.chainId input)
    = Some publicClient ->
  getTransaction publicClient (CreateContractInput.deploymentTxHash input)
    = Resolved deploymentTx ->
  getTransactionReceipt publicClient (CreateContractInput.deploymentTxHash input)
    = Resolved receipt ->
  getBlock publicClient (ViemTransaction.blockHash deploymentTx) = Resolved block ->
  Receipt.contractAddress receipt = Some a ->
  a <> "" ->
  createContractController C (Some user) input w
  = registerResolvedContract C user deploymentTx receipt block a
      (getAddress C (CreateContractInput.contractAddress input))
      (getAddress C (CreateContractInput.deployerAddress input))
      (CreateContractInput.deploymentTxHash input)
      (CreateContractInput.chainId input) (CreateContractInput.appId input) w.
Proof.
  intros Hpc Htx Hrc Hbl Ha Hne.
  assert (Htruthy : truthy (Receipt.contractAddress receipt) = true).
  { rewrite Ha. simpl. now destruct (String.eqb_spec a ""). }
  unfold createContractController. rewrite Hpc.
  unfold bind at 1. simpl. unfold bind at 1. rewrite Htx. simpl.
  unfold bind at 1. rewrite Hrc. simpl.
  unfold bind at 1. rewrite Hbl. simpl.
  unfold bind at 1. unfold resolveTxContractAddress. rewrite Htruthy. simpl.
  rewrite Htruthy. simpl. now rewrite Ha.
Qed.

(** X7. createContract validates before it touches the database: an
    unsupported chain is refused with 400 'chain not supported' before any
    chain read; a receipt whose sender is not the claimed deployer is refused
    with 400 'deployer address does not match deployment transaction'; and,
    the deployer matching, a created address that is not the claimed contract
    with 400 'contract was not created by deployment transaction'.  In all
    three no statement is sent: store and statement count are untouched. *)
Theorem createContract_validates_before_writing :
  forall (C : Collaborators) (user : User) (input : CreateContractInput.t) (w : World),
    (supportedChainsPublicClientsMap C (CreateContractInput.chainId input) = None ->
     createContractController C (Some user) input w
     = (Err (handleStatus 400 "chain not supported"), w))
    /\ (forall publicClient deploymentTx receipt block a,
           supportedChainsPublicClientsMap C (CreateContractInput.chainId input)
             = Some publicClient ->
           getTransaction publicClient (CreateContractInput.deploymentTxHash input)
             = Resolved deploymentTx ->
           getTransactionReceipt publicClient (CreateContractInput.deploymentTxHash input)
             = Resolved receipt ->
           getBlock publicClient (ViemTransaction.blockHash deploymentTx)
             = Resolved block ->
           Receipt.contractAddress receipt = Some a ->
           a <> "" ->
           (addressEqualityCheck C (Receipt.from receipt)
              (getAddress C (CreateContractInput.deployerAddress input)) = false ->
            createContractController C (Some user) input w
            = (Err (handleStatus 400
                      "deployer address does not match deployment transaction"), w))
           /\ (addressEqualityCheck C (Receipt.from receipt)
                 (getAddress C (CreateContractInput.deployerAddress input)) = true ->
               addressEqualityCheck C a
                 (getAddress C (CreateContractInput.contractAddress input)) = false ->
               createContractController C (Some user) input w
               = (Err (handleStatus 400
                         "contract was not created by deployment transaction"), w))).
Proof.
  intros C user input w. split.
  - intros Hnone. unfold createContractController. rewrite Hnone. reflexivity.
  - intros pc tx receipt block a Hpc Htx Hrc Hbl Ha Hne.
    rewrite (createContractController_resolved C user input w pc tx receipt block a
               Hpc Htx Hrc Hbl Ha Hne).
    unfold registerResolvedContract. split.
    + intros Hdep. now rewrite Hdep.
    + intros Hdep Hcon. now rewrite Hdep, Hcon.
Qed.

(** A run of X7: the request claims a deployer other than the receipt's
    sender. *)
Lemma createContract_validates_before_writing_witness :
  createContractController (sampleCollaborators plainClient noFaults) (Some alice)
    (CreateContractInput.mk "0xABC1" "0x1111" "0xBAD0" 10 "app-2") emptyWorld
  = (Err (handleStatus 400 "deployer address does not match deployment transaction"),
     emptyWorld).
Proof.
  apply (proj1 (proj2 (createContract_validates_before_writing
                         (sampleCollaborators plainClient noFaults) alice
                         (CreateContractInput.mk "0xABC1" "0x1111" "0xBAD0" 10 "app-2")
                         emptyWorld)
                  plainClient (ViemTransaction.mk "0x1111" "0xb10c")
                  (Receipt.mk (Some "0xABC1") "0xdef0") (Block.mk 1700000000) "0xABC1"
                  eq_refl eq_refl eq_refl eq_refl eq_refl
                  ltac:(discriminate))).
  reflexivity.
Defined.

(** ** startVerification: who may ask, and what is issued *)

(** X8. startVerification is refused with 400 'contract does not exist' when
    every contract row of the requested id belongs to another entity or is
    DELETED, and with 400 'contract is already verified' when the caller's
    active contract is VERIFIED; neither refusal inserts a challenge. *)
Theorem startVerification_refuses_foreign_deleted_verified :
  forall (C : Collaborators) (user : User) (contractId : Id) (w : World),
    faults C (tick w) = false ->
    ((forall c, In c (contracts (db w)) -> Contract.id c = contractId ->
                Contract.entityId c = userEntityId user ->
                Contract.state c = DELETED) ->
     startVerificationController C (Some user) contractId w
     = (Err (handleStatus 400 "contract does not exist"),
        mkWorld (db w) (S (tick w))))
    /\ (forall c,
           hd_error (filter (activeContract contractId (userEntityId user))
                       (contracts (db w))) = Some c ->
           Contract.state c = VERIFIED ->
           startVerificationController C (Some user) contractId w
           = (Err (handleStatus 400 "contract is already verified"),
              mkWorld (db w) (S (tick w)))).
Proof.
  intros C user contractId w Hf. split.
  - intros Hnone. apply startVerification_absent; [exact Hf|].
    now apply no_active_contract.
  - intros c Hact Hst. unfold startVerificationController.
    unfold bind at 1. simpl. unfold bind at 1. unfold catchThrow at 1.
    rewrite getActiveContract_run by exact Hf. rewrite Hact. simpl.
    now rewrite Hst.
Qed.

(** A run of X8: entity-A asks to verify contract-4, which entity-B owns. *)
Lemma startVerification_refuses_foreign_deleted_verified_witness :
  startVerificationController (sampleCollaborators plainClient noFaults)
    (Some alice) "contract-4" listingWorld
  = (Err (handleStatus 400 "contract does not exist"),
     mkWorld (db listingWorld) 1).
Proof.
  apply (proj1 (startVerification_refuses_foreign_deleted_verified
                  (sampleCollaborators plainClient noFaults) alice "contract-4"
                  listingWorld eq_refl)).
  simpl. intros c [<-|[<-|[<-|[<-|[]]]]] Hid Hent; discriminate.
Defined.

(** X9. A challenge that startVerification issues is for the caller's active,
    not yet verified contract of that id: the message to sign is
    generateChallenge of that contract's deployer address (so contracts that
    share a deployer get the same message), the contracts table is not
    touched, and a newly inserted challenge row is bound to that deployer
    address and to the contract's chain. *)
Theorem startVerification_issues_for_deployer :
  forall (C : Collaborators) (user : User) (contractId : Id) (w w1 : World)
         (issued : IssuedChallenge),
    startVerificationController C (Some user) contractId w = (Ok issued, w1) ->
    exists c,
      hd_error (filter (activeContract contractId (userEntityId user))
                  (contracts (db w))) = Some c
      /\ Contract.state c = NOT_VERIFIED
      /\ challenge issued = generateChallenge C (Contract.deployerAddress c)
      /\ contracts (db w1) = contracts (db w)
      /\ transactions (db w1) = transactions (db w)
      /\ (challenges (db w1) = challenges (db w)
          \/ (challenges (db w1) = (challenges (db w) ++ [issuedRow issued])%list
              /\ Challenge.address (issuedRow issued) = Contract.deployerAddress c
              /\ Challenge.chainId (issuedRow issued) = Contract.chainId c
              /\ Challenge.createdAt (issuedRow issued) = clock C (S (S (tick w))))).
Proof.
  intros C user contractId w w1 issued Hrun.
  pose proof (startVerification_ok _ _ _ _ _ _ Hrun) as (F0 & F1 & c & Hact & Hst).
  rewrite (startVerification_run C user contractId w c F0 F1 Hact Hst) in Hrun.
  exists c. split; [exact Hact|]. split.
  { apply hd_error_filter_In in Hact. destruct Hact as [_ Hp].
    unfold activeContract in Hp. apply andb_true_iff in Hp. destruct Hp as [_ Hnd].
    destruct (Contract.state c); [reflexivity | discriminate | discriminate]. }
  destruct (hd_error (filter _ (challenges (db w)))) as [existing|].
  - injection Hrun as <- <-. simpl. repeat split. now left.
  - unfold bind at 1 in Hrun. unfold catchThrow, insertChallenge, statement in Hrun.
    simpl in Hrun.
    destruct (faults C (S (S (tick w)))); [discriminate|].
    destruct (existsb _ (challenges (db w))); [discriminate|].
    unfold ret in Hrun. injection Hrun as <- <-. simpl. repeat split.
    right. repeat split.
Qed.

(** A run of X9: a fresh challenge for entity-A's contract-3. *)
Lemma startVerification_issues_for_deployer_witness :
  exists issued w1,
    startVerificationController (sampleCollaborators plainClient noFaults)
      (Some alice) "contract-3" listingWorld = (Ok issued, w1)
    /\ challenge issued = "I verify that I control 0xdef0"
    /\ contracts (db w1) = contracts (db listingWorld).
Proof.
  eexists. eexists. split.
  - vm_compute. reflexivity.
  - destruct (startVerification_issues_for_deployer
                (sampleCollaborators plainClient noFaults) alice "contract-3"
                listingWorld _ _ eq_refl) as (c & Hact & _ & Hmsg & Hcs & _).
    vm_compute in Hact. injection Hact as <-. split; [exact Hmsg | exact Hcs].
Defined.

(** ** completeVerification: the verifier and what follows *)

(** X10. In completeVerification a challenge whose chain has no client is a
    server-side inconsistency, answered 500 with the chain id in the message;
    and verifyMessage has no catch handler, so when the verifier call itself
    fails its raw error goes up uncategorized.  Neither writes to the store. *)
Theorem completeVerification_chain_and_verifier_failures :
  forall (C : Collaborators) (user : User) (challengeId : Id) (signature : Signature)
         (w w1 : World) (ch : Challenge.t),
    getChallengeByChallengeId C (userEntityId user) challengeId w = (Ok (Some ch), w1) ->
    Challenge.state ch <> EXPIRED ->
    db w1 = db w
    /\ (supportedChainsPublicClientsMap C (Challenge.chainId ch) = None ->
        completeVerificationController C (Some user) challengeId signature w
        = (Err (handleStatus 500
                  ("challenge is on invalid chain id: "
                   ++ NilZero.string_of_int (Z.to_int (Challenge.chainId ch)))),
           w1))
    /\ (forall publicClient,
           supportedChainsPublicClientsMap C (Challenge.chainId ch) = Some publicClient ->
           verifyMessage publicClient (Challenge.address ch)
             (generateChallenge C (Challenge.address ch)) signature = Rejected ->
           completeVerificationController C (Some user) challengeId signature w
           = (Err RpcError, w1)).
Proof.
  intros C user challengeId signature w w1 ch Hlookup Hstate.
  pose proof (getChallengeByChallengeId_found _ _ _ _ _ _ Hlookup) as (_ & Hw1 & _).
  split; [now subst w1|].
  assert (Hguard : ChallengeState_eqb (Challenge.state ch) EXPIRED = false).
  { destruct (Challenge.state ch); try reflexivity. contradiction. }
  split.
  - intros Hnone. unfold completeVerificationController.
    unfold bind at 1. simpl. unfold bind at 1. unfold catchThrow at 1.
    rewrite Hlookup, Hguard, Hnone. reflexivity.
  - intros pc Hpc Hverify. unfold completeVerificationController.
    unfold bind at 1. simpl. unfold bind at 1. unfold catchThrow at 1.
    rewrite Hlookup, Hguard, Hpc. unfold bind at 1. now rewrite Hverify.
Qed.

(** A run of X10: the challenge sits on chain 999, which has no client. *)
Lemma completeVerification_chain_and_verifier_failures_witness :
  completeVerificationController (sampleCollaborators plainClient noFaults)
    (Some alice) "challenge-1" "0x600d" strayChainWorld
  = (Err (handleStatus 500 "challenge is on invalid chain id: 999"),
     mkWorld (db strayChainWorld) 1).
Proof.
  apply (proj1 (proj2
           (completeVerification_chain_and_verifier_failures
              (sampleCollaborators plainClient noFaults) alice "challenge-1" "0x600d"
              strayChainWorld (mkWorld (db strayChainWorld) 1)
              (Challenge.mk 500 "challenge-1" "entity-A" "contract-1" "0xdef0" 999
                 PENDING)
              eq_refl ltac:(discriminate)))).
  reflexivity.
Defined.

(** A successful completeVerification, read backwards: the challenge was
    found, and the store holds both updates. *)
Lemma completeVerification_ok
  (C : Collaborators) (user : User) (challengeId : Id) (signature : Signature)
  (w w' : World) (answer : Success) :
  completeVerificationController C (Some user) challengeId signature w
    = (Ok answer, w') ->
  exists ch,
    hd_error (filter (ownedChallenge (userEntityId user) challengeId)
                (challenges (db w))) = Some ch
    /\ challenges (db w')
       = update (ownedChallenge (userEntityId user) challengeId)
           (setChallengeState COMPLETED) (challenges (db w))
    /\ contracts (db w')
       = update (ownedContract (userEntityId user) (Challenge.contractId ch))
           (setContractState VERIFIED (clock C (S (S (S (tick w))))))
           (contracts (db w))
    /\ transactions (db w') = transactions (db w)
    /\ tick w' = S (S (S (S (S (tick w))))).
Proof.
  unfold completeVerificationController.
  unfold bind at 1. simpl. unfold bind at 1.
  unfold catchThrow at 1, getChallengeByChallengeId, query, statement.
  destruct (faults C (tick w)); [discriminate|].
  destruct (hd_error (filter _ (challenges (db w)))) as [ch|] eqn:Hfound;
    [|discriminate].
  destruct (ChallengeState_eqb (Challenge.state ch) EXPIRED); [discriminate|].
  destruct (supportedChainsPublicClientsMap C (Challenge.chainId ch)) as [pc|];
    [|discriminate].
  unfold bind at 1.
  destruct (verifyMessage pc _ _ signature) as [valid|]; simpl; [|discriminate].
  destruct valid; simpl; [|discriminate].
  destruct (completeVerification_unit_outcome C user challengeId
              (Challenge.contractId ch)
              (handleStatus 500 "server failed to mark challenge as complete")
              (mkWorld (db w) (S (tick w))))
    as (r & wu & Hrun & Hout).
  unfold bind at 1. rewrite Hrun.
  destruct Hout as [(Hclean & -> & Hchs & Hcs) | (_ & -> & _)]; [|discriminate].
  unfold ret. intros [= _ <-]. exists ch. simpl in *.
  split; [reflexivity|]. split; [exact Hchs|]. split; [exact Hcs|].
  unfold catchThrow, transaction, completeVerificationUnit, completeChallenge,
    verifyContract, bind, statement, ret in Hrun. simpl in Hrun.
  unfold unitFaulty in Hclean. simpl in Hclean.
  apply orb_false_iff in Hclean. destruct Hclean as [Hclean F3].
  apply orb_false_iff in Hclean. destruct Hclean as [Hclean F2].
  apply orb_false_iff in Hclean. destruct Hclean as [F0 F1].
  rewrite F0 in Hrun. simpl in Hrun. rewrite F1 in Hrun. simpl in Hrun.
  rewrite F2 in Hrun. simpl in Hrun. rewrite F3 in Hrun.
  injection Hrun as <-. split; reflexivity.
Qed.

Lemma active_after_verify
  (entityId contractId : Id) (now : Timestamp) (rows : list Contract.t) :
  filter (activeContract contractId entityId)
    (update (ownedContract entityId contractId) (setContractState VERIFIED now) rows)
  = map (setContractState VERIFIED now) (filter (ownedContract entityId contractId) rows).
Proof.
  induction rows as [|r rows IH]; simpl; [reflexivity|].
  destruct (ownedContract entityId contractId r) eqn:Hown; simpl.
  - assert (Hact : activeContract contractId entityId
                     (setContractState VERIFIED now r) = true).
    { unfold ownedContract in Hown. apply andb_true_iff in Hown.
      destruct Hown as [He Hi]. unfold activeContract. simpl. now rewrite He, Hi. }
    rewrite Hact. now f_equal.
  - assert (Hact : activeContract contractId entityId r = false).
    { unfold ownedContract in Hown. unfold activeContract.
      destruct (Contract.id r =? contractId)%string,
               (Contract.entityId r =? entityId)%string;
        simpl in *; try reflexivity; discriminate. }
    now rewrite Hact.
Qed.

Lemma startVerification_verified
  (C : Collaborators) (user : User) (contractId : Id) (w : World) (c : Contract.t) :
  faults C (tick w) = false ->
  hd_error (filter (activeContract contractId (userEntityId user)) (contracts (db w)))
    = Some c ->
  Contract.state c = VERIFIED ->
  startVerificationController C (Some user) contractId w
  = (Err (handleStatus 400 "contract is already verified"),
     mkWorld (db w) (S (tick w))).
Proof.
  intros Hf Hact Hst. unfold startVerificationController.
  unfold bind at 1. simpl. unfold bind at 1. unfold catchThrow at 1.
  rewrite getActiveContract_run by exact Hf. rewrite Hact. simpl.
  now rewrite Hst.
Qed.

(** X11. After a successful completeVerification the caller's contract of the
    challenge is active and VERIFIED whatever its state was before: the
    update does not look at the old state, so a contract that was soft-deleted
    after its challenge was issued comes back.  A further startVerification
    for it is refused with 400 'contract is already verified'. *)
Theorem completeVerification_leaves_contract_active_verified :
  forall (C : Collaborators) (user : User) (challengeId : Id) (signature : Signature)
         (w w' : World) (answer : Success),
    completeVerificationController C (Some user) challengeId signature w
      = (Ok answer, w') ->
    challengesOwned (db w) ->
    exists ch c,
      hd_error (filter (ownedChallenge (userEntityId user) challengeId)
                  (challenges (db w))) = Some ch
      /\ hd_error (filter (ownedContract (userEntityId user) (Challenge.contractId ch))
                     (contracts (db w))) = Some c
      /\ hd_error (filter (activeContract (Challenge.contractId ch) (userEntityId user))
                     (contracts (db w')))
         = Some (setContractState VERIFIED (clock C (S (S (S (tick w))))) c)
      /\ (faults C (tick w') = false ->
          startVerificationController C (Some user) (Challenge.contractId ch) w'
          = (Err (handleStatus 400 "contract is already verified"),
             mkWorld (db w') (S (tick w')))).
Proof.
  intros C user challengeId signature w w' answer Hrun Hown.
  apply completeVerification_ok in Hrun.
  destruct Hrun as (ch & Hfound & _ & Hcs & _ & _).
  destruct (owned_challenge_has_contract _ _ _ _ Hown Hfound) as (before & Hrow).
  unfold contractStateOf in Hrow.
  destruct (hd_error (filter (ownedContract (userEntityId user) (Challenge.contractId ch))
                        (contracts (db w)))) as [c|] eqn:Hc; [|discriminate].
  assert (Hactive :
            hd_error (filter (activeContract (Challenge.contractId ch) (userEntityId user))
                        (contracts (db w')))
            = Some (setContractState VERIFIED (clock C (S (S (S (tick w))))) c)).
  { rewrite Hcs, active_after_verify, hd_error_map, Hc. reflexivity. }
  exists ch, c. split; [exact Hfound|]. split; [exact Hc|].
  split; [exact Hactive|].
  intros Hf. now apply (startVerification_verified C user _ w' _ Hf Hactive).
Qed.

(** A run of X11: the contract was deleted while its challenge was pending;
    completing the challenge brings it back, VERIFIED. *)
Lemma completeVerification_leaves_contract_active_verified_witness :
  let C := sampleCollaborators plainClient noFaults in
  contractStateOf (db deletedWithChallengeWorld) "entity-A" "contract-1" = Some DELETED
  /\ exists w' c,
       completeVerificationController C (Some alice) "challenge-1" "0x600d"
         deletedWithChallengeWorld = (Ok (mkSuccess true), w')
       /\ hd_error (filter (activeContract "contract-1" "entity-A") (contracts (db w')))
          = Some c
       /\ Contract.state c = VERIFIED.
Proof.
  intros C. split; [reflexivity|].
  eexists. eexists. split; [vm_compute; reflexivity|].
  destruct (completeVerification_leaves_contract_active_verified C alice "challenge-1"
              "0x600d" deletedWithChallengeWorld _ _ eq_refl)
    as (ch & c & Hch & Hc & Hactive & _).
  - intros ch0 [<-|[]].
    exists (sampleContract "contract-1" "entity-A" DELETED).
    split; [now left | reflexivity].
  - vm_compute in Hch. injection Hch as <-.
    vm_compute in Hc. injection Hc as <-.
    split; [exact Hactive | reflexivity].
Defined.

(** ** The unique index of the contracts table *)

(** X14. The unique index on (entityId, chainId, contractAddress) works on the
    checksum form: once insertContract has stored a row, a second
    insertContract for the same entity and chain whose address differs from
    the first at most in letter case is rejected by the database, and the
    store stays as it was. *)
Theorem insertContract_slot_taken :
  forall (C : Collaborators) (contract contract' : InsertContract.t)
         (w w1 : World) (r : Contract.t),
    caseInsensitive C ->
    insertContract C contract w = (Ok (Some r), w1) ->
    InsertContract.entityId contract' = InsertContract.entityId contract ->
    InsertContract.chainId contract' = InsertContract.chainId contract ->
    sameModuloCase (InsertContract.contractAddress contract')
      (InsertContract.contractAddress contract) ->
    insertContract C contract' w1 = (Err DbError, mkWorld (db w1) (S (tick w1))).
Proof.
  intros C contract contract' w w1 r Hcase Hins Hent Hchain Haddr.
  pose proof (insertContract_inserted _ _ _ _ _ Hins)
    as (_ & _ & Hw1 & Hre & Hrc & _ & Hra & _).
  unfold insertContract, statement.
  destruct (faults C (tick w1)); [reflexivity|].
  match goal with
  | |- context [violatesContractConstraints ?row ?rows] =>
      assert (Hv : violatesContractConstraints row rows = true)
  end.
  { unfold violatesContractConstraints. subst w1. simpl.
    rewrite existsb_app. simpl.
    rewrite Hre, Hrc, Hra, Hent, Hchain, (Hcase _ _ Haddr).
    rewrite !String.eqb_refl, Z.eqb_refl. simpl.
    now rewrite !orb_true_r. }
  now rewrite Hv.
Qed.

(** A run of X14: the same address, first in lower then in upper case. *)
Lemma insertContract_slot_taken_witness :
  let C := sampleCollaborators plainClient noFaults in
  let first := InsertContract.mk None None None "entity-A" 10 "app-1" None
                 "0xabc1" "0xdef0" "0x1111" None in
  let second := InsertContract.mk None None None "entity-A" 10 "app-2" None
                  "0xABC1" "0xdef0" "0x2222" None in
  exists r w1,
    insertContract C first emptyWorld = (Ok (Some r), w1)
    /\ insertContract C second w1 = (Err DbError, mkWorld (db w1) (S (tick w1))).
Proof.
  intros C first second. eexists. eexists. split.
  - vm_compute. reflexivity.
  - apply (insertContract_slot_taken C first second emptyWorld _ _ (fun a b H => H)
             eq_refl eq_refl eq_refl eq_refl).
Defined.

Lemma update_slots (p : Contract.t -> bool) (f : Contract.t -> Contract.t)
  (rows : list Contract.t) :
  (forall c, slotKey (f c) = slotKey c) ->
  map slotKey (update p f rows) = map slotKey rows.
Proof.
  intros Hf. unfold update. rewrite map_map. apply map_ext.
  intros c. now destruct (p c).
Qed.

Lemma slotUnique_insert (r : Contract.t) (d : Db) :
  violatesContractConstraints r (contracts d) = false ->
  slotUnique d ->
  slotUnique (set_contracts d (contracts d ++ [r])).
Proof.
  intros Hv Hu. unfold slotUnique in *. simpl. rewrite map_app. simpl.
  apply NoDup_app; [exact Hu | constructor; [intros [] | constructor] |].
  intros k Hk [<-|[]]. apply in_map_iff in Hk. destruct Hk as (c & Hck & Hc).
  unfold slotKey in Hck. injection Hck as He Hch Ha.
  unfold violatesContractConstraints in Hv.
  assert (Hex : existsb
                  (fun c =>
                     (Contract.id c =? Contract.id r)%string
                     || ((Contract.entityId c =? Contract.entityId r)%string
                         && (Contract.chainId c =? Contract.chainId r)%Z
                         && (Contract.contractAddress c =? Contract.contractAddress r)%string))
                  (contracts d) = true).
  { apply existsb_exists. exists c. split; [exact Hc|].
    rewrite He, Hch, Ha, !String.eqb_refl, Z.eqb_refl. apply orb_true_r. }
  congruence.
Qed.

Lemma keeps_slotUnique_update
  (C : Collaborators) (p : Contract.t -> bool) (f : nat -> Contract.t -> Contract.t) :
  (forall n c, slotKey (f n c) = slotKey c) ->
  keeps slotUnique
    (statement C (fun n d =>
       Ok (hd_error (returning p (f n) (contracts d)),
           set_contracts d (update p (f n) (contracts d))))).
Proof.
  intros Hf. apply keeps_statement. intros n d a d' H [= _ <-].
  unfold slotUnique in *. simpl. now rewrite update_slots.
Qed.

Lemma keeps_slotUnique_createContractUnit
  (C : Collaborators) (user : User) (deploymentTx : ViemTransaction.t)
  (receipt : Receipt.t) (block : Block.t) (inputContractAddress inputDeployerAddress : Address)
  (hash : Hash) (chainId : ChainId) (appId : Id) :
  keeps slotUnique
    (createContractUnit C user deploymentTx receipt block inputContractAddress
       inputDeployerAddress hash chainId appId).
Proof.
  unfold createContractUnit.
  apply keeps_bind; [apply keeps_query|]. intros trusted.
  apply keeps_bind; [apply keeps_query|]. intros [existing|].
  - destruct (negb _); [apply keeps_throw|].
    apply keeps_bind; [|intros; apply keeps_ret].
    apply keeps_catchThrow.
    apply (keeps_slotUnique_update C _
             (fun n => setContractStateAndApp _ appId (clock C n))).
    reflexivity.
  - apply keeps_bind.
    + apply keeps_statement. intros n d a d' H. cbv beta zeta.
      match goal with
      | |- context [violatesContractConstraints ?r ?rows] =>
          destruct (violatesContractConstraints r rows) eqn:Hv; [discriminate|]
      end.
      intros [= _ <-]. now apply slotUnique_insert.
    + intros [c|]; [|apply keeps_throw].
      apply keeps_bind; [|intros; apply keeps_ret].
      apply keeps_statement. intros n d a d' H [= _ <-]. exact H.
Qed.

Lemma startVerification_keeps_contracts
  (C : Collaborators) (user : User) (contractId : Id) (w : World) :
  contracts (db (snd (startVerificationController C (Some user) contractId w)))
  = contracts (db w).
Proof.
  assert (H : keeps (fun d => contracts d = contracts (db w))
                (startVerificationController C (Some user) contractId)).
  { unfold startVerificationController, assertUserAuthenticated.
    apply keeps_bind; [apply keeps_ret|]. intros u.
    apply keeps_bind; [apply keeps_catchThrow, keeps_query|].
    intros [joined|]; [|apply keeps_throw].
    destruct (ContractState_eqb _ VERIFIED); [apply keeps_throw|].
    apply keeps_bind; [apply keeps_catchThrow, keeps_query|].
    intros [existing|]; [apply keeps_ret|].
    apply keeps_bind; [|intros; apply keeps_ret].
    apply keeps_catchThrow, keeps_statement. intros n d a d' Hd. cbv beta zeta.
    destruct (existsb _ (challenges d)); [discriminate|].
    intros [= _ <-]. exact Hd. }
  now apply H.
Qed.

Lemma keeps_slotUnique_serve (C : Collaborators) (request : Request) (w : World) :
  slotUnique (db w) -> slotUnique (db (serve C request w)).
Proof.
  destruct request as [user input | user contractId | user challengeId signature
                       | user contractId]; simpl.
  - revert w. change (keeps slotUnique (createContractController C (Some user) input)).
    unfold createContractController, assertUserAuthenticated.
    apply keeps_bind; [apply keeps_ret|]. intros u.
    destruct (supportedChainsPublicClientsMap C (CreateContractInput.chainId input))
      as [pc|]; [|apply keeps_throw].
    apply keeps_bind; [apply keeps_catchThrow, keeps_await|]. intros tx.
    apply keeps_bind; [apply keeps_catchThrow, keeps_await|]. intros receipt.
    apply keeps_bind; [apply keeps_catchThrow, keeps_await|]. intros block.
    apply keeps_bind.
    { unfold resolveTxContractAddress. destruct (truthy _); [apply keeps_ret|].
      apply keeps_bind; [apply keeps_catchThrow, keeps_await|].
      intros; apply keeps_ret. }
    intros txContractAddress. destruct (negb _); [apply keeps_throw|].
    destruct txContractAddress as [a|]; [|apply keeps_throw].
    unfold registerResolvedContract.
    destruct (negb _); [apply keeps_throw|].
    destruct (negb _); [apply keeps_throw|].
    apply keeps_catchThrow, keeps_transaction, keeps_slotUnique_createContractUnit.
  - unfold slotUnique. now rewrite startVerification_keeps_contracts.
  - revert w.
    change (keeps slotUnique
              (completeVerificationController C (Some user) challengeId signature)).
    unfold completeVerificationController, assertUserAuthenticated.
    apply keeps_bind; [apply keeps_ret|]. intros u.
    apply keeps_bind; [apply keeps_catchThrow, keeps_query|].
    intros [ch|]; [|apply keeps_throw].
    destruct (ChallengeState_eqb (Challenge.state ch) EXPIRED); [apply keeps_throw|].
    destruct (supportedChainsPublicClientsMap C (Challenge.chainId ch)) as [pc|];
      [|apply keeps_throw].
    apply keeps_bind; [apply keeps_await|]. intros valid.
    destruct (negb valid); [apply keeps_throw|].
    apply keeps_bind; [|intros; apply keeps_ret].
    apply keeps_catchThrow, keeps_transaction. unfold completeVerificationUnit.
    apply keeps_bind.
    { apply keeps_statement. intros n d a d' H [= _ <-]. exact H. }
    intros _. apply keeps_bind; [|intros; apply keeps_ret].
    apply (keeps_slotUnique_update C _ (fun n => setContractState VERIFIED (clock C n))).
    reflexivity.
  - revert w.
    change (keeps slotUnique (deleteContractController C (Some user) contractId)).
    unfold deleteContractController, assertUserAuthenticated.
    apply keeps_bind; [apply keeps_ret|]. intros u.
    apply keeps_bind; [|intros; apply keeps_ret].
    apply keeps_catchThrow.
    apply (keeps_slotUnique_update C _ (fun n => setContractState DELETED (clock C n))).
    reflexivity.
Qed.

(** X13. Every store the four controllers can reach from an empty one keeps
    the constraints of the schema: contract ids are unique, no two contract
    rows share (entityId, chainId, contractAddress), deleted rows included,
    and every challenge points at a contract row of its own entity. *)
Theorem reachable_store_invariants :
  forall (C : Collaborators) (w : World),
    reachable C w ->
    primaryKeyed (db w) /\ slotUnique (db w) /\ challengesOwned (db w).
Proof.
  intros C w Hreach.
  destruct (reachable_consistent C w Hreach) as [Hpk Hown].
  split; [exact Hpk|]. split; [|exact Hown].
  clear Hpk Hown. induction Hreach as [n | w request Hreach IH].
  - constructor.
  - now apply keeps_slotUnique_serve.
Qed.

(** A run of X13: register, delete, register again; the slot is still held by
    one row. *)
Lemma reachable_store_invariants_witness :
  let C := sampleCollaborators plainClient noFaults in
  let w :=
    serve C (CreateContract alice sampleInput)
      (serve C (DeleteContract alice "uuid-3")
         (serve C (CreateContract alice sampleInput) emptyWorld)) in
  map slotKey (contracts (db w)) = [("entity-A", 10, "0xabc1")]
  /\ slotUnique (db w).
Proof.
  intros C w. split; [reflexivity|].
  apply (reachable_store_invariants C w).
  unfold w. repeat apply reachable_serve. apply reachable_empty.
Defined.

(** ** createContract: trust in a proven deployer, and restoring *)

Lemma limit1_nonempty {R} (p : R -> bool) (rows : list R) :
  (0 <? length (firstn 1 (filter p rows)))%nat = existsb p rows.
Proof.
  induction rows as [|r rows IH]; simpl; [reflexivity|].
  destruct (p r); simpl; [reflexivity | exact IH].
Qed.

(** The test of hasAlreadyVerifiedDeployer, on a normalized address. *)
Lemma createContractUnit_fresh_trust
  (C : Collaborators) (user : User) (deploymentTx : ViemTransaction.t)
  (receipt : Receipt.t) (block : Block.t) (inputContractAddress inputDeployerAddress : Address)
  (hash : Hash) (chainId : ChainId) (appId : Id) (w0 wb : World)
  (result : option Contract.t) :
  filter (slotOf (userEntityId user) (getAddress C inputContractAddress) chainId)
    (contracts (db w0)) = [] ->
  createContractUnit C user deploymentTx receipt block inputContractAddress
    inputDeployerAddress hash chainId appId w0 = (Ok result, wb) ->
  exists r,
    result = Some r
    /\ Contract.state r
       = if existsb
              (fun c =>
                 (Contract.entityId c =? userEntityId user)%string
                 && ContractState_eqb (Contract.state c) VERIFIED
                 && (Contract.deployerAddress c =? getAddress C inputDeployerAddress)%string)
              (contracts (db w0))
         then VERIFIED else NOT_VERIFIED.
Proof.
  intros Hfree.
  unfold createContractUnit, hasAlreadyVerifiedDeployer.
  unfold bind at 1. unfold query at 1, statement at 1.
  destruct (faults C (tick w0)) eqn:F0; [discriminate|]. cbv beta iota.
  rewrite limit1_nonempty.
  unfold bind at 1.
  destruct (faults C (S (tick w0))) eqn:F1.
  { unfold getContractByAddressAndChainId, query, statement. simpl. rewrite F1.
    discriminate. }
  rewrite getContractByAddressAndChainId_run by exact F1.
  cbn [db]. rewrite Hfree. cbn [hd_error].
  unfold bind at 1.
  match goal with
  | |- context [insertContract C ?v ?w] =>
      destruct (insertContract C v w) as [[[r|]|e] w1] eqn:Hins; try discriminate
  end.
  pose proof (insertContract_inserted _ _ _ _ _ Hins)
    as (_ & _ & _ & _ & _ & _ & _ & _ & Hst).
  simpl in Hst.
  unfold bind at 1. unfold insertTransaction, statement, ret.
  destruct (faults C (tick w1)); [discriminate|].
  intros [= <- _]. exists r. split; [reflexivity | exact Hst].
Qed.

(** X12. A contract that createContract registers afresh is stored VERIFIED
    exactly when the same entity already holds a VERIFIED contract whose
    deployer is the request's deployer address in checksum form, and
    NOT_VERIFIED otherwise; verified contracts of other entities do not count. *)
Theorem createContract_trusts_proven_deployer :
  forall (C : Collaborators) (user : User) (input : CreateContractInput.t)
         (w w' : World) (r : Contract.t),
    idempotentChecksum C ->
    createContractController C (Some user) input w = (Ok (Some r), w') ->
    filter (slotOf (userEntityId user)
              (getAddress C (CreateContractInput.contractAddress input))
              (CreateContractInput.chainId input))
      (contracts (db w)) = [] ->
    (Contract.state r = VERIFIED \/ Contract.state r = NOT_VERIFIED)
    /\ (Contract.state r = VERIFIED
        <-> exists c,
              In c (contracts (db w))
              /\ Contract.entityId c = userEntityId user
              /\ Contract.state c = VERIFIED
              /\ Contract.deployerAddress c
                 = getAddress C (CreateContractInput.deployerAddress input)).
Proof.
  intros C user input w w' r Hidem Hrun Hfree.
  apply createContractController_ok in Hrun.
  destruct Hrun as (tx & receipt & block & wb & Hunit & _).
  apply createContractUnit_fresh_trust in Hunit; [|rewrite Hidem; exact Hfree].
  destruct Hunit as (r0 & Hr & Hst). injection Hr as <-.
  simpl in Hst. rewrite Hidem in Hst.
  match type of Hst with
  | _ = if existsb ?p ?rows then _ else _ =>
      destruct (existsb p rows) eqn:Htrust
  end.
  - split; [now left|]. split; [|intros _; exact Hst].
    intros _. apply existsb_exists in Htrust. destruct Htrust as (c & Hin & Hp).
    apply andb_true_iff in Hp. destruct Hp as [Hp Hdep].
    apply andb_true_iff in Hp. destruct Hp as [Hent Hver].
    apply String.eqb_eq in Hent, Hdep.
    exists c. repeat split; try assumption.
    destruct (Contract.state c); try discriminate. reflexivity.
  - split; [now right|]. rewrite Hst. split; [discriminate|].
    intros (c & Hin & Hent & Hver & Hdep). exfalso.
    assert (Hex : existsb
                    (fun c =>
                       (Contract.entityId c =? userEntityId user)%string
                       && ContractState_eqb (Contract.state c) VERIFIED
                       && (Contract.deployerAddress c
                           =? getAddress C (CreateContractInput.deployerAddress input))%string)
                    (contracts (db w)) = true).
    { apply existsb_exists. exists c. split; [exact Hin|].
      now rewrite Hent, Hver, Hdep, !String.eqb_refl. }
    congruence.
Qed.

(** A run of X12: entity-A has proven deployer 0xdef0 on contract-1; its next
    contract by that deployer is stored VERIFIED at once. *)
Lemma createContract_trusts_proven_deployer_witness :
  exists r w',
    createContractController (sampleCollaborators secondClient noFaults)
      (Some alice) secondInput (sampleWorld VERIFIED COMPLETED) = (Ok (Some r), w')
    /\ Contract.state r = VERIFIED.
Proof.
  eexists. eexists. split.
  - vm_compute. reflexivity.
  - apply (proj2 (createContract_trusts_proven_deployer
                    (sampleCollaborators secondClient noFaults) alice secondInput
                    (sampleWorld VERIFIED COMPLETED) _ _
                    toLowerCase_idempotent eq_refl eq_refl)).
    exists (sampleContract "contract-1" "entity-A" VERIFIED).
    split; [now left | repeat split].
Defined.

Lemma transaction_faultless {A} (C : Collaborators) (body : M A) (w : World) :
  faultless C ->
  transaction C body w
  = match body (mkWorld (db w) (S (tick w))) with
    | (Ok a, wb) => (Ok a, mkWorld (db wb) (S (tick wb)))
    | (Err e, wb) => (Err e, mkWorld (db w) (tick wb))
    end.
Proof.
  intros Hfl. unfold transaction. rewrite Hfl.
  destruct (body _) as [[a|e] wb]; [now rewrite Hfl | reflexivity].
Qed.

Lemma filter_primary_key (rows : list Contract.t) (c : Contract.t) :
  NoDup (map Contract.id rows) -> In c rows ->
  filter (fun r => (Contract.id r =? Contract.id c)%string) rows = [c].
Proof.
  induction rows as [|r rows IH]; simpl; intros Hnd Hin; [contradiction|].
  inversion Hnd as [|x l Hnotin Hnd']; subst.
  destruct Hin as [->|Hin].
  - rewrite String.eqb_refl. f_equal. apply filter_none. intros r' Hr'.
    destruct (String.eqb_spec (Contract.id r') (Contract.id c)) as [E|]; [|reflexivity].
    exfalso. apply Hnotin. rewrite <- E. now apply in_map.
  - destruct (String.eqb_spec (Contract.id r) (Contract.id c)) as [E|].
    + exfalso. apply Hnotin. rewrite E. now apply in_map.
    + now apply IH.
Qed.

(** X5. Registering a contract whose slot is held by a DELETED row restores
    that row in place: the request is answered with the old row under its old
    id, moved into the requested app and set VERIFIED or NOT_VERIFIED; the
    row keeps its creation time, deployer address and deployment transaction
    hash as first stored, not those of the new request; no contract row is
    added and no transaction row is written. *)
Theorem createContract_restores_deleted_row :
  forall (C : Collaborators) (user : User) (input : CreateContractInput.t) (w : World)
         (publicClient : PublicClient) (deploymentTx : ViemTransaction.t)
         (receipt : Receipt.t) (block : Block.t) (a : Address) (existing : Contract.t),
    faultless C ->
    supportedChainsPublicClientsMap C (CreateContractInput.chainId input)
      = Some publicClient ->
    getTransaction publicClient (CreateContractInput.deploymentTxHash input)
      = Resolved deploymentTx ->
    getTransactionReceipt publicClient (CreateContractInput.deploymentTxHash input)
      = Resolved receipt ->
    getBlock publicClient (ViemTransaction.blockHash deploymentTx) = Resolved block ->
    Receipt.contractAddress receipt = Some a ->
    a <> "" ->
    addressEqualityCheck C (Receipt.from receipt)
      (getAddress C (CreateContractInput.deployerAddress input)) = true ->
    addressEqualityCheck C a
      (getAddress C (CreateContractInput.contractAddress input)) = true ->
    primaryKeyed (db w) ->
    hd_error
      (filter (slotOf (userEntityId user)
                 (getAddress C (getAddress C (CreateContractInput.contractAddress input)))
                 (CreateContractInput.chainId input))
         (contracts (db w))) = Some existing ->
    Contract.state existing = DELETED ->
    let outcome := createContractController C (Some user) input w in
    exists state,
      (state = VERIFIED \/ state = NOT_VERIFIED)
      /\ fst outcome
         = Ok (Some (setContractStateAndApp state (CreateContractInput.appId input)
                       (clock C (S (S (S (tick w))))) existing))
      /\ contracts (db (snd outcome))
         = update (fun c => (Contract.id c =? Contract.id existing)%string)
             (setContractStateAndApp state (CreateContractInput.appId input)
                (clock C (S (S (S (tick w))))))
             (contracts (db w))
      /\ map Contract.id (contracts (db (snd outcome))) = map Contract.id (contracts (db w))
      /\ transactions (db (snd outcome)) = transactions (db w).
Proof.
  intros C user input w pc tx receipt block a existing Hfl Hpc Htx Hrc Hbl Ha Hne
         Hdep Hcon Hpk Hslot Hdel outcome.
  subst outcome.
  rewrite (createContractController_resolved C user input w pc tx receipt block a
             Hpc Htx Hrc Hbl Ha Hne).
  unfold registerResolvedContract. rewrite Hdep, Hcon. simpl.
  unfold catchThrow. rewrite transaction_faultless by exact Hfl.
  destruct (createContractUnit_branches C user tx receipt block
              (getAddress C (CreateContractInput.contractAddress input))
              (getAddress C (CreateContractInput.deployerAddress input))
              (CreateContractInput.deploymentTxHash input)
              (CreateContractInput.chainId input) (CreateContractInput.appId input)
              (mkWorld (db w) (S (tick w)))
              (Hfl _) (Hfl _) (Hfl _) (Hfl _))
    as (_ & Hrestore & _).
  specialize (Hrestore existing Hslot Hdel).
  destruct Hrestore as (Hres & Hcs & _ & Htxs).
  destruct (createContractUnit _ _ _ _ _ _ _ _ _ _ _) as [res wb].
  simpl in Hres, Hcs, Htxs. subst res. simpl.
  pose proof (hd_error_filter_In _ _ _ Hslot) as [Hin _].
  unfold returning. rewrite (filter_primary_key _ existing Hpk Hin). simpl.
  match goal with
  | |- context [setContractStateAndApp (if ?b then _ else _)] =>
      exists (if b then VERIFIED else NOT_VERIFIED); destruct b
  end;
    (split; [auto|]); (split; [reflexivity|]); (split; [exact Hcs|]);
    (split; [|exact Htxs]); rewrite Hcs; now apply update_ids.
Qed.

(** A run of X5: entity-A's contract-1 was deleted; registering its address
    again brings contract-1 back, in app-2, and writes no transaction row. *)
Lemma createContract_restores_deleted_row_witness :
  let outcome :=
    createContractController (sampleCollaborators plainClient noFaults) (Some alice)
      sampleInput (sampleWorld DELETED PENDING) in
  exists r,
    fst outcome = Ok (Some r)
    /\ Contract.id r = "contract-1"
    /\ Contract.appId r = "app-2"
    /\ Contract.state r = NOT_VERIFIED
    /\ transactions (db (snd outcome)) = [].
Proof.
  intros outcome.
  destruct (createContract_restores_deleted_row
              (sampleCollaborators plainClient noFaults) alice sampleInput
              (sampleWorld DELETED PENDING) plainClient
              (ViemTransaction.mk "0x1111" "0xb10c")
              (Receipt.mk (Some "0xABC1") "0xdef0") (Block.mk 1700000000) "0xABC1"
              (sampleContract "contract-1" "entity-A" DELETED)
              (fun n => eq_refl) eq_refl eq_refl eq_refl eq_refl eq_refl
              ltac:(discriminate) eq_refl eq_refl
              ltac:(repeat constructor; intros [])
              eq_refl eq_refl)
    as (state & _ & _ & _ & _ & Htxs).
  exists (setContractStateAndApp NOT_VERIFIED "app-2" 1003
            (sampleContract "contract-1" "entity-A" DELETED)).
  split; [vm_compute; reflexivity|].
  split; [reflexivity|]. split; [reflexivity|]. split; [reflexivity|].
  exact Htxs.
Defined.

(** ** The verification protocol, end to end *)

Lemma protocol_update_contracts
  (p : Contract.t -> bool) (f : Contract.t -> Contract.t) (d : Db) :
  (forall c, Contract.id (f c) = Contract.id c) ->
  (forall c, Contract.entityId (f c) = Contract.entityId c) ->
  (forall c, Contract.deployerAddress (f c) = Contract.deployerAddress c) ->
  (forall c, Contract.chainId (f c) = Contract.chainId c) ->
  protocolInvariant d ->
  protocolInvariant (set_contracts d (update p f (contracts d))).
Proof.
  intros Hid Hent Hdep Hchain (Hpk & Hck & Hb). split; [|split; [exact Hck|]].
  - unfold primaryKeyed. simpl. now rewrite update_ids.
  - intros ch Hch. destruct (Hb ch Hch) as (c & Hc & Hoc & Hd & Hn). simpl.
    exists (if p c then f c else c). split.
    + unfold update. apply (in_map (fun r => if p r then f r else r)) in Hc. exact Hc.
    + unfold ownedContract in *. destruct (p c); [|now repeat split].
      now rewrite Hid, Hent, Hdep, Hchain.
Qed.

Lemma protocol_insert_contract (r : Contract.t) (d : Db) :
  violatesContractConstraints r (contracts d) = false ->
  protocolInvariant d ->
  protocolInvariant (set_contracts d (contracts d ++ [r])).
Proof.
  intros Hv (Hpk & Hck & Hb).
  assert (Hcons : storeConsistent d).
  { split; [exact Hpk|]. intros ch Hch. destruct (Hb ch Hch) as (c & Hc & Hoc & _).
    now exists c. }
  destruct (consistent_insert_contract r d Hv Hcons) as [Hpk' _].
  split; [exact Hpk'|]. split; [exact Hck|].
  intros ch Hch. destruct (Hb ch Hch) as (c & Hc & Hrest). simpl.
  exists c. split; [apply in_or_app; now left | exact Hrest].
Qed.

Lemma protocol_complete_challenges (p : Challenge.t -> bool) (d : Db) :
  protocolInvariant d ->
  protocolInvariant
    (set_challenges d (update p (setChallengeState COMPLETED) (challenges d))).
Proof.
  intros (Hpk & Hck & Hb). split; [exact Hpk|]. split.
  - unfold challengeKeyed in *. simpl. unfold update. rewrite map_map.
    erewrite map_ext; [exact Hck|]. intros ch. now destruct (p ch).
  - intros ch Hch. simpl in Hch. apply update_In in Hch.
    destruct Hch as (ch0 & Hch0 & ->).
    destruct (Hb ch0 Hch0) as (c & Hc & Hrest). exists c. split; [exact Hc|].
    now destruct (p ch0).
Qed.

Lemma keeps_protocol_contract_update
  (C : Collaborators) (p : Contract.t -> bool) (f : nat -> Contract.t -> Contract.t) :
  (forall n c, Contract.id (f n c) = Contract.id c) ->
  (forall n c, Contract.entityId (f n c) = Contract.entityId c) ->
  (forall n c, Contract.deployerAddress (f n c) = Contract.deployerAddress c) ->
  (forall n c, Contract.chainId (f n c) = Contract.chainId c) ->
  keeps protocolInvariant
    (statement C (fun n d =>
       Ok (hd_error (returning p (f n) (contracts d)),
           set_contracts d (update p (f n) (contracts d))))).
Proof.
  intros H1 H2 H3 H4. apply keeps_statement. intros n d a d' H [= _ <-].
  now apply protocol_update_contracts.
Qed.

Lemma keeps_protocol_createContract
  (C : Collaborators) (user : User) (input : CreateContractInput.t) :
  keeps protocolInvariant (createContractController C (Some user) input).
Proof.
  unfold createContractController, assertUserAuthenticated.
  apply keeps_bind; [apply keeps_ret|]. intros u.
  destruct (supportedChainsPublicClientsMap C (CreateContractInput.chainId input))
    as [pc|]; [|apply keeps_throw].
  apply keeps_bind; [apply keeps_catchThrow, keeps_await|]. intros tx.
  apply keeps_bind; [apply keeps_catchThrow, keeps_await|]. intros receipt.
  apply keeps_bind; [apply keeps_catchThrow, keeps_await|]. intros block.
  apply keeps_bind.
  { unfold resolveTxContractAddress. destruct (truthy _); [apply keeps_ret|].
    apply keeps_bind; [apply keeps_catchThrow, keeps_await|].
    intros; apply keeps_ret. }
  intros txContractAddress. destruct (negb _); [apply keeps_throw|].
  destruct txContractAddress as [a|]; [|apply keeps_throw].
  unfold registerResolvedContract.
  destruct (negb _); [apply keeps_throw|].
  destruct (negb _); [apply keeps_throw|].
  apply keeps_catchThrow, keeps_transaction. unfold createContractUnit.
  apply keeps_bind; [apply keeps_query|]. intros trusted.
  apply keeps_bind; [apply keeps_query|]. intros [existing|].
  - destruct (negb _); [apply keeps_throw|].
    apply keeps_bind; [|intros; apply keeps_ret].
    apply keeps_catchThrow.
    apply (keeps_protocol_contract_update C _
             (fun n => setContractStateAndApp _ _ (clock C n))); reflexivity.
  - apply keeps_bind.
    + apply keeps_statement. intros n d r d' H. cbv beta zeta.
      match goal with
      | |- context [violatesContractConstraints ?row ?rows] =>
          destruct (violatesContractConstraints row rows) eqn:Hv; [discriminate|]
      end.
      intros [= _ <-]. now apply protocol_insert_contract.
    + intros [c|]; [|apply keeps_throw].
      apply keeps_bind; [|intros; apply keeps_ret].
      apply keeps_statement. intros n d r d' H [= _ <-]. exact H.
Qed.

Lemma keeps_protocol_completeVerification
  (C : Collaborators) (user : User) (challengeId : Id) (signature : Signature) :
  keeps protocolInvariant
    (completeVerificationController C (Some user) challengeId signature).
Proof.
  unfold completeVerificationController, assertUserAuthenticated.
  apply keeps_bind; [apply keeps_ret|]. intros u.
  apply keeps_bind; [apply keeps_catchThrow, keeps_query|].
  intros [ch|]; [|apply keeps_throw].
  destruct (ChallengeState_eqb (Challenge.state ch) EXPIRED); [apply keeps_throw|].
  destruct (supportedChainsPublicClientsMap C (Challenge.chainId ch)) as [pc|];
    [|apply keeps_throw].
  apply keeps_bind; [apply keeps_await|]. intros valid.
  destruct (negb valid); [apply keeps_throw|].
  apply keeps_bind; [|intros; apply keeps_ret].
  apply keeps_catchThrow, keeps_transaction. unfold completeVerificationUnit.
  apply keeps_bind.
  { apply keeps_statement. intros n d r d' H [= _ <-].
    now apply protocol_complete_challenges. }
  intros _. apply keeps_bind; [|intros; apply keeps_ret].
  apply (keeps_protocol_contract_update C _
           (fun n => setContractState VERIFIED (clock C n))); reflexivity.
Qed.

Lemma keeps_protocol_deleteContract
  (C : Collaborators) (user : User) (contractId : Id) :
  keeps protocolInvariant (deleteContractController C (Some user) contractId).
Proof.
  unfold deleteContractController, assertUserAuthenticated.
  apply keeps_bind; [apply keeps_ret|]. intros u.
  apply keeps_bind; [|intros; apply keeps_ret].
  apply keeps_catchThrow.
  apply (keeps_protocol_contract_update C _
           (fun n => setContractState DELETED (clock C n))); reflexivity.
Qed.

Lemma keeps_protocol_startVerification
  (C : Collaborators) (user : User) (contractId : Id) :
  keeps protocolInvariant (startVerificationController C (Some user) contractId).
Proof.
  intros w H. unfold startVerificationController.
  unfold bind at 1. simpl. unfold bind at 1.
  unfold catchThrow at 1, getActiveContract, query, statement.
  destruct (faults C (tick w)); [exact H|].
  destruct (hd_error (filter (activeContract contractId (userEntityId user))
                        (contracts (db w)))) as [c|] eqn:Hact; simpl; [|exact H].
  destruct (ContractState_eqb (Contract.state c) VERIFIED); [exact H|].
  unfold bind at 1. unfold catchThrow at 1, getUnexpiredChallenge, query, statement.
  simpl. destruct (faults C (S (tick w))); [exact H|].
  destruct (hd_error (filter _ (challenges (db w)))); [exact H|].
  unfold bind, catchThrow, insertChallenge, statement, ret. simpl.
  destruct (faults C (S (S (tick w)))); [exact H|].
  destruct (existsb _ (challenges (db w))) eqn:Hfresh; [exact H|]. simpl.
  destruct H as (Hpk & Hck & Hb). split; [exact Hpk|]. split.
  - unfold challengeKeyed in *. simpl. rewrite map_app. simpl.
    apply NoDup_app; [exact Hck | constructor; [intros [] | constructor] |].
    intros i Hi [<-|[]]. apply in_map_iff in Hi. destruct Hi as (ch & Hci & Hch).
    assert (Hex : existsb
                    (fun ch => (Challenge.id ch =? uuid C (S (S (tick w))))%string)
                    (challenges (db w)) = true).
    { apply existsb_exists. exists ch. split; [exact Hch|].
      rewrite Hci. apply String.eqb_refl. }
    simpl in Hfresh. congruence.
  - intros ch Hch. simpl in Hch. apply in_app_or in Hch.
    destruct Hch as [Hch | [<- | []]]; [exact (Hb ch Hch)|]. simpl.
    apply hd_error_filter_In in Hact. destruct Hact as [Hin Hactive].
    exists c. split; [exact Hin|].
    unfold activeContract in Hactive. unfold ownedContract.
    apply andb_true_iff in Hactive. destruct Hactive as [Hactive _].
    apply andb_true_iff in Hactive. destruct Hactive as [Hid Hent].
    rewrite Hid, Hent. repeat split.
Qed.

(** Every store the route reaches keeps the protocol's invariant. *)
Lemma reachable_protocol (C : Collaborators) (w : World) :
  reachable C w -> protocolInvariant (db w).
Proof.
  induction 1 as [n | w request Hreach IH].
  - split; [constructor|]. split; [constructor | intros ch []].
  - destruct request; simpl.
    + now apply keeps_protocol_createContract.
    + now apply keeps_protocol_startVerification.
    + now apply keeps_protocol_completeVerification.
    + now apply keeps_protocol_deleteContract.
Qed.

Lemma filter_challenge_key (rows : list Challenge.t) (ch : Challenge.t) :
  NoDup (map Challenge.id rows) -> In ch rows ->
  filter (ownedChallenge (Challenge.entityId ch) (Challenge.id ch)) rows = [ch].
Proof.
  induction rows as [|r rows IH]; simpl; intros Hnd Hin; [contradiction|].
  inversion Hnd as [|x l Hnotin Hnd']; subst.
  unfold ownedChallenge at 1.
  destruct Hin as [->|Hin].
  - rewrite !String.eqb_refl. simpl. f_equal. apply filter_none. intros r' Hr'.
    unfold ownedChallenge.
    destruct (String.eqb_spec (Challenge.id r') (Challenge.id ch)) as [E|]; [|reflexivity].
    exfalso. apply Hnotin. rewrite <- E. now apply in_map.
  - destruct (String.eqb_spec (Challenge.id r) (Challenge.id ch)) as [E|]; simpl.
    + exfalso. apply Hnotin. rewrite E. now apply in_map.
    + now apply IH.
Qed.

(** What a successful startVerification hands out: a PENDING challenge row of
    the caller, on file, for that contract. *)
Lemma startVerification_issued_row
  (C : Collaborators) (user : User) (contractId : Id) (w w1 : World)
  (issued : IssuedChallenge) :
  startVerificationController C (Some user) contractId w = (Ok issued, w1) ->
  exists c,
    hd_error (filter (activeContract contractId (userEntityId user))
                (contracts (db w))) = Some c
    /\ challenge issued = generateChallenge C (Contract.deployerAddress c)
    /\ contracts (db w1) = contracts (db w)
    /\ In (issuedRow issued) (challenges (db w1))
    /\ Challenge.entityId (issuedRow issued) = userEntityId user
    /\ Challenge.contractId (issuedRow issued) = contractId
    /\ Challenge.state (issuedRow issued) = PENDING.
Proof.
  intros Hrun.
  pose proof (startVerification_ok _ _ _ _ _ _ Hrun) as (F0 & F1 & c & Hact & Hst).
  rewrite (startVerification_run C user contractId w c F0 F1 Hact Hst) in Hrun.
  exists c. split; [exact Hact|].
  destruct (hd_error (filter _ (challenges (db w)))) as [existing|] eqn:Hpending.
  - injection Hrun as <- <-. simpl.
    apply hd_error_filter_In in Hpending. destruct Hpending as [Hin Hp].
    unfold unexpiredFor, unexpired in Hp.
    apply andb_true_iff in Hp. destruct Hp as [Hp Hun].
    apply andb_true_iff in Hp. destruct Hp as [Hcid Hent].
    apply andb_true_iff in Hun. destruct Hun as [Hpend _].
    apply String.eqb_eq in Hcid, Hent.
    repeat split; try assumption.
    destruct (Challenge.state existing); [reflexivity | discriminate | discriminate].
  - unfold bind at 1 in Hrun. unfold catchThrow, insertChallenge, statement in Hrun.
    simpl in Hrun.
    destruct (faults C (S (S (tick w)))); [discriminate|].
    destruct (existsb _ (challenges (db w))); [discriminate|].
    unfold ret in Hrun. injection Hrun as <- <-. simpl. repeat split.
    apply in_or_app. right. now left.
Qed.

Lemma faultless_unit (C : Collaborators) (n : nat) :
  faultless C -> unitFaulty C n = false.
Proof. intros H. unfold unitFaulty. now rewrite !H. Qed.

(** X15. The two phases fit together.  In a store the route has reached and
    an environment where no statement fails, once startVerification has
    issued a challenge, a signature that the verifier accepts for the issued
    message and the challenge's address completes it: completeVerification
    with the issued challenge id succeeds, the contract is VERIFIED and the
    challenge COMPLETED. *)
Theorem issued_challenge_completes :
  forall (C : Collaborators) (user : User) (contractId : Id) (signature : Signature)
         (w w1 : World) (issued : IssuedChallenge) (publicClient : PublicClient),
    faultless C ->
    reachable C w ->
    startVerificationController C (Some user) contractId w = (Ok issued, w1) ->
    supportedChainsPublicClientsMap C (Challenge.chainId (issuedRow issued))
      = Some publicClient ->
    verifyMessage publicClient (Challenge.address (issuedRow issued))
      (challenge issued) signature = Resolved true ->
    exists w2,
      completeVerificationController C (Some user)
        (Challenge.id (issuedRow issued)) signature w1 = (Ok (mkSuccess true), w2)
      /\ contractStateOf (db w2) (userEntityId user) contractId = Some VERIFIED
      /\ challengeStateOf (db w2) (userEntityId user) (Challenge.id (issuedRow issued))
         = Some COMPLETED.
Proof.
  intros C user contractId signature w w1 issued pc Hfl Hreach Hrun Hpc Hverify.
  pose proof (reachable_protocol C w Hreach) as Hinv.
  assert (Hinv1 : protocolInvariant (db w1)).
  { pose proof (keeps_protocol_startVerification C user contractId w Hinv) as H.
    now rewrite Hrun in H. }
  destruct (startVerification_issued_row _ _ _ _ _ _ Hrun)
    as (c0 & Hact & Hmsg & Hcs & Hin & Hent & Hcid & Hpending).
  destruct Hinv1 as (Hpk1 & Hck1 & Hb1).
  destruct (Hb1 _ Hin) as (c & Hc & Hown & Hdep & _).
  rewrite Hent, Hcid in Hown.
  (* the contract the message was derived from is the challenge's contract *)
  assert (Hsame : c = c0).
  { apply hd_error_filter_In in Hact. destruct Hact as [Hc0 Hp0].
    unfold activeContract in Hp0. apply andb_true_iff in Hp0. destruct Hp0 as [Hp0 _].
    apply andb_true_iff in Hp0. destruct Hp0 as [Hid0 _].
    unfold ownedContract in Hown. apply andb_true_iff in Hown. destruct Hown as [_ Hid].
    apply String.eqb_eq in Hid0, Hid.
    apply (primary_key_unique (contracts (db w1))); try assumption.
    - now rewrite Hcs.
    - now rewrite Hid, Hid0. }
  subst c0.
  assert (Hlookup :
            getChallengeByChallengeId C (userEntityId user)
              (Challenge.id (issuedRow issued)) w1
            = (Ok (Some (issuedRow issued)), mkWorld (db w1) (S (tick w1)))).
  { unfold getChallengeByChallengeId, query, statement. rewrite Hfl.
    rewrite <- Hent, (filter_challenge_key _ _ Hck1 Hin). reflexivity. }
  assert (Hstate : Challenge.state (issuedRow issued) <> EXPIRED)
    by (rewrite Hpending; discriminate).
  rewrite Hmsg, Hdep in Hverify.
  rewrite (completeVerification_after_check C user _ signature w1 _ _ pc true
             Hlookup Hstate Hpc Hverify).
  destruct (completeVerification_unit_outcome C user (Challenge.id (issuedRow issued))
              (Challenge.contractId (issuedRow issued))
              (handleStatus 500 "server failed to mark challenge as complete")
              (mkWorld (db w1) (S (tick w1))))
    as (r & w2 & Hunit & [(_ & -> & Hchs & Hcs2) | (Hbad & _)]);
    [|rewrite faultless_unit in Hbad by exact Hfl; discriminate].
  simpl. unfold bind at 1. rewrite Hunit.
  exists w2. split; [reflexivity|]. split.
  - unfold contractStateOf. rewrite Hcs2, Hcid. simpl.
    rewrite filter_update_key by (intros; apply ownedContract_setState).
    rewrite hd_error_map.
    destruct (filter (ownedContract (userEntityId user) contractId) (contracts (db w1)))
      as [|x l] eqn:Hf; [|reflexivity].
    assert (Hcin : In c (filter (ownedContract (userEntityId user) contractId)
                            (contracts (db w1)))) by (apply filter_In; now split).
    rewrite Hf in Hcin. destruct Hcin.
  - unfold challengeStateOf. rewrite Hchs. simpl.
    rewrite filter_update_key by (intros; apply ownedChallenge_setState).
    rewrite hd_error_map, <- Hent, (filter_challenge_key _ _ Hck1 Hin). reflexivity.
Qed.

(** A run of X15: register, ask for a challenge, sign, complete. *)
Lemma issued_challenge_completes_witness :
  let C := sampleCollaborators plainClient noFaults in
  let w := serve C (CreateContract alice sampleInput) emptyWorld in
  exists issued w1 w2,
    startVerificationController C (Some alice) "uuid-3" w = (Ok issued, w1)
    /\ completeVerificationController C (Some alice)
         (Challenge.id (issuedRow issued)) "0x600d" w1 = (Ok (mkSuccess true), w2)
    /\ contractStateOf (db w2) (userEntityId alice) "uuid-3" = Some VERIFIED.
Proof.
  intros C w. eexists. eexists.
  assert (Hstart :
            startVerificationController C (Some alice) "uuid-3" w
            = (Ok (mkIssued
                     (Challenge.mk 1008 "uuid-8" "entity-A" "uuid-3" "0xdef0" 10 PENDING)
                     "I verify that I control 0xdef0"),
               snd (startVerificationController C (Some alice) "uuid-3" w)))
    by (vm_compute; reflexivity).
  destruct (issued_challenge_completes C alice "uuid-3" "0x600d" w _ _ plainClient
              (fun n => eq_refl)
              (reachable_serve C _ _ (reachable_empty C 0))
              Hstart eq_refl eq_refl)
    as (w2 & Hcomplete & Hcontract & _).
  exists w2. split; [exact Hstart|]. split; [exact Hcomplete | exact Hcontract].
Defined.
